(** * climb-assess: the result store, the loaders and the table primitive

    A shallow embedding of [self_assesment.py] (the reporting script) and of
    [self-assesment.py] (the alternate interactive script).

    Conventions of the embedding:
    - a Python [str] is a [string]; characters are the code points below 256,
      which covers everything the scripts themselves write;
    - a Python [int] is a [Z];
    - a Python [dict] is an insertion-ordered association list with unique
      keys ([dict_set] overwrites in place, appends otherwise);
    - a raised exception is the [Raise] branch of [result];
    - a text file is its content, a [string]; reading it line by line is
      [readlines], appending to it is concatenation. *)

From Stdlib Require Import ZArith List String Ascii Bool Lia Arith.
From Stdlib Require Import Sorting.Sorted Sorting.Permutation.
Import ListNotations.

Local Open Scope string_scope.
Local Open Scope Z_scope.

(** ** Exceptions *)

Inductive exn : Type :=
| ValueError
| IndexError
| KeyError
| AttributeError.

Inductive result (A : Type) : Type :=
| Ok (a : A)
| Raise (e : exn).

Arguments Ok {A} a.
Arguments Raise {A} e.

Definition bind {A B : Type} (r : result A) (k : A -> result B) : result B :=
  match r with
  | Ok a => k a
  | Raise e => Raise e
  end.

Notation "x <- r ;; k" := (bind r (fun x => k))
  (at level 61, r at next level, right associativity).

Definition is_ok {A : Type} (r : result A) : bool :=
  match r with Ok _ => true | Raise _ => false end.

(** The failures the specification calls format errors: a field that is not
    an integer ([ValueError]) or a missing delimiter ([IndexError]). *)
Definition format_error (e : exn) : bool :=
  match e with
  | ValueError | IndexError => true
  | _ => false
  end.

(** ** Characters and strings *)

Definition nl : ascii := "010"%char.
Definition dquote : ascii := "034"%char.
Definition cr : ascii := "013"%char.

Definition code (c : ascii) : nat := nat_of_ascii c.

(** [str.isspace] on one code point below 256. *)
Definition is_space (c : ascii) : bool :=
  let n := code c in
  ((9 <=? n) && (n <=? 13) || (28 <=? n) && (n <=? 32)
   || (n =? 133) || (n =? 160))%nat.

Definition is_digit (c : ascii) : bool :=
  let n := code c in ((48 <=? n) && (n <=? 57))%nat.

Definition digit_val (c : ascii) : Z := Z.of_nat (code c) - 48.

Definition digit_char (d : Z) : ascii := ascii_of_nat (48 + Z.to_nat d).

Definition len (s : string) : Z := Z.of_nat (String.length s).

Fixpoint all_chars (p : ascii -> bool) (s : string) : bool :=
  match s with
  | EmptyString => true
  | String c r => p c && all_chars p r
  end.

(** [c * n] for a one-character string [c]. *)
Fixpoint repeat_char (c : ascii) (n : nat) : string :=
  match n with
  | O => ""
  | S n' => String c (repeat_char c n')
  end.

(** [s.replace(a, b)] for one-character [a] and [b]. *)
Fixpoint replace_char (a b : ascii) (s : string) : string :=
  match s with
  | EmptyString => ""
  | String c r => String (if Ascii.eqb c a then b else c) (replace_char a b r)
  end.

(** [sep.join(l)]. *)
Fixpoint join (sep : string) (l : list string) : string :=
  match l with
  | [] => ""
  | [x] => x
  | x :: r => x ++ sep ++ join sep r
  end.

Fixpoint lstrip (s : string) : string :=
  match s with
  | EmptyString => ""
  | String c r => if is_space c then lstrip r else s
  end.

Fixpoint rstrip (s : string) : string :=
  match s with
  | EmptyString => ""
  | String c r =>
      match rstrip r with
      | EmptyString => if is_space c then "" else String c ""
      | r' => String c r'
      end
  end.

(** [s.strip()]. *)
Definition strip (s : string) : string := rstrip (lstrip s).

(** [s.split()]: the maximal runs of non-space characters. *)
Fixpoint split_ws (s : string) : list string :=
  match s with
  | EmptyString => []
  | String c r =>
      if is_space c then split_ws r
      else match r with
           | EmptyString => [String c ""]
           | String c' _ =>
               if is_space c' then String c "" :: split_ws r
               else match split_ws r with
                    | t :: ts => String c t :: ts
                    | [] => [String c ""]
                    end
           end
  end.

(** [s.split(sep)] for a one-character separator; never empty. *)
Fixpoint split_on (sep : ascii) (s : string) : list string :=
  match s with
  | EmptyString => [""]
  | String c r =>
      if Ascii.eqb c sep then "" :: split_on sep r
      else match split_on sep r with
           | t :: ts => String c t :: ts
           | [] => [String c ""]
           end
  end.

(** Iterating over a file opened in text mode: the lines with their
    terminator, every terminator ([\n], [\r\n], [\r]) read as [\n]. *)
Fixpoint readlines (s : string) : list string :=
  match s with
  | EmptyString => []
  | String c r =>
      if Ascii.eqb c nl then String nl "" :: readlines r
      else if Ascii.eqb c cr then
        match r with
        | String c' r' =>
            if Ascii.eqb c' nl then String nl "" :: readlines r'
            else String nl "" :: readlines r
        | EmptyString => [String nl ""]
        end
      else match readlines r with
           | l :: ls => String c l :: ls
           | [] => [String c ""]
           end
  end.

(** [l[i]] for [i >= 0]. *)
Definition index {A : Type} (l : list A) (i : nat) : result A :=
  match nth_error l i with
  | Some x => Ok x
  | None => Raise IndexError
  end.

(** ** Integers and their text *)

(** The decimal digits of [n >= 0], most significant first, in front of
    [acc]. *)
Fixpoint str_digits (fuel : nat) (n : Z) (acc : string) : string :=
  match fuel with
  | O => acc
  | S f =>
      let acc' := String (digit_char (n mod 10)) acc in
      if n / 10 =? 0 then acc' else str_digits f (n / 10) acc'
  end.

Definition str_nonneg (n : Z) : string :=
  str_digits (S (Z.to_nat (Z.log2 n))) n "".

(** [str(z)], which is also ['{}'.format(z)]. *)
Definition str (z : Z) : string :=
  if z <? 0 then String "-" (str_nonneg (- z)) else str_nonneg z.

(** The digit part of an integer literal: digits, single underscores only
    between digits. [prev] tells whether the previous character was a
    digit. *)
Fixpoint int_digits (s : string) (acc : Z) (prev : bool) : option Z :=
  match s with
  | EmptyString => if prev then Some acc else None
  | String c r =>
      if is_digit c then int_digits r (acc * 10 + digit_val c) true
      else if Ascii.eqb c "_" then
             if prev then int_digits r acc false else None
      else None
  end.

Definition int_literal (s : string) : option Z :=
  match s with
  | String "-" r => option_map Z.opp (int_digits r 0 false)
  | String "+" r => int_digits r 0 false
  | _ => int_digits s 0 false
  end.

(** [int(s)] in base ten. *)
Definition int (s : string) : result Z :=
  match int_literal (strip s) with
  | Some z => Ok z
  | None => Raise ValueError
  end.


(** ** Dictionaries *)

Class Key (K : Type) : Type := {
  key_eqb : K -> K -> bool;
  key_eqb_spec : forall x y : K, reflect (x = y) (key_eqb x y)
}.

#[export] Instance Key_Z : Key Z :=
  {| key_eqb := Z.eqb; key_eqb_spec := Z.eqb_spec |}.

#[export] Instance Key_string : Key string :=
  {| key_eqb := String.eqb; key_eqb_spec := String.eqb_spec |}.

Definition dict (K V : Type) : Type := list (K * V).

Section Dict.
Context {K V : Type} `{Key K}.

(** [d.get(k)]. *)
Fixpoint dict_get (d : dict K V) (k : K) : option V :=
  match d with
  | [] => None
  | (k', v) :: r => if key_eqb k k' then Some v else dict_get r k
  end.

(** [k in d]. *)
Definition dict_mem (d : dict K V) (k : K) : bool :=
  match dict_get d k with Some _ => true | None => false end.

(** [d[k]]. *)
Definition getitem (d : dict K V) (k : K) : result V :=
  match dict_get d k with
  | Some v => Ok v
  | None => Raise KeyError
  end.

(** [d[k] = v]: a present key keeps its place, a new one goes last. *)
Fixpoint dict_set (d : dict K V) (k : K) (v : V) : dict K V :=
  match d with
  | [] => [(k, v)]
  | (k', v') :: r =>
      if key_eqb k k' then (k', v) :: r else (k', v') :: dict_set r k v
  end.

Definition keys (d : dict K V) : list K := map fst d.
Definition values (d : dict K V) : list V := map snd d.
End Dict.

(** [sum(l)]. *)
Definition sum (l : list Z) : Z := fold_right Z.add 0 l.

Section Sorted.
Context {A : Type} (leb : A -> A -> bool).

Fixpoint insert (x : A) (l : list A) : list A :=
  match l with
  | [] => [x]
  | y :: r => if leb x y then x :: l else y :: insert x r
  end.

(** [sorted(l)]; stable. *)
Definition sorted (l : list A) : list A := fold_right insert [] l.
End Sorted.

Fixpoint mapM {A B : Type} (f : A -> result B) (l : list A)
  : result (list B) :=
  match l with
  | [] => Ok []
  | x :: r => y <- f x ;; ys <- mapM f r ;; Ok (y :: ys)
  end.

Fixpoint foldM {A S : Type} (f : S -> A -> result S) (l : list A) (s : S)
  : result S :=
  match l with
  | [] => Ok s
  | x :: r => s' <- f s x ;; foldM f r s'
  end.

(** ** Timestamps *)

(** A naive [datetime.datetime]. *)
Record datetime : Type := mk_datetime {
  year : Z;
  month : Z;
  day : Z;
  hour : Z;
  minute : Z;
  second : Z;
  microsecond : Z
}.

Definition is_leap (y : Z) : bool :=
  (y mod 4 =? 0) && (negb (y mod 100 =? 0) || (y mod 400 =? 0)).

Definition days_in_month (y m : Z) : Z :=
  if m =? 2 then (if is_leap y then 29 else 28)
  else if (m =? 4) || (m =? 6) || (m =? 9) || (m =? 11) then 30
  else 31.

Definition between (lo x hi : Z) : bool := (lo <=? x) && (x <=? hi).

(** The range checks of the [datetime] constructor. *)
Definition valid_datetime (t : datetime) : bool :=
  between 1 (year t) 9999 && between 1 (month t) 12 &&
  between 1 (day t) (days_in_month (year t) (month t)) &&
  between 0 (hour t) 23 && between 0 (minute t) 59 &&
  between 0 (second t) 59 && between 0 (microsecond t) 999999.

Definition make_datetime (y mo d h mi s us : Z) : result datetime :=
  let t := mk_datetime y mo d h mi s us in
  if valid_datetime t then Ok t else Raise ValueError.

(** [n] in exactly [w] decimal digits, zero-filled. *)
Fixpoint zfill (w : nat) (n : Z) : string :=
  match w with
  | O => ""
  | S w' => zfill w' (n / 10) ++ String (digit_char (n mod 10)) ""
  end.

(** The directives the scripts use. *)
Inductive directive : Type := Dd | Dm | DY | DH | DM | DS | Df.

Inductive fmt_item : Type :=
| Dir (d : directive)
| Chr (c : ascii).

Definition directive_of (c : ascii) : option directive :=
  if Ascii.eqb c "d" then Some Dd
  else if Ascii.eqb c "m" then Some Dm
  else if Ascii.eqb c "Y" then Some DY
  else if Ascii.eqb c "H" then Some DH
  else if Ascii.eqb c "M" then Some DM
  else if Ascii.eqb c "S" then Some DS
  else if Ascii.eqb c "f" then Some Df
  else None.

(** A format string as directives and literal characters. A [%x] outside
    the seven directives above is left as two literal characters. *)
Fixpoint fmt_items (fmt : string) : list fmt_item :=
  match fmt with
  | EmptyString => []
  | String c r =>
      if Ascii.eqb c "%" then
        match r with
        | String x r' =>
            match directive_of x with
            | Some d => Dir d :: fmt_items r'
            | None => Chr c :: fmt_items r
            end
        | EmptyString => [Chr c]
        end
      else Chr c :: fmt_items r
  end.

Definition _DATE_FMT : string := "%d.%m.%Y-%H:%M:%S:%f".

Definition field (d : directive) (t : datetime) : string :=
  match d with
  | Dd => zfill 2 (day t)
  | Dm => zfill 2 (month t)
  | DY => str (year t)
  | DH => zfill 2 (hour t)
  | DM => zfill 2 (minute t)
  | DS => zfill 2 (second t)
  | Df => zfill 6 (microsecond t)
  end.

(** [t.strftime(fmt)].  [%Y] is the year in decimal as the C library
    writes it, without padding: a year below 1000 takes fewer than four
    characters. *)
Definition strftime (t : datetime) (fmt : string) : string :=
  fold_right (fun it acc =>
                match it with
                | Dir d => field d t ++ acc
                | Chr c => String c acc
                end) "" (fmt_items fmt).

(** *** Parsing: the regular expression [strptime] builds from a format *)

Definition atom : Type := ascii -> bool.

Definition range (lo hi : ascii) : atom :=
  fun c => ((code lo <=? code c) && (code c <=? code hi))%nat.

Definition chr (a : ascii) : atom := fun c => Ascii.eqb c a.

Definition digit : atom := range "0" "9".

(** The alternatives of each directive's group, in the library's order. *)
Definition alternatives (d : directive) : list (list atom) :=
  match d with
  | Dd => [[chr "3"; range "0" "1"]; [range "1" "2"; digit];
           [chr "0"; range "1" "9"]; [range "1" "9"];
           [chr " "; range "1" "9"]]
  | Dm => [[chr "1"; range "0" "2"]; [chr "0"; range "1" "9"];
           [range "1" "9"]]
  | DY => [[digit; digit; digit; digit]]
  | DH => [[chr "2"; range "0" "3"]; [range "0" "1"; digit]; [digit]]
  | DM => [[range "0" "5"; digit]; [digit]]
  | DS => [[chr "6"; range "0" "1"]; [range "0" "5"; digit]; [digit]]
  | Df => [[digit; digit; digit; digit; digit; digit];
           [digit; digit; digit; digit; digit];
           [digit; digit; digit; digit];
           [digit; digit; digit];
           [digit; digit];
           [digit]]
  end.

(** One alternative against the front of [s]: the text it takes and what
    is left. *)
Fixpoint match_atoms (atoms : list atom) (s : string)
  : option (string * string) :=
  match atoms with
  | [] => Some ("", s)
  | a :: atoms' =>
      match s with
      | String c r =>
          if a c then
            match match_atoms atoms' r with
            | Some (t, r') => Some (String c t, r')
            | None => None
            end
          else None
      | EmptyString => None
      end
  end.

(** The alternatives of one group in order: the first one that matches
    the front of [s] and lets the rest of the expression [k] match. *)
Fixpoint first_alt {X : Type} (alts : list (list atom)) (s : string)
  (k : string -> string -> option X) : option X :=
  match alts with
  | [] => None
  | alt :: alts' =>
      match match_atoms alt s with
      | Some (t, r) =>
          match k t r with
          | Some x => Some x
          | None => first_alt alts' s k
          end
      | None => first_alt alts' s k
      end
  end.

(** The whole expression against the front of [s], with backtracking over
    the alternatives: the groups in order and what is left. *)
Fixpoint match_items (items : list fmt_item) (s : string)
  : option (list (directive * string) * string) :=
  match items with
  | [] => Some ([], s)
  | Chr c :: rest =>
      match s with
      | String c' r => if Ascii.eqb c' c then match_items rest r else None
      | EmptyString => None
      end
  | Dir d :: rest =>
      first_alt (alternatives d) s
        (fun t r =>
           match match_items rest r with
           | Some (gs, r') => Some ((d, t) :: gs, r')
           | None => None
           end)
  end.

(** The fields [strptime] starts from. *)
Definition epoch_fields : datetime := mk_datetime 1900 1 1 0 0 0 0.

Definition set_field (t : datetime) (g : directive * string)
  : result datetime :=
  let (d, txt) := g in
  match d with
  | Dd => v <- int txt ;;
          Ok (mk_datetime (year t) (month t) v (hour t) (minute t)
                (second t) (microsecond t))
  | Dm => v <- int txt ;;
          Ok (mk_datetime (year t) v (day t) (hour t) (minute t)
                (second t) (microsecond t))
  | DY => v <- int txt ;;
          Ok (mk_datetime v (month t) (day t) (hour t) (minute t)
                (second t) (microsecond t))
  | DH => v <- int txt ;;
          Ok (mk_datetime (year t) (month t) (day t) v (minute t)
                (second t) (microsecond t))
  | DM => v <- int txt ;;
          Ok (mk_datetime (year t) (month t) (day t) (hour t) v
                (second t) (microsecond t))
  | DS => v <- int txt ;;
          Ok (mk_datetime (year t) (month t) (day t) (hour t) (minute t)
                v (microsecond t))
  | Df => v <- int (txt ++ repeat_char "0" (6 - String.length txt)) ;;
          Ok (mk_datetime (year t) (month t) (day t) (hour t) (minute t)
                (second t) v)
  end.

(** [datetime.datetime.strptime(s, fmt)], for formats whose literal
    characters are neither letters nor white space (as in [_DATE_FMT]). *)
Definition strptime (s : string) (fmt : string) : result datetime :=
  match match_items (fmt_items fmt) s with
  | None => Raise ValueError
  | Some (groups, rest) =>
      match rest with
      | EmptyString =>
          t <- foldM set_field groups epoch_fields ;;
          make_datetime (year t) (month t) (day t) (hour t) (minute t)
            (second t) (microsecond t)
      | String _ _ => Raise ValueError
      end
  end.

(** ** The result store ([self_assesment.py]) *)

(** One item of the list [read_results] returns: the dict with the keys
    ['time'], ['result_q'] and ['result_c']; [None] is the [time] a new
    item starts with. *)
Record session : Type := mk_session {
  time : option datetime;
  result_q : dict Z Z;
  result_c : dict string Z
}.

(** The line [store_results] writes for a session. *)
Definition result_line (result_q : dict Z Z) (time : datetime)
  : result string :=
  let out := ["time=" ++ strftime time _DATE_FMT] in
  toks <- mapM (fun key =>
                  v <- getitem result_q key ;;
                  Ok (str key ++ "=" ++ str v))
               (sorted Z.leb (keys result_q)) ;;
  let out := (out ++ toks)%list in
  let out := (out ++ [String nl ""])%list in
  Ok (join " " out).

(** [store_results(outfile, result_q, time)]: the content of [outfile]
    afterwards, given its content before. *)
Definition store_results (outfile : string) (result_q : dict Z Z)
  (time : datetime) : result string :=
  line <- result_line result_q time ;;
  Ok (outfile ++ line).

(** The body of the loop over the tokens of one line. *)
Definition read_token (mapping : dict Z string) (new_result : session)
  (i : string) : result session :=
  let spliti := split_on "=" i in
  key <- index spliti 0 ;;
  if String.eqb key "time" then
    txt <- index spliti 1 ;;
    t <- strptime txt _DATE_FMT ;;
    Ok (mk_session (Some t) (result_q new_result) (result_c new_result))
  else
    idx <- int key ;;
    txt <- index spliti 1 ;;
    answer <- int txt ;;
    let rq := dict_set (result_q new_result) idx answer in
    category <- getitem mapping idx ;;
    let rc := result_c new_result in
    let rc := if dict_mem rc category then rc else dict_set rc category 0 in
    total <- getitem rc category ;;
    Ok (mk_session (time new_result) rq (dict_set rc category (total + answer))).

Definition new_session : session := mk_session None [] [].

Definition read_line (mapping : dict Z string) (lines : string)
  : result session :=
  foldM (read_token mapping) (split_ws (strip lines)) new_session.

(** [read_results(filename, mapping)] on the content of the file. *)
Definition read_results (infile : string) (mapping : dict Z string)
  : result (list session) :=
  foldM (fun results lines =>
           new_result <- read_line mapping lines ;;
           Ok (results ++ [new_result])%list)
        (readlines infile) [].

(** ** The scoring key loader *)

Definition read_scoring_line (scorings : dict string Z) (lines : string)
  : result (dict string Z) :=
  let split := split_on "=" lines in
  field0 <- index split 0 ;;
  score <- int (strip field0) ;;
  field1 <- index split 1 ;;
  Ok (dict_set scorings (strip field1) score).

(** [read_scorings(filename)] on the content of the file. *)
Definition read_scorings (infile : string) : result (dict string Z) :=
  foldM read_scoring_line (readlines infile) [].

(** ** The alternate interactive script ([self-assesment.py]) *)

Module Alt.

(** [read_questions(filename)]: the list of [(i, question)] and the
    mapping from [i] to the category. *)
Fixpoint read_question_lines (ls : list string) (i : Z)
  (questions : list (Z * string)) (mapping : dict Z string)
  : result (list (Z * string) * dict Z string) :=
  match ls with
  | [] => Ok (questions, mapping)
  | lines :: rest =>
      let split := split_on "|" lines in
      field0 <- index split 0 ;;
      let question := strip field0 in
      field1 <- index split 1 ;;
      let category := strip field1 in
      read_question_lines rest (i + 1) (questions ++ [(i, question)])%list
        (dict_set mapping i category)
  end.

Definition read_questions (infile : string)
  : result (list (Z * string) * dict Z string) :=
  read_question_lines (readlines infile) 0 [] [].

(** What [ask_questions] has built so far: the two dicts and the lines it
    printed. *)
Record asked : Type := mk_asked {
  asked_q : dict Z Z;
  asked_c : dict string Z;
  printed : list string
}.

(** The body of the loop over the questions. *)
Definition ask_question (mapping : dict Z string) (st : asked)
  (q : Z * string) : result asked :=
  let (idx, question) := q in
  let answer := 0 in
  let rq := dict_set (asked_q st) idx answer in
  category <- getitem mapping idx ;;
  let rc := asked_c st in
  let rc := if negb (dict_mem rc category) then dict_set rc category 0
            else rc in
  total <- getitem rc category ;;
  let rc := dict_set rc category (total + answer) in
  let row := str idx ++ " " ++ question ++ " " ++ category in
  Ok (mk_asked rq rc (printed st ++ [row])%list).

(** [ask_questions(questions, scorings, mapping)]; [now] is what
    [datetime.datetime.now()] returned. *)
Definition ask_questions (questions : list (Z * string))
  (scorings : dict string Z) (mapping : dict Z string) (now : datetime)
  : result (dict Z Z * dict string Z * datetime) :=
  st <- foldM (ask_question mapping) questions (mk_asked [] [] []) ;;
  Ok (asked_q st, asked_c st, now).

(** The timestamp pattern of the alternate script. *)
Definition _DATE_FMT : string := "%d.%m.%Y %H:%M:%S".

(** The line the alternate [store_results] writes for a session. *)
Definition result_line (result_q : dict Z Z) (time : datetime)
  : result string :=
  let out := ["time:";
              String dquote (strftime time _DATE_FMT ++ String dquote "");
              "answers:"] in
  toks <- mapM (fun key =>
                  v <- getitem result_q key ;;
                  Ok (str key ++ "=" ++ str v))
               (sorted Z.leb (keys result_q)) ;;
  let out := (out ++ toks)%list in
  let out := (out ++ [String nl ""])%list in
  Ok (join " " out).

(** The alternate [store_results(outfile, result_q, time)]: the content of
    [outfile] afterwards, given its content before. *)
Definition store_results (outfile : string) (result_q : dict Z Z)
  (time : datetime) : result string :=
  line <- result_line result_q time ;;
  Ok (outfile ++ line).

(** The alternate [read_scorings(filename)]; the line number it
    enumerates is not used. *)
Definition read_scorings (infile : string) : result (dict string Z) :=
  foldM read_scoring_line (readlines infile) [].

(** The alternate [main()] on the contents of [questions.txt],
    [scoring.txt] and [results.txt]: the content of [results.txt]
    afterwards and the per-category dict it prints last. *)
Definition main (questions_txt scoring_txt results_txt : string)
  (now : datetime) : result (string * dict string Z) :=
  qm <- read_questions questions_txt ;;
  let (questions, mapping) := qm in
  scorings <- read_scorings scoring_txt ;;
  r <- ask_questions questions scorings mapping now ;;
  let '(result_q, result_c, time) := r in
  results_txt' <- store_results results_txt result_q time ;;
  Ok (results_txt', result_c).

End Alt.

(** ** The report generator *)

(** [l[i] = x] for an [i] within the list. *)
Fixpoint list_set {A : Type} (l : list A) (i : nat) (x : A) : list A :=
  match l, i with
  | [], _ => []
  | _ :: r, O => x :: r
  | y :: r, S i' => y :: list_set r i' x
  end.

(** The inner loop of the width computation: one row, from column [i]. *)
Fixpoint widen_row (row : list string) (i : nat) (col_len : list Z)
  : result (list Z) :=
  match row with
  | [] => Ok col_len
  | col :: rest =>
      w <- index col_len i ;;
      let col_len :=
        if len col >=? w - 2 then list_set col_len i (len col + 2)
        else col_len in
      widen_row rest (S i) col_len
  end.

(** The list [col_len] of [generate_rst_table] after both passes. *)
Definition column_widths (table : list (list string))
  (headings : list string) : result (list Z) :=
  let col_len := map (fun col => len col + 2) headings in
  foldM (fun col_len row => widen_row row 0 col_len) table col_len.

Inductive align : Type := Left | Center.

(** ['{0:<Ws}'.format(s)] and ['{0:^Ws}'.format(s)] where [W] is the
    decimal text of [width]: a negative [width] reads as a sign, which a
    string format refuses. *)
Definition format_s (a : align) (width : Z) (s : string) : result string :=
  if width <? 0 then Raise ValueError
  else
    let pad := Z.to_nat (width - len s) in
    match a with
    | Left => Ok (s ++ repeat_char " " pad)
    | Center =>
        let l := Nat.div pad 2 in
        Ok (repeat_char " " l ++ s ++ repeat_char " " (pad - l))
    end.

(** One row of cells between bars: [head_fmt] zipped with the cells. *)
Definition format_row (head_fmt : list Z) (row : list string)
  : result string :=
  row_line <- mapM (fun fc => format_s Center (fst fc) (snd fc))
                   (combine head_fmt row) ;;
  let row_line := ([""] ++ row_line ++ [""])%list in
  Ok (join "|" row_line).

(** [generate_rst_table(table, title, headings)]. *)
Definition generate_rst_table (table : list (list string)) (title : string)
  (headings : list string) : result (list string) :=
  col_len <- column_widths table headings ;;
  let width := Z.of_nat (List.length col_len) + sum col_len - 1 in
  let topline := "+" ++ repeat_char "-" (Z.to_nat width) ++ "+" in
  str_header <- format_s Left width title ;;
  let str_header := "|" ++ str_header ++ "|" in
  let head_fmt := col_len in
  row_line <- format_row head_fmt headings ;;
  let hline :=
    ([""] ++ map (fun col => repeat_char "-" (Z.to_nat col)) col_len
      ++ [""])%list in
  let hline := join "+" hline in
  let str_table :=
    [topline; str_header; hline; row_line; replace_char "-" "=" hline] in
  rows <- mapM (format_row head_fmt) table ;;
  Ok (str_table ++ flat_map (fun row_line => [row_line; hline]) rows)%list.

Definition CATEGORIES : dict string string :=
  [("mental", "Mental");
   ("technique", "Technique and Tactics");
   ("physical", "Physical")].

(** The body of the loop that fills [low] in
    [table_results_low_questions]. *)
Definition low_step (questions mapping : dict Z string)
  (low : dict string (list (list string))) (item : Z * Z)
  : result (dict string (list (list string))) :=
  let (idx, answer) := item in
  category <- getitem mapping idx ;;
  if answer <=? 3 then
    let low := if dict_mem low category then low
               else dict_set low category [] in
    rows <- getitem low category ;;
    question <- getitem questions idx ;;
    let row := [str idx; question; str answer] in
    Ok (dict_set low category (rows ++ [row])%list)
  else Ok low.

(** The dict [low] of one session: category to rows. *)
Definition low_questions (result_q : dict Z Z)
  (questions mapping : dict Z string)
  : result (dict string (list (list string))) :=
  foldM (low_step questions mapping) result_q [].

(** The tables of one session in the order they are printed: category and
    rows. *)
Definition low_tables (result_q : dict Z Z)
  (questions mapping : dict Z string)
  : result (list (string * list (list string))) :=
  low <- low_questions result_q questions mapping ;;
  mapM (fun i => rows <- getitem low i ;; Ok (i, rows))
       (sorted String.leb (keys low)).

Definition strftime_of (time : option datetime) (fmt : string)
  : result string :=
  match time with
  | Some t => Ok (strftime t fmt)
  | None => Raise AttributeError
  end.

(** What [table_results_low_questions] prints for one session. *)
Definition low_report (questions mapping : dict Z string) (r : session)
  : result (list string) :=
  stamp <- strftime_of (time r) _DATE_FMT ;;
  let head := [""; "Results for questions on " ++ stamp] in
  tables <- low_tables (result_q r) questions mapping ;;
  printed <- mapM (fun t =>
                     name <- getitem CATEGORIES (fst t) ;;
                     let title := "Lowest scoring in category "
                                  ++ String dquote name
                                  ++ String dquote "" in
                     generate_rst_table (snd t) title
                       ["ID"; "Question"; "Answer"])
                  tables ;;
  Ok (head ++ List.concat printed)%list.

(** [table_results_low_questions(results, questions, mapping)]: the lines
    printed. *)
Definition table_results_low_questions (results : list session)
  (questions mapping : dict Z string) : result (list string) :=
  out <- mapM (low_report questions mapping) results ;;
  Ok (List.concat out).

(** ** Vocabulary of the properties *)

(** The longest cell of column [i], [0] for an empty table. *)
Definition longest_cell (table : list (list string)) (i : nat) : Z :=
  fold_right Z.max 0 (map (fun row => len (nth i row "")) table).

(** Every row has as many cells as there are headings. *)
Definition same_arity (headings : list string) (table : list (list string))
  : Prop :=
  Forall (fun row => List.length row = List.length headings) table.

(** A cell centred in [w] columns, the padding split as the format does. *)
Definition centre (w : Z) (s : string) : string :=
  let pad := Z.to_nat (w - len s) in
  repeat_char " " (Nat.div pad 2) ++ s
    ++ repeat_char " " (pad - Nat.div pad 2).

(** [sep.join([''] + cells + [''])]. *)
Definition bordered (sep : string) (cells : list string) : string :=
  join sep ([""] ++ cells ++ [""])%list.

(** A row of cells, each centred in the width of its column. *)
Definition row_text (col_len : list Z) (row : list string) : string :=
  bordered "|" (map (fun fc => centre (fst fc) (snd fc)) (combine col_len row)).

(** The horizontal line of a table. *)
Definition rule (col_len : list Z) : string :=
  bordered "+" (map (fun col => repeat_char "-" (Z.to_nat col)) col_len).

(** The characters the borders between columns are drawn with. *)
Definition is_glyph (c : ascii) : bool :=
  Ascii.eqb c "|" || Ascii.eqb c "+".

(** The number of characters of [s] that satisfy [p]. *)
Fixpoint count_chars (p : ascii -> bool) (s : string) : Z :=
  match s with
  | EmptyString => 0
  | String c r => (if p c then 1 else 0) + count_chars p r
  end.

(** The border glyphs of a line. *)
Definition glyphs (s : string) : Z := count_chars is_glyph s.

(** The lines of a table whose widths are [col_len]. *)
Definition table_lines (col_len : list Z) (table : list (list string))
  (title : string) (headings : list string) : list string :=
  let width := Z.of_nat (List.length col_len) + sum col_len - 1 in
  let topline := "+" ++ repeat_char "-" (Z.to_nat width) ++ "+" in
  let str_header :=
    "|" ++ (title ++ repeat_char " " (Z.to_nat (width - len title))) ++ "|" in
  topline :: str_header :: rule col_len :: row_text col_len headings
    :: replace_char "-" "=" (rule col_len)
    :: flat_map (fun row => [row_text col_len row; rule col_len]) table.

(** A cell that leaves at least two columns of padding. *)
Definition fits (w : Z) (c : string) : Prop := len c + 2 <= w.

(** A text without any border glyph. *)
Definition glyph_free (s : string) : Prop := glyphs s = 0.

(** What the three statements on [result_c] do to it for one answer. *)
Definition add_total (rc : dict string Z) (category : string) (answer : Z)
  : dict string Z :=
  match dict_get rc category with
  | Some total => dict_set rc category (total + answer)
  | None => dict_set (dict_set rc category 0) category (0 + answer)
  end.

(** Every value of the dict is 0. *)
Definition all_zero {K : Type} (d : dict K Z) : Prop :=
  forall (k : K) (v : Z), In (k, v) d -> v = 0.

(** Every question of the catalog has a category. *)
Definition catalogued (mapping : dict Z string) (questions : list (Z * string))
  : Prop :=
  forall (idx : Z) (q : string),
    In (idx, q) questions -> dict_get mapping idx <> None.

(** The text in front of the first [sep], all of [s] if there is none. *)
Fixpoint before (sep : ascii) (s : string) : string :=
  match s with
  | EmptyString => ""
  | String c r => if Ascii.eqb c sep then "" else String c (before sep r)
  end.

(** The text behind the first [sep], if there is one. *)
Fixpoint after (sep : ascii) (s : string) : option string :=
  match s with
  | EmptyString => None
  | String c r => if Ascii.eqb c sep then Some r else after sep r
  end.

(** The score field of a line is not an integer. *)
Definition non_integer_score (lines : string) : bool :=
  negb (is_ok (int (strip (before "=" lines)))).

(** The line has no ['='] at all. *)
Definition lacks_delimiter (lines : string) : bool :=
  match after "=" lines with Some _ => false | None => true end.

(** The two ways a line of the scoring file can be malformed. *)
Definition bad_scoring_line (lines : string) : bool :=
  non_integer_score lines || lacks_delimiter lines.

(** The trimmed label and the integer score of a well-formed line. *)
Definition scoring_entry (lines : string) : option (string * Z) :=
  match int (strip (before "=" lines)), after "=" lines with
  | Ok score, Some rest => Some (strip (before "=" rest), score)
  | _, _ => None
  end.

(** The score of the last line whose trimmed label is [label]. *)
Fixpoint last_score (ls : list string) (label : string) : option Z :=
  match ls with
  | [] => None
  | lines :: rest =>
      match last_score rest label with
      | Some score => Some score
      | None =>
          match scoring_entry lines with
          | Some (l, score) => if String.eqb label l then Some score else None
          | None => None
          end
      end
  end.

(** A character that cannot end or split a token. *)
Definition token_char (c : ascii) : bool :=
  negb (is_space c) && negb (Ascii.eqb c "=").

(** The characters of [str(z)]. *)
Definition sign_or_digit (c : ascii) : bool :=
  is_digit c || Ascii.eqb c "-".

(** A string that is empty or ends with a character that is not white
    space. *)
Fixpoint ends_clean (s : string) : bool :=
  match s with
  | EmptyString => true
  | String c EmptyString => negb (is_space c)
  | String _ r => ends_clean r
  end.

(** [txt] is what the group of [d] takes from the front of any text that
    starts with it, provided the rest of the expression then matches. *)
Definition hits (d : directive) (txt : string) : Prop :=
  forall (X : Type) (k : string -> string -> option X) (s : string) (x : X),
    k txt s = Some x -> first_alt (alternatives d) (txt ++ s) k = Some x.

(** Neither [\n] nor [\r]. *)
Definition line_char (c : ascii) : bool :=
  negb (Ascii.eqb c nl) && negb (Ascii.eqb c cr).

(** Not white space. *)
Definition word_char (c : ascii) : bool := negb (is_space c).

(** A file content that is empty or ends with [\n]. *)
Fixpoint complete (s : string) : bool :=
  match s with
  | EmptyString => true
  | String c EmptyString => Ascii.eqb c nl
  | String _ r => complete r
  end.

(** A non-empty text without white space. *)
Definition word (w : string) : Prop :=
  w <> "" /\ all_chars word_char w = true.

(** The first token of a written line. *)
Definition time_token (t : datetime) : string :=
  "time=" ++ strftime t _DATE_FMT.

(** The token of one question. *)
Definition answer_token (key answer : Z) : string :=
  str key ++ "=" ++ str answer.

(** [d[k]] for a [k] known to be in [d]. *)
Definition lookup (d : dict Z Z) (key : Z) : Z :=
  match dict_get d key with Some v => v | None => 0 end.

(** The tokens of the line written for a session, in order. *)
Definition line_tokens (result_q : dict Z Z) (t : datetime) : list string :=
  time_token t
  :: map (fun key => answer_token key (lookup result_q key))
       (sorted Z.leb (keys result_q)).

(** [d[k] = v] for an item [(k, v)]. *)
Definition set_item (d : dict Z Z) (kv : Z * Z) : dict Z Z :=
  dict_set d (fst kv) (snd kv).

(** A token [time=<stamp>] whose stamp parses. *)
Definition stamp_token (tok : string) : bool :=
  String.eqb (before "=" tok) "time" &&
  match after "=" tok with
  | Some r => is_ok (strptime (before "=" r) _DATE_FMT)
  | None => false
  end.

(** A token [<id>=<answer>] of two integers whose id has a category. *)
Definition pair_token (mapping : dict Z string) (tok : string) : bool :=
  match int (before "=" tok), after "=" tok with
  | Ok idx, Some r => is_ok (int (before "=" r)) && dict_mem mapping idx
  | _, _ => false
  end.

(** The tokens [read_results] splits a line into. *)
Definition tokens (lines : string) : list string := split_ws (strip lines).

(** A line made of such tokens only. *)
Definition results_file_line (mapping : dict Z string) (lines : string)
  : Prop :=
  forallb (fun tok => stamp_token tok || pair_token mapping tok)
          (tokens lines) = true.

(** A line none of whose tokens has the key [time]. *)
Definition no_time_token (lines : string) : Prop :=
  forallb (fun tok => negb (String.eqb (before "=" tok) "time"))
          (tokens lines) = true.

(** The question ids of the tokens of a line, in order. *)
Definition token_ids (toks : list string) : list Z :=
  flat_map (fun tok =>
              if String.eqb (before "=" tok) "time" then []
              else match int (before "=" tok) with
                   | Ok idx => [idx]
                   | Raise _ => []
                   end) toks.

(** [questions[idx]] for an [idx] known to be in [questions]. *)
Definition question_text (questions : dict Z string) (idx : Z) : string :=
  match dict_get questions idx with Some q => q | None => "" end.

(** The row of an answer: id, question, answer. *)
Definition low_row (questions : dict Z string) (item : Z * Z) : list string :=
  [str (fst item); question_text questions (fst item); str (snd item)].

(** The answer is at most 3 and its question is in [category]. *)
Definition in_low_category (mapping : dict Z string) (category : string)
  (item : Z * Z) : bool :=
  (snd item <=? 3) &&
  match dict_get mapping (fst item) with
  | Some c => String.eqb c category
  | None => false
  end.

(** The rows of the table of [category]. *)
Definition low_rows (questions mapping : dict Z string) (category : string)
  (result_q : dict Z Z) : list (list string) :=
  map (low_row questions) (filter (in_low_category mapping category) result_q).

(** A dict of lists has no key for an empty list. *)
Definition nonempty {A : Type} (l : list A) : option (list A) :=
  match l with [] => None | _ => Some l end.

(** A row with the id [idx] in its first cell. *)
Definition has_row (idx : Z) (rows : list (list string)) : Prop :=
  exists row : list string, In row rows /\ nth 0 row "" = str idx.

(** Every id of the session has a category and a question text. *)
Definition covered (questions mapping : dict Z string) (result_q : dict Z Z)
  : Prop :=
  forall idx : Z, In idx (keys result_q) ->
    dict_get mapping idx <> None /\ dict_get questions idx <> None.

(** ** Further models and vocabulary *)

(** The [(id, answer)] pairs of the tokens of a line, in order. *)
Definition parsed_pairs (toks : list string) : list (Z * Z) :=
  flat_map (fun tok =>
              if String.eqb (before "=" tok) "time" then []
              else match int (before "=" tok), after "=" tok with
                   | Ok idx, Some r =>
                       match int (before "=" r) with
                       | Ok answer => [(idx, answer)]
                       | Raise _ => []
                       end
                   | _, _ => []
                   end) toks.

(** The question of the pair is in [category]. *)
Definition maps_to (mapping : dict Z string) (category : string)
  (item : Z * Z) : bool :=
  match dict_get mapping (fst item) with
  | Some c => String.eqb c category
  | None => false
  end.

(** The sum of the answers of the pairs in [category], if there is one. *)
Definition category_total (mapping : dict Z string) (category : string)
  (pairs : list (Z * Z)) : option Z :=
  if existsb (maps_to mapping category) pairs
  then Some (sum (map snd (filter (maps_to mapping category) pairs)))
  else None.

(** The answer of the last pair with the id [idx], if there is one. *)
Definition last_answer (pairs : list (Z * Z)) (idx : Z) : option Z :=
  fold_left (fun acc kv => if Z.eqb (fst kv) idx then Some (snd kv) else acc)
            pairs None.

(** The loop of [plot_results_categories] that recomputes the totals of a
    session from its [result_q] (the plotting itself is not modelled). *)
Definition recompute_step (mapping : dict Z string)
  (results_c : dict string Z) (item : Z * Z) : result (dict string Z) :=
  let (idx, answer) := item in
  category <- getitem mapping idx ;;
  let results_c :=
    if dict_mem results_c category then results_c
    else dict_set results_c category 0 in
  total <- getitem results_c category ;;
  Ok (dict_set results_c category (total + answer)).

Definition recompute_totals (result_q : dict Z Z) (mapping : dict Z string)
  : result (dict string Z) :=
  foldM (recompute_step mapping) result_q [].

(** The body of the loop over the sorted ids in
    [table_results_all_questions]: [answers] and [categories] after one
    more id. *)
Definition all_step (result_q : dict Z Z) (questions mapping : dict Z string)
  (st : list (list string) * dict string (list (list string))) (idx : Z)
  : result (list (list string) * dict string (list (list string))) :=
  let (answers, categories) := st in
  answer <- getitem result_q idx ;;
  category <- getitem mapping idx ;;
  let categories :=
    if dict_mem categories category then categories
    else dict_set categories category [] in
  let ans := str answer in
  let ans := if answer <=? 3 then ans ++ "*" else ans in
  rows <- getitem categories category ;;
  question <- getitem questions idx ;;
  let row := [str idx; question; ans] in
  let categories := dict_set categories category (rows ++ [row])%list in
  Ok ((answers ++ [row])%list, categories).

(** The list [answers] and the dict [categories] of one session. *)
Definition all_rows (result_q : dict Z Z) (questions mapping : dict Z string)
  : result (list (list string) * dict string (list (list string))) :=
  foldM (all_step result_q questions mapping)
        (sorted Z.leb (keys result_q)) ([], []).

(** What [table_results_all_questions] prints for one session. *)
Definition all_report (questions mapping : dict Z string) (r : session)
  : result (list string) :=
  stamp <- strftime_of (time r) _DATE_FMT ;;
  let head := [""; "Results for questions on " ++ stamp] in
  st <- all_rows (result_q r) questions mapping ;;
  let (answers, categories) := st in
  table <- generate_rst_table answers "Answers for questions"
             ["ID"; "Question"; "Answer"] ;;
  printed <- mapM (fun i =>
                     name <- getitem CATEGORIES i ;;
                     let title := "Answers for category "
                                  ++ String dquote name
                                  ++ String dquote "" in
                     rows <- getitem categories i ;;
                     generate_rst_table rows title
                       ["ID"; "Question"; "Answer"])
                  (sorted String.leb (keys categories)) ;;
  Ok (head ++ table ++ List.concat printed)%list.

(** [table_results_all_questions(results, questions, mapping)]: the lines
    printed. *)
Definition table_results_all_questions (results : list session)
  (questions mapping : dict Z string) : result (list string) :=
  out <- mapM (all_report questions mapping) results ;;
  Ok (List.concat out).

(** The items of a dict in ascending order of their keys. *)
Definition sorted_items (result_q : dict Z Z) : list (Z * Z) :=
  map (fun key => (key, lookup result_q key)) (sorted Z.leb (keys result_q)).

(** The row of an answer in the full report: an answer of at most 3 is
    marked with a star. *)
Definition marked_row (questions : dict Z string) (item : Z * Z)
  : list string :=
  [str (fst item); question_text questions (fst item);
   str (snd item) ++ (if snd item <=? 3 then "*" else "")].

(** The category of a low answer has a display name. *)
Definition low_categories_named (mapping : dict Z string) (result_q : dict Z Z)
  : Prop :=
  forall (idx answer : Z) (category : string),
    In (idx, answer) result_q -> answer <= 3 ->
    dict_get mapping idx = Some category ->
    dict_get CATEGORIES category <> None.

(** The tokens of the line the alternate script writes. *)
Definition alt_line_tokens (result_q : dict Z Z) (t : datetime) : list string :=
  "time:"
  :: String dquote (zfill 2 (day t) ++ String "."
                      (zfill 2 (month t) ++ String "." (str (year t))))
  :: (zfill 2 (hour t) ++ String ":"
        (zfill 2 (minute t) ++ String ":"
           (zfill 2 (second t) ++ String dquote "")))
  :: "answers:"
  :: map (fun key => answer_token key (lookup result_q key))
       (sorted Z.leb (keys result_q)).

(** The body of the loop of [read_questions] in the reporting script:
    both dicts after the lines [ls], numbered from [i]. *)
Fixpoint read_question_lines (ls : list string) (i : Z)
  (questions mapping : dict Z string)
  : result (dict Z string * dict Z string) :=
  match ls with
  | [] => Ok (questions, mapping)
  | lines :: rest =>
      let split := split_on "|" lines in
      field0 <- index split 0 ;;
      let question := strip field0 in
      field1 <- index split 1 ;;
      let category := strip field1 in
      read_question_lines rest (i + 1) (dict_set questions i question)
        (dict_set mapping i category)
  end.

(** [read_questions(filename)] of the reporting script on the content of
    the file. *)
Definition read_questions (infile : string)
  : result (dict Z string * dict Z string) :=
  read_question_lines (readlines infile) 0 [] [].

(** [list(enumerate(l, i))]. *)
Fixpoint enumerate {A : Type} (i : Z) (l : list A) : list (Z * A) :=
  match l with
  | [] => []
  | x :: r => (i, x) :: enumerate (i + 1) r
  end.

(** The trimmed text in front of the first bar of a catalog line. *)
Definition question_field (lines : string) : string :=
  strip (before "|" lines).

(** The trimmed text between the first bar and the second, if any. *)
Definition category_field (lines : string) : string :=
  match after "|" lines with
  | Some rest => strip (before "|" rest)
  | None => ""
  end.

(** The line has no bar at all. *)
Definition lacks_bar (lines : string) : bool :=
  match after "|" lines with Some _ => false | None => true end.

(** What [ask_questions] of the reporting script has built so far, and how
    many times it has called [random.randint]. *)
Record collected : Type := mk_collected {
  collected_q : dict Z Z;
  collected_c : dict string Z;
  calls : nat
}.

(** The body of the loop over the sorted ids; [randint k] is what the
    [k]-th call of [random.randint(0, 5)] returns. The line the loop prints
    is not modelled. *)
Definition ask_step (questions mapping : dict Z string) (randint : nat -> Z)
  (st : collected) (idx : Z) : result collected :=
  question <- getitem questions idx ;;
  let answer := randint (calls st) in
  let rq := dict_set (collected_q st) idx answer in
  category <- getitem mapping idx ;;
  let rc := collected_c st in
  let rc := if dict_mem rc category then rc else dict_set rc category 0 in
  total <- getitem rc category ;;
  Ok (mk_collected rq (dict_set rc category (total + answer)) (S (calls st))).

(** [ask_questions(questions, scorings, mapping)] of the reporting script;
    [now] is what [datetime.datetime.now()] returned. *)
Definition ask_questions (questions : dict Z string) (scorings : dict string Z)
  (mapping : dict Z string) (now : datetime) (randint : nat -> Z)
  : result (dict Z Z * dict string Z * datetime) :=
  st <- foldM (ask_step questions mapping randint)
          (sorted Z.leb (keys questions)) (mk_collected [] [] 0) ;;
  Ok (collected_q st, collected_c st, now).

(** The body of the collecting loop of [plot_score_questions]: one
    [(idx, answer)] item of a session. *)
Definition answers_step (answers : dict Z (list Z)) (item : Z * Z)
  : result (dict Z (list Z)) :=
  let (idx, answer) := item in
  let answers := if negb (dict_mem answers idx) then dict_set answers idx []
                 else answers in
  series <- getitem answers idx ;;
  Ok (dict_set answers idx (series ++ [answer])%list).

(** What [plot_score_questions(results)] collects before it plots: the
    list [dates] and the dict [answers]. *)
Definition plot_score_questions_data (results : list session)
  : result (list (option datetime) * dict Z (list Z)) :=
  let dates := map time results in
  answers <- foldM (fun answers result =>
                      foldM answers_step (result_q result) answers)
               results [] ;;
  Ok (dates, answers).

(** The answer a session gave to a question, if it gave one. *)
Definition answered (idx : Z) (s : session) : list Z :=
  match dict_get (result_q s) idx with Some answer => [answer] | None => [] end.

(** The answers to a question over the sessions, in session order. *)
Definition series (results : list session) (idx : Z) : list Z :=
  flat_map (answered idx) results.

(** A series grown by further answers. *)
Definition extend (o : option (list Z)) (l : list Z) : option (list Z) :=
  match l with
  | [] => o
  | _ => Some (match o with Some s => s | None => [] end ++ l)%list
  end.

(** * Properties *)

(** ** The model on concrete inputs *)

Example int_examples :
  int "12" = Ok 12 /\ int "-7" = Ok (-7) /\ int "+5" = Ok 5 /\
  int " 007 " = Ok 7 /\ int "1_000" = Ok 1000 /\ int "" = Raise ValueError /\
  int "1__0" = Raise ValueError /\ int "x" = Raise ValueError /\
  int "- 1" = Raise ValueError /\ str 0 = "0" /\ str (-120) = "-120" /\
  str 2024 = "2024".
Proof. repeat split; reflexivity. Qed.

Example split_examples :
  split_ws "  a  bc d " = ["a"; "bc"; "d"] /\
  split_on "=" "a=b=c" = ["a"; "b"; "c"] /\
  split_on "=" "abc" = ["abc"] /\ split_on "=" "a=" = ["a"; ""] /\
  strip "  a b  " = "a b" /\ strip "   " = "" /\
  join " " ["a"; "b"; "c"] = "a b c".
Proof. repeat split; reflexivity. Qed.

Example strptime_examples :
  strptime "03.11.2026-22:47:05:000123" _DATE_FMT
    = Ok (mk_datetime 2026 11 3 22 47 5 123) /\
  strptime "3.1.2026-2:7:5:5" _DATE_FMT
    = Ok (mk_datetime 2026 1 3 2 7 5 500000) /\
  strptime "30.02.2026-22:47:05:000123" _DATE_FMT = Raise ValueError /\
  strptime "29.02.2024-23:59:60:0" _DATE_FMT = Raise ValueError /\
  strptime "29.02.2024-23:59:59:0" _DATE_FMT
    = Ok (mk_datetime 2024 2 29 23 59 59 0) /\
  strptime "29.02.2024-23:59:59:0000001" _DATE_FMT = Raise ValueError /\
  strftime (mk_datetime 2026 11 3 22 47 5 123) _DATE_FMT
    = "03.11.2026-22:47:05:000123" /\
  strftime (mk_datetime 33 1 3 2 7 5 0) _DATE_FMT
    = "03.01.33-02:07:05:000000" /\
  strptime "03.01.33-02:07:05:000000" _DATE_FMT = Raise ValueError.
Proof. repeat split; reflexivity. Qed.

Example generate_rst_table_example :
  generate_rst_table [["0"; "Do you?"; "2"]; ["15"; "A longer question"; "3"]]
    "Lowest" ["ID"; "Question"; "Answer"]
  = Ok ["+---------------------------------+";
        "|Lowest                           |";
        "+----+-------------------+--------+";
        "| ID |     Question      | Answer |";
        "+====+===================+========+";
        "| 0  |      Do you?      |   2    |";
        "+----+-------------------+--------+";
        "| 15 | A longer question |   3    |";
        "+----+-------------------+--------+"] /\
  generate_rst_table [] "Lowest" [] = Raise ValueError /\
  generate_rst_table [["0"; "Q"; "1"; "x"]] "" ["ID"; "Question"; "Answer"]
  = Raise IndexError.
Proof. repeat split; reflexivity. Qed.

Example read_results_example :
  read_results ("time=03.11.2026-22:47:05:000123 0=2 1=5 " ++ String nl "")
    [(0, "mental"); (1, "technique")]
  = Ok [mk_session (Some (mk_datetime 2026 11 3 22 47 5 123))
          [(0, 2); (1, 5)] [("mental", 2); ("technique", 5)]] /\
  read_results ("0=2 7=5" ++ String nl "") [(0, "mental")] = Raise KeyError /\
  read_results ("0=2 time" ++ String nl "") [(0, "mental")]
  = Raise IndexError /\
  read_results ("0=x" ++ String nl "") [(0, "mental")] = Raise ValueError.
Proof. repeat split; reflexivity. Qed.

Example low_tables_example :
  low_tables [(0, 2); (1, 5); (2, 3); (3, 0)]
    [(0, "Q0"); (1, "Q1"); (2, "Q2"); (3, "Q3")]
    [(0, "physical"); (1, "technique"); (2, "mental"); (3, "physical")]
  = Ok [("mental", [["2"; "Q2"; "3"]]);
        ("physical", [["0"; "Q0"; "2"]; ["3"; "Q3"; "0"]])].
Proof. reflexivity. Qed.

(** ** Strings *)

Lemma append_nil_r (s : string) : s ++ "" = s.
Proof. induction s as [|c s IH]; simpl; [reflexivity | now rewrite IH]. Qed.

Lemma append_assoc (a b c : string) : (a ++ b) ++ c = a ++ b ++ c.
Proof. induction a as [|x a IH]; simpl; [reflexivity | now rewrite IH]. Qed.

Lemma len_nonneg (s : string) : 0 <= len s.
Proof. unfold len. lia. Qed.

Lemma len_append (a b : string) : len (a ++ b) = len a + len b.
Proof.
  unfold len. induction a as [|x a IH]; simpl String.length; [lia|].
  rewrite !Nat2Z.inj_succ. lia.
Qed.

Lemma len_String (c : ascii) (s : string) : len (String c s) = 1 + len s.
Proof. unfold len. simpl String.length. lia. Qed.

Lemma len_repeat_char (c : ascii) (n : nat) :
  len (repeat_char c n) = Z.of_nat n.
Proof.
  induction n as [|n IH]; [reflexivity|].
  simpl repeat_char. rewrite len_String, IH. lia.
Qed.

Lemma len_replace_char (a b : ascii) (s : string) :
  len (replace_char a b s) = len s.
Proof.
  induction s as [|c s IH]; [reflexivity|].
  simpl replace_char. now rewrite !len_String, IH.
Qed.

(** ** Lists updated by index *)

Lemma length_list_set {A : Type} (l : list A) (i : nat) (x : A) :
  List.length (list_set l i x) = List.length l.
Proof.
  revert i; induction l as [|y l IH]; intros [|i]; simpl; auto.
Qed.

Lemma nth_list_set {A : Type} (l : list A) (i j : nat) (x d : A) :
  (i < List.length l)%nat ->
  nth j (list_set l i x) d = if Nat.eqb j i then x else nth j l d.
Proof.
  revert i j; induction l as [|y l IH]; intros [|i] [|j] Hi;
    simpl in *; try lia; auto.
  apply IH. lia.
Qed.

Lemma index_nth {A : Type} (l : list A) (i : nat) (d : A) :
  (i < List.length l)%nat -> index l i = Ok (nth i l d).
Proof.
  intros Hi. unfold index.
  now rewrite (nth_error_nth' l d Hi).
Qed.

(** ** Column widths *)

Lemma widen_row_spec (row : list string) :
  forall (i : nat) (col_len : list Z),
    (i + List.length row <= List.length col_len)%nat ->
    exists col_len',
      widen_row row i col_len = Ok col_len' /\
      List.length col_len' = List.length col_len /\
      forall j : nat,
        nth j col_len' 0 =
        if ((i <=? j) && (j <? i + List.length row))%nat
        then Z.max (nth j col_len 0) (len (nth (j - i) row "") + 2)
        else nth j col_len 0.
Proof.
  induction row as [|col rest IH]; intros i col_len Hlen.
  - exists col_len. repeat split; auto. intros j.
    destruct (_ && _)%bool eqn:E; auto.
    apply andb_true_iff in E as [E1 E2].
    apply Nat.leb_le in E1. apply Nat.ltb_lt in E2. simpl in E2. lia.
  - simpl List.length in Hlen. simpl widen_row.
    rewrite (index_nth col_len i 0) by lia. simpl bind.
    set (cl := if len col >=? nth i col_len 0 - 2
               then list_set col_len i (len col + 2) else col_len).
    assert (Hcl : List.length cl = List.length col_len).
    { unfold cl. destruct (_ >=? _); auto using length_list_set. }
    destruct (IH (S i) cl) as (col_len' & Hrun & Hl & Hnth); [lia|].
    exists col_len'. split; [exact Hrun|]. split; [congruence|].
    intros j. rewrite Hnth. clear Hnth Hrun IH.
    assert (Hcl_nth : forall k, nth k cl 0 =
              if Nat.eqb k i
              then Z.max (nth i col_len 0) (len col + 2)
              else nth k col_len 0).
    { intros k. unfold cl.
      destruct (len col >=? nth i col_len 0 - 2) eqn:E.
      - rewrite nth_list_set by lia.
        destruct (Nat.eqb_spec k i); auto.
        apply Z.geb_le in E. lia.
      - destruct (Nat.eqb_spec k i); auto. subst k.
        rewrite Z.geb_leb in E. apply Z.leb_gt in E. lia. }
    rewrite Hcl_nth.
    change (List.length (col :: rest)) with (S (List.length rest)).
    destruct (Nat.eqb_spec j i) as [Heq|Hne];
      destruct (Nat.leb_spec (S i) j); destruct (Nat.leb_spec i j);
      destruct (Nat.ltb_spec j (S i + List.length rest));
      destruct (Nat.ltb_spec j (i + S (List.length rest)));
      try lia; cbn [andb]; auto.
    + subst j. now rewrite Nat.sub_diag.
    + replace (j - i)%nat with (S (j - S i)) by lia. reflexivity.
Qed.

Lemma column_widths_from (headings : list string) (table : list (list string)) :
  same_arity headings table ->
  forall col_len : list Z,
    List.length col_len = List.length headings ->
    (forall j : nat, (j < List.length headings)%nat -> 2 <= nth j col_len 0) ->
    exists col_len',
      foldM (fun col_len row => widen_row row 0 col_len) table col_len
        = Ok col_len' /\
      List.length col_len' = List.length headings /\
      forall j : nat, (j < List.length headings)%nat ->
        nth j col_len' 0 = Z.max (nth j col_len 0) (longest_cell table j + 2).
Proof.
  induction 1 as [|row table Hrow Htable IH]; intros col_len Hlen Hge.
  - exists col_len. repeat split; auto. intros j Hj.
    unfold longest_cell. simpl. specialize (Hge j Hj). lia.
  - simpl foldM.
    destruct (widen_row_spec row 0 col_len) as (c1 & Hrun & Hl1 & Hn1); [lia|].
    rewrite Hrun. simpl bind.
    assert (Hin : forall j, (j < List.length headings)%nat ->
              ((0 <=? j) && (j <? 0 + List.length row))%nat = true).
    { intros j Hj. apply andb_true_iff. split;
        [apply Nat.leb_le | apply Nat.ltb_lt]; lia. }
    destruct (IH c1) as (c2 & Hrun2 & Hl2 & Hn2); [congruence| |].
    { intros j Hj. rewrite Hn1, (Hin j Hj). specialize (Hge j Hj). lia. }
    exists c2. split; [exact Hrun2|]. split; [exact Hl2|].
    intros j Hj. rewrite Hn2 by exact Hj. rewrite Hn1, (Hin j Hj).
    rewrite Nat.sub_0_r. unfold longest_cell. simpl. lia.
Qed.

Lemma longest_cell_ge (table : list (list string)) (i : nat) (row : list string) :
  In row table -> len (nth i row "") <= longest_cell table i.
Proof.
  unfold longest_cell.
  induction table as [|r table IH]; simpl; [tauto|].
  intros [->|Hin]; [lia|]. specialize (IH Hin). lia.
Qed.

Lemma longest_cell_nonneg (table : list (list string)) (i : nat) :
  0 <= longest_cell table i.
Proof.
  unfold longest_cell. induction table as [|r table IH]; simpl; lia.
Qed.

Lemma column_widths_spec (table : list (list string)) (headings : list string) :
  same_arity headings table ->
  exists col_len : list Z,
    column_widths table headings = Ok col_len /\
    List.length col_len = List.length headings /\
    forall i : nat, (i < List.length headings)%nat ->
      nth i col_len 0
        = Z.max (len (nth i headings "")) (longest_cell table i) + 2.
Proof.
  intros Harity. unfold column_widths.
  set (init := map (fun col => len col + 2) headings).
  assert (Hinit : forall j, (j < List.length headings)%nat ->
            nth j init 0 = len (nth j headings "") + 2).
  { intros j Hj. unfold init.
    rewrite (nth_indep _ 0 ((fun col => len col + 2) ""))
      by (now rewrite length_map).
    exact (map_nth (fun col => len col + 2) headings "" j). }
  destruct (column_widths_from headings table Harity init)
    as (col_len & Hrun & Hlen & Hnth).
  - unfold init. apply length_map.
  - intros j Hj. rewrite (Hinit j Hj).
    pose proof (len_nonneg (nth j headings "")). lia.
  - exists col_len. split; [exact Hrun|]. split; [exact Hlen|].
    intros i Hi. rewrite (Hnth i Hi), (Hinit i Hi). lia.
Qed.

(** C4. For rows of the arity of the headings, the width pass of
    [generate_rst_table] succeeds and leaves, for every column, the width
    [max(len(heading), len(longest cell of the column)) + 2]; so every
    width is at least [len(heading) + 2] and at least [len(cell) + 2] for
    every cell of the column. The title plays no part in the widths. *)
Theorem column_widths_max (table : list (list string)) (headings : list string) :
  same_arity headings table ->
  exists col_len : list Z,
    column_widths table headings = Ok col_len /\
    List.length col_len = List.length headings /\
    forall i : nat, (i < List.length headings)%nat ->
      nth i col_len 0
        = Z.max (len (nth i headings "")) (longest_cell table i) + 2 /\
      len (nth i headings "") + 2 <= nth i col_len 0 /\
      forall row : list string,
        In row table -> len (nth i row "") + 2 <= nth i col_len 0.
Proof.
  intros Harity.
  destruct (column_widths_spec table headings Harity)
    as (col_len & Hrun & Hlen & Hnth).
  exists col_len. split; [exact Hrun|]. split; [exact Hlen|].
  intros i Hi. specialize (Hnth i Hi).
  split; [exact Hnth|]. split; [lia|].
  intros row Hin. pose proof (longest_cell_ge table i row Hin). lia.
Qed.

Lemma column_widths_max_witness :
  same_arity ["ID"; "Question"; "Answer"] [["0"; "Do you?"; "2"]] /\
  exists col_len : list Z,
    column_widths [["0"; "Do you?"; "2"]] ["ID"; "Question"; "Answer"]
      = Ok col_len /\
    List.length col_len = 3%nat /\
    forall i : nat, (i < 3)%nat ->
      nth i col_len 0
        = Z.max (len (nth i ["ID"; "Question"; "Answer"] ""))
            (longest_cell [["0"; "Do you?"; "2"]] i) + 2 /\
      len (nth i ["ID"; "Question"; "Answer"] "") + 2 <= nth i col_len 0 /\
      forall row : list string,
        In row [["0"; "Do you?"; "2"]] ->
        len (nth i row "") + 2 <= nth i col_len 0.
Proof.
  assert (H : same_arity ["ID"; "Question"; "Answer"] [["0"; "Do you?"; "2"]])
    by (repeat constructor).
  split; [exact H|].
  exact (column_widths_max [["0"; "Do you?"; "2"]]
           ["ID"; "Question"; "Answer"] H).
Defined.

(** ** Rendering *)

Section Additive.
Variable mu : string -> Z.
Hypothesis mu_nil : mu "" = 0.
Hypothesis mu_app : forall a b : string, mu (a ++ b) = mu a + mu b.

Lemma mu_join (sep : string) (l : list string) :
  l <> [] ->
  mu (join sep l) = sum (map mu l) + (Z.of_nat (List.length l) - 1) * mu sep.
Proof.
  induction l as [|x l IH]; [congruence|]. intros _.
  destruct l as [|y l].
  - simpl. lia.
  - change (join sep (x :: y :: l)) with (x ++ sep ++ join sep (y :: l)).
    rewrite !mu_app, IH by discriminate.
    cbn [map sum fold_right List.length]. rewrite !Nat2Z.inj_succ. ring.
Qed.

Lemma sum_map_app (l1 l2 : list string) :
  sum (map mu (l1 ++ l2)) = sum (map mu l1) + sum (map mu l2).
Proof.
  induction l1 as [|x l1 IH]; simpl in *; [reflexivity | lia].
Qed.

Lemma mu_bordered (sep : string) (cells : list string) :
  mu (bordered sep cells)
  = sum (map mu cells) + (Z.of_nat (List.length cells) + 1) * mu sep.
Proof.
  unfold bordered. rewrite mu_join by discriminate.
  change ([""] ++ cells ++ [""])%list with ("" :: (cells ++ [""]))%list.
  cbn [map sum fold_right List.length].
  fold (sum (map mu (cells ++ [""]))).
  rewrite sum_map_app, length_app, Nat2Z.inj_succ, Nat2Z.inj_add.
  simpl. rewrite mu_nil. ring.
Qed.
End Additive.

Lemma glyphs_append (a b : string) : glyphs (a ++ b) = glyphs a + glyphs b.
Proof.
  unfold glyphs. induction a as [|c a IH]; simpl; [reflexivity | lia].
Qed.

Lemma glyphs_repeat_char (c : ascii) (n : nat) :
  is_glyph c = false -> glyphs (repeat_char c n) = 0.
Proof.
  intros Hc. unfold glyphs.
  induction n as [|n IH]; simpl; [reflexivity | rewrite Hc, IH; lia].
Qed.

Lemma glyphs_nonneg (s : string) : 0 <= glyphs s.
Proof.
  unfold glyphs. induction s as [|c s IH]; simpl; [lia|].
  destruct (is_glyph c); lia.
Qed.

Lemma len_centre (w : Z) (s : string) : len (centre w s) = Z.max w (len s).
Proof.
  unfold centre. rewrite !len_append, !len_repeat_char.
  assert (Nat.div (Z.to_nat (w - len s)) 2 <= Z.to_nat (w - len s))%nat
    by (apply Nat.Div0.div_le_upper_bound; lia).
  lia.
Qed.

Lemma glyphs_centre (w : Z) (s : string) : glyphs (centre w s) = glyphs s.
Proof.
  unfold centre. rewrite !glyphs_append, !glyphs_repeat_char by reflexivity.
  lia.
Qed.

Lemma mapM_ok {A B : Type} (f : A -> result B) (g : A -> B) (l : list A) :
  (forall x, In x l -> f x = Ok (g x)) -> mapM f l = Ok (map g l).
Proof.
  induction l as [|x l IH]; intros Hf; [reflexivity|].
  simpl. rewrite Hf by (now left). simpl.
  rewrite IH by (intros y Hy; apply Hf; now right). reflexivity.
Qed.

Lemma format_row_ok (head_fmt : list Z) (row : list string) :
  Forall (fun w => 0 <= w) head_fmt ->
  format_row head_fmt row = Ok (row_text head_fmt row).
Proof.
  intros Hw. unfold format_row.
  rewrite (mapM_ok _ (fun fc => centre (fst fc) (snd fc))).
  - reflexivity.
  - intros [w c] Hin. apply in_combine_l in Hin.
    rewrite Forall_forall in Hw. specialize (Hw w Hin).
    unfold format_s. simpl.
    destruct (Z.ltb_spec w 0); [lia | reflexivity].
Qed.

Lemma flat_map_map {A B C : Type} (f : A -> B) (g : B -> list C) (l : list A) :
  flat_map g (map f l) = flat_map (fun x => g (f x)) l.
Proof. induction l as [|x l IH]; simpl; [reflexivity | now rewrite IH]. Qed.

Lemma generate_rst_table_lines (table : list (list string)) (title : string)
  (headings : list string) (col_len : list Z) :
  column_widths table headings = Ok col_len ->
  Forall (fun w => 0 <= w) col_len ->
  0 <= Z.of_nat (List.length col_len) + sum col_len - 1 ->
  generate_rst_table table title headings
  = Ok (table_lines col_len table title headings).
Proof.
  intros Hcol Hw Hwidth. unfold generate_rst_table.
  rewrite Hcol. simpl bind. unfold format_s at 1.
  destruct (Z.ltb_spec (Z.of_nat (List.length col_len) + sum col_len - 1) 0);
    [lia|].
  simpl bind. rewrite format_row_ok by exact Hw. simpl bind.
  rewrite (mapM_ok _ (row_text col_len))
    by (intros; now apply format_row_ok).
  simpl bind. unfold table_lines. rewrite flat_map_map. reflexivity.
Qed.

Lemma Forall2_of_nth {A B : Type} (P : A -> B -> Prop) (da : A) (db : B) :
  forall (a : list A) (b : list B),
    List.length a = List.length b ->
    (forall i : nat, (i < List.length a)%nat -> P (nth i a da) (nth i b db)) ->
    Forall2 P a b.
Proof.
  induction a as [|x a IH]; intros [|y b] Hlen Hnth; simpl in Hlen;
    try discriminate; constructor.
  - apply (Hnth 0%nat). simpl. lia.
  - apply IH; [lia|]. intros i Hi. apply (Hnth (S i)). simpl. lia.
Qed.

Lemma widths_facts (table : list (list string)) (headings : list string)
  (col_len : list Z) :
  same_arity headings table ->
  column_widths table headings = Ok col_len ->
  List.length col_len = List.length headings /\
  Forall (fun w => 2 <= w) col_len /\
  Forall2 fits col_len headings /\
  forall row : list string, In row table -> Forall2 fits col_len row.
Proof.
  intros Harity Hcol.
  destruct (column_widths_spec table headings Harity)
    as (col_len' & Hcol' & Hlen & Hnth).
  rewrite Hcol in Hcol'. injection Hcol' as <-.
  split; [exact Hlen|]. split; [|split].
  - apply Forall_nth. intros i d Hi. rewrite (nth_indep _ d 0 Hi).
    rewrite Hlen in Hi. rewrite (Hnth i Hi).
    pose proof (len_nonneg (nth i headings "")). lia.
  - apply (Forall2_of_nth fits 0 ""); [exact Hlen|].
    intros i Hi. rewrite Hlen in Hi. unfold fits. rewrite (Hnth i Hi). lia.
  - intros row Hin.
    assert (Hrow : List.length row = List.length headings).
    { unfold same_arity in Harity. rewrite Forall_forall in Harity. auto. }
    apply (Forall2_of_nth fits 0 ""); [congruence|].
    intros i Hi. rewrite Hlen in Hi. unfold fits. rewrite (Hnth i Hi).
    pose proof (longest_cell_ge table i row Hin). lia.
Qed.

Lemma sum_cons (x : Z) (l : list Z) : sum (x :: l) = x + sum l.
Proof. reflexivity. Qed.

Lemma sum_dashes (col_len : list Z) :
  Forall (fun w => 0 <= w) col_len ->
  sum (map len (map (fun col => repeat_char "-" (Z.to_nat col)) col_len))
  = sum col_len.
Proof.
  induction 1 as [|w col_len Hw _ IH]; [reflexivity|].
  cbn [map]. rewrite !sum_cons, len_repeat_char, IH. lia.
Qed.

Lemma sum_centred (col_len : list Z) (row : list string) :
  Forall2 fits col_len row ->
  sum (map len (map (fun fc => centre (fst fc) (snd fc)) (combine col_len row)))
  = sum col_len /\
  List.length (combine col_len row) = List.length col_len.
Proof.
  induction 1 as [|w c col_len row Hfit _ [IH1 IH2]]; [split; reflexivity|].
  cbn [map combine List.length fst snd].
  rewrite !sum_cons, len_centre, IH1, IH2. unfold fits in Hfit.
  split; [lia | reflexivity].
Qed.

Lemma len_rule (col_len : list Z) :
  Forall (fun w => 0 <= w) col_len ->
  len (rule col_len) = sum col_len + Z.of_nat (List.length col_len) + 1.
Proof.
  intros Hw. unfold rule.
  rewrite (mu_bordered len eq_refl len_append), sum_dashes by exact Hw.
  rewrite length_map. change (len "+") with 1. lia.
Qed.

Lemma len_row_text (col_len : list Z) (row : list string) :
  Forall2 fits col_len row ->
  len (row_text col_len row)
  = sum col_len + Z.of_nat (List.length col_len) + 1.
Proof.
  intros Hfit. unfold row_text.
  destruct (sum_centred col_len row Hfit) as [Hs Hl].
  rewrite (mu_bordered len eq_refl len_append), Hs, length_map, Hl.
  change (len "|") with 1. lia.
Qed.

Lemma Forall_ge_weaken (col_len : list Z) :
  Forall (fun w => 2 <= w) col_len -> Forall (fun w => 0 <= w) col_len.
Proof. apply Forall_impl. intros; lia. Qed.

Lemma sum_ge (col_len : list Z) :
  Forall (fun w => 2 <= w) col_len ->
  2 * Z.of_nat (List.length col_len) <= sum col_len.
Proof.
  induction 1 as [|w col_len Hw _ IH]; [simpl; lia|].
  change (sum (w :: col_len)) with (w + sum col_len).
  change (List.length (w :: col_len)) with (S (List.length col_len)). lia.
Qed.

(** C9. For rows of the arity of the headings and a title no longer than
    the total width [len(col_len) + sum(col_len) - 1], the table is returned
    and every one of its lines is [sum(col_len) + columns + 1] characters
    long. *)
Theorem generate_rst_table_line_lengths (table : list (list string))
  (title : string) (headings : list string) (col_len : list Z) :
  same_arity headings table ->
  column_widths table headings = Ok col_len ->
  len title <= Z.of_nat (List.length col_len) + sum col_len - 1 ->
  exists lines : list string,
    generate_rst_table table title headings = Ok lines /\
    Forall (fun line =>
              len line = sum col_len + Z.of_nat (List.length headings) + 1)
           lines.
Proof.
  intros Harity Hcol Htitle.
  destruct (widths_facts table headings col_len Harity Hcol)
    as (Hlen & Hge & Hhead & Hrows).
  pose proof (Forall_ge_weaken col_len Hge) as Hw.
  pose proof (len_nonneg title) as Ht.
  exists (table_lines col_len table title headings). split.
  - apply generate_rst_table_lines; [exact Hcol | exact Hw | lia].
  - rewrite <- Hlen. unfold table_lines.
    set (width := Z.of_nat (List.length col_len) + sum col_len - 1) in *.
    repeat apply Forall_cons.
    + rewrite !len_append, len_repeat_char. change (len "+") with 1. lia.
    + rewrite !len_append, len_repeat_char. change (len "|") with 1. lia.
    + now apply len_rule.
    + now apply len_row_text.
    + rewrite len_replace_char. now apply len_rule.
    + apply Forall_flat_map. apply Forall_forall. intros row Hin.
      repeat constructor; [apply len_row_text; auto | now apply len_rule].
Qed.

Lemma generate_rst_table_line_lengths_witness :
  exists lines : list string,
    generate_rst_table [["0"; "Do you?"; "2"]] "Lowest"
      ["ID"; "Question"; "Answer"] = Ok lines /\
    Forall (fun line => len line = sum [4; 10; 8] + 3 + 1) lines.
Proof.
  apply (generate_rst_table_line_lengths [["0"; "Do you?"; "2"]] "Lowest"
           ["ID"; "Question"; "Answer"] [4; 10; 8]).
  - repeat constructor.
  - reflexivity.
  - vm_compute. discriminate.
Defined.

(** ** Border glyphs *)

Lemma glyphs_replace_char (a b : ascii) (s : string) :
  is_glyph a = false -> is_glyph b = false ->
  glyphs (replace_char a b s) = glyphs s.
Proof.
  intros Ha Hb. unfold glyphs.
  induction s as [|c s IH]; [reflexivity|].
  cbn [replace_char count_chars]. rewrite IH.
  destruct (Ascii.eqb_spec c a) as [->|_]; [now rewrite Ha, Hb | reflexivity].
Qed.

Lemma glyphs_rule (col_len : list Z) :
  glyphs (rule col_len) = Z.of_nat (List.length col_len) + 1.
Proof.
  unfold rule. rewrite (mu_bordered glyphs eq_refl glyphs_append), length_map.
  change (glyphs "+") with 1.
  assert (Hz : sum (map glyphs
             (map (fun col => repeat_char "-" (Z.to_nat col)) col_len)) = 0).
  { induction col_len as [|w col_len IH]; [reflexivity|].
    cbn [map]. rewrite sum_cons, IH, glyphs_repeat_char by reflexivity. lia. }
  rewrite Hz. lia.
Qed.

Lemma glyphs_row_text (col_len : list Z) (row : list string) :
  List.length row = List.length col_len ->
  Forall glyph_free row ->
  glyphs (row_text col_len row) = Z.of_nat (List.length col_len) + 1.
Proof.
  intros Hlen Hfree. unfold row_text.
  rewrite (mu_bordered glyphs eq_refl glyphs_append), length_map.
  change (glyphs "|") with 1.
  assert (Hz : sum (map glyphs (map (fun fc => centre (fst fc) (snd fc))
                                   (combine col_len row))) = 0
               /\ List.length (combine col_len row) = List.length col_len).
  { clear - Hlen Hfree. revert row Hlen Hfree.
    induction col_len as [|w col_len IH]; intros [|c row] Hlen Hfree;
      simpl in Hlen; try discriminate; [split; reflexivity|].
    inversion Hfree as [|? ? Hc Hrow]; subst.
    destruct (IH row) as [IH1 IH2]; [lia | exact Hrow |].
    cbn [map combine List.length fst snd].
    rewrite sum_cons, glyphs_centre, IH1, IH2. unfold glyph_free in Hc.
    split; [lia | reflexivity]. }
  destruct Hz as [Hz Hl]. rewrite Hz, Hl. lia.
Qed.

(** C5, as amended. For rows of the arity of the headings, at least one
    column, and headings and cells that contain neither ['|'] nor ['+']:
    the table is returned; its top border has exactly two border glyphs
    and its title line two besides those of the title; every other line
    (the rules, the heading row, the double rule and the data rows) has
    exactly [columns + 1]. *)
Theorem generate_rst_table_border_glyphs (table : list (list string))
  (title : string) (headings : list string) :
  same_arity headings table ->
  headings <> [] ->
  Forall glyph_free headings ->
  Forall (Forall glyph_free) table ->
  exists (topline str_header : string) (body : list string),
    generate_rst_table table title headings
      = Ok (topline :: str_header :: body) /\
    glyphs topline = 2 /\
    glyphs str_header = 2 + glyphs title /\
    Forall (fun line => glyphs line = Z.of_nat (List.length headings) + 1)
           body.
Proof.
  intros Harity Hne Hfh Hft.
  destruct (column_widths_spec table headings Harity)
    as (col_len & Hcol & Hlen0 & _).
  destruct (widths_facts table headings col_len Harity Hcol)
    as (Hlen & Hge & _ & _).
  pose proof (Forall_ge_weaken col_len Hge) as Hw.
  pose proof (sum_ge col_len Hge) as Hsum.
  assert (Hn : (0 < List.length col_len)%nat).
  { rewrite Hlen. destruct headings; [congruence | simpl; lia]. }
  rewrite (generate_rst_table_lines table title headings col_len Hcol Hw)
    by lia.
  unfold table_lines. do 3 eexists. split; [reflexivity|].
  rewrite <- Hlen. split; [|split].
  - rewrite !glyphs_append, glyphs_repeat_char by reflexivity. reflexivity.
  - rewrite !glyphs_append, glyphs_repeat_char by reflexivity.
    change (glyphs "|") with 1. lia.
  - repeat apply Forall_cons.
    + apply glyphs_rule.
    + apply glyphs_row_text; [congruence | exact Hfh].
    + rewrite glyphs_replace_char by reflexivity. apply glyphs_rule.
    + apply Forall_flat_map. apply Forall_forall. intros row Hin.
      unfold same_arity in Harity. rewrite Forall_forall in Harity, Hft.
      repeat constructor; [|apply glyphs_rule].
      apply glyphs_row_text; [rewrite Hlen; auto | auto].
Qed.

Lemma generate_rst_table_border_glyphs_witness :
  exists (topline str_header : string) (body : list string),
    generate_rst_table [["0"; "Do you?"; "2"]] "Lowest"
      ["ID"; "Question"; "Answer"] = Ok (topline :: str_header :: body) /\
    glyphs topline = 2 /\
    glyphs str_header = 2 + glyphs "Lowest" /\
    Forall (fun line => glyphs line = Z.of_nat 3 + 1) body.
Proof.
  apply (generate_rst_table_border_glyphs [["0"; "Do you?"; "2"]] "Lowest"
           ["ID"; "Question"; "Answer"]).
  - repeat constructor.
  - discriminate.
  - repeat constructor.
  - repeat constructor.
Defined.

(** C5 as stated fails: the top border of a three-column table has two
    border glyphs, not four. *)
Lemma generate_rst_table_border_glyphs_counterexample :
  same_arity ["ID"; "Question"; "Answer"] [["0"; "Do you?"; "2"]] /\
  exists lines : list string,
    generate_rst_table [["0"; "Do you?"; "2"]] "Lowest"
      ["ID"; "Question"; "Answer"] = Ok lines /\
    ~ Forall (fun line => glyphs line = Z.of_nat 3 + 1) lines.
Proof.
  split; [repeat constructor|].
  eexists. split; [reflexivity|].
  intros H. inversion H as [|line rest Htop _]. vm_compute in Htop.
  discriminate.
Qed.

(** ** Dictionaries *)

Section DictFacts.
Context {K V : Type} `{Key K}.

Lemma key_eqb_refl (k : K) : key_eqb k k = true.
Proof. destruct (key_eqb_spec k k); congruence. Qed.

Lemma key_eqb_neq (k k' : K) : k <> k' -> key_eqb k k' = false.
Proof. intros Hne. destruct (key_eqb_spec k k'); congruence. Qed.

Lemma dict_get_set_same (d : dict K V) (k : K) (v : V) :
  dict_get (dict_set d k v) k = Some v.
Proof.
  induction d as [|[k' v'] d IH]; simpl.
  - now rewrite key_eqb_refl.
  - destruct (key_eqb_spec k k') as [->|Hne]; simpl.
    + now rewrite key_eqb_refl.
    + now rewrite (key_eqb_neq k k' Hne).
Qed.

Lemma dict_get_set_other (d : dict K V) (k k0 : K) (v : V) :
  k0 <> k -> dict_get (dict_set d k v) k0 = dict_get d k0.
Proof.
  intros Hne. induction d as [|[k' v'] d IH]; simpl.
  - now rewrite (key_eqb_neq k0 k Hne).
  - destruct (key_eqb_spec k k') as [->|Hne']; simpl.
    + now rewrite (key_eqb_neq k0 k' Hne).
    + now rewrite IH.
Qed.

Lemma dict_get_In (d : dict K V) (k : K) (v : V) :
  dict_get d k = Some v -> In (k, v) d.
Proof.
  induction d as [|[k' v'] d IH]; simpl; [discriminate|].
  destruct (key_eqb_spec k k') as [->|Hne].
  - intros [= ->]. now left.
  - intros Hget. right. now apply IH.
Qed.

Lemma dict_get_None (d : dict K V) (k : K) :
  dict_get d k = None <-> ~ In k (keys d).
Proof.
  induction d as [|[k' v'] d IH]; simpl; [tauto|].
  destruct (key_eqb_spec k k') as [->|Hne].
  - split; [discriminate | intros Hn; exfalso; apply Hn; now left].
  - rewrite IH. unfold keys. split.
    + intros Hn [E|Hin]; [congruence | contradiction].
    + intros Hn Hin. apply Hn. now right.
Qed.

Lemma In_dict_get (d : dict K V) (k : K) (v : V) :
  NoDup (keys d) -> In (k, v) d -> dict_get d k = Some v.
Proof.
  induction d as [|[k' v'] d IH]; simpl; [tauto|].
  intros Hnd Hin. inversion Hnd as [|? ? Hnotin Hnd']; subst.
  destruct Hin as [[= -> ->]|Hin].
  - now rewrite key_eqb_refl.
  - destruct (key_eqb_spec k k') as [->|Hne]; [|now apply IH].
    exfalso. apply Hnotin. unfold keys. apply in_map_iff.
    now exists (k', v).
Qed.

Lemma dict_set_absent (d : dict K V) (k : K) (v : V) :
  dict_get d k = None -> dict_set d k v = (d ++ [(k, v)])%list.
Proof.
  induction d as [|[k' v'] d IH]; simpl; [reflexivity|].
  destruct (key_eqb_spec k k') as [->|Hne]; [discriminate|].
  intros Hget. now rewrite IH.
Qed.

Lemma keys_dict_set (d : dict K V) (k : K) (v : V) :
  keys (dict_set d k v)
  = if dict_mem d k then keys d else (keys d ++ [k])%list.
Proof.
  unfold dict_mem.
  induction d as [|[k' v'] d IH]; simpl; [reflexivity|].
  destruct (key_eqb_spec k k') as [->|Hne]; simpl; [reflexivity|].
  rewrite IH. now destruct (dict_get d k).
Qed.

Lemma In_dict_set (d : dict K V) (k k0 : K) (v v0 : V) :
  In (k0, v0) (dict_set d k v) -> (k0 = k /\ v0 = v) \/ In (k0, v0) d.
Proof.
  induction d as [|[k' v'] d IH]; simpl.
  - intros [[= -> ->]|[]]. now left.
  - destruct (key_eqb_spec k k') as [->|Hne]; simpl.
    + intros [[= -> ->]|Hin]; auto.
    + intros [E|Hin]; auto. destruct (IH Hin); auto.
Qed.

Lemma NoDup_keys_dict_set (d : dict K V) (k : K) (v : V) :
  NoDup (keys d) -> NoDup (keys (dict_set d k v)).
Proof.
  intros Hnd. rewrite keys_dict_set. unfold dict_mem.
  destruct (dict_get d k) eqn:E; [exact Hnd|].
  apply dict_get_None in E.
  apply NoDup_app; [exact Hnd | repeat constructor; simpl; tauto |].
  intros x Hx [->|[]]. contradiction.
Qed.

Lemma getitem_Some (d : dict K V) (k : K) (v : V) :
  dict_get d k = Some v -> getitem d k = Ok v.
Proof. unfold getitem. now intros ->. Qed.
End DictFacts.

Lemma foldM_app {A S : Type} (f : S -> A -> result S) (l1 l2 : list A) (s : S) :
  foldM f (l1 ++ l2) s = (s' <- foldM f l1 s ;; foldM f l2 s').
Proof.
  revert s. induction l1 as [|x l1 IH]; intros s; simpl; [reflexivity|].
  destruct (f s x); simpl; [apply IH | reflexivity].
Qed.

(** ** Per-category totals *)

Lemma total_step (rc : dict string Z) (category : string) (answer : Z) :
  (let rc' := if dict_mem rc category then rc else dict_set rc category 0 in
   total <- getitem rc' category ;;
   Ok (dict_set rc' category (total + answer)))
  = Ok (add_total rc category answer).
Proof.
  unfold add_total, dict_mem. cbv zeta.
  destruct (dict_get rc category) as [total|] eqn:E.
  - rewrite (getitem_Some _ _ _ E). reflexivity.
  - rewrite (getitem_Some _ _ 0) by apply dict_get_set_same. reflexivity.
Qed.

Lemma total_step_in {X : Type} (rc : dict string Z) (category : string)
  (answer : Z) (k : dict string Z -> X) :
  (let rc' := if dict_mem rc category then rc else dict_set rc category 0 in
   total <- getitem rc' category ;;
   Ok (k (dict_set rc' category (total + answer))))
  = Ok (k (add_total rc category answer)).
Proof.
  unfold add_total, dict_mem. cbv zeta.
  destruct (dict_get rc category) as [total|] eqn:E.
  - rewrite (getitem_Some _ _ _ E). reflexivity.
  - rewrite (getitem_Some _ _ 0) by apply dict_get_set_same. reflexivity.
Qed.

Lemma sum_values_app {K : Type} (d1 d2 : dict K Z) :
  sum (values (d1 ++ d2)%list) = sum (values d1) + sum (values d2).
Proof.
  unfold values. induction d1 as [|[k v] d1 IH]; [reflexivity|].
  cbn [app map snd]. rewrite !sum_cons, IH. lia.
Qed.

Lemma sum_values_set {K : Type} `{Key K} (d : dict K Z) (k : K) (v : Z) :
  sum (values (dict_set d k v))
  = sum (values d) + v - match dict_get d k with Some old => old | None => 0 end.
Proof.
  unfold values. induction d as [|[k' v'] d IH].
  - simpl. lia.
  - cbn [dict_set dict_get].
    destruct (key_eqb k k'); cbn [map snd]; rewrite !sum_cons; [lia|].
    rewrite IH. lia.
Qed.

Lemma sum_values_add_total (rc : dict string Z) (category : string) (answer : Z) :
  sum (values (add_total rc category answer)) = sum (values rc) + answer.
Proof.
  unfold add_total. destruct (dict_get rc category) as [total|] eqn:E.
  - rewrite sum_values_set, E. lia.
  - rewrite !sum_values_set, E, dict_get_set_same. lia.
Qed.

Lemma all_zero_set {K : Type} `{Key K} (d : dict K Z) (k : K) :
  all_zero d -> all_zero (dict_set d k 0).
Proof.
  intros Hz k0 v0 Hin. apply In_dict_set in Hin as [[_ ->]|Hin];
    [reflexivity | now apply (Hz k0)].
Qed.

Lemma all_zero_add_total (rc : dict string Z) (category : string) :
  all_zero rc -> all_zero (add_total rc category 0).
Proof.
  intros Hz. unfold add_total.
  destruct (dict_get rc category) as [total|] eqn:E.
  - apply dict_get_In in E. rewrite (Hz _ _ E). now apply all_zero_set.
  - now apply all_zero_set, all_zero_set.
Qed.

Lemma dict_get_add_total_same (rc : dict string Z) (category : string) (a : Z) :
  dict_get (add_total rc category a) category
  = Some (match dict_get rc category with Some t => t | None => 0 end + a).
Proof.
  unfold add_total. destruct (dict_get rc category);
    now rewrite dict_get_set_same.
Qed.

Lemma dict_get_add_total_other (rc : dict string Z) (category c : string) (a : Z) :
  c <> category ->
  dict_get (add_total rc category a) c = dict_get rc c.
Proof.
  intros Hne. unfold add_total. destruct (dict_get rc category);
    now rewrite !dict_get_set_other.
Qed.

(** ** The alternate script: every answer is 0 *)

Lemma ask_question_step (mapping : dict Z string) (st : Alt.asked)
  (idx : Z) (question category : string) :
  dict_get mapping idx = Some category ->
  Alt.ask_question mapping st (idx, question)
  = Ok (Alt.mk_asked (dict_set (Alt.asked_q st) idx 0)
          (add_total (Alt.asked_c st) category 0)
          (Alt.printed st
             ++ [(str idx ++ " " ++ question ++ " " ++ category)%string])%list).
Proof.
  intros Hmap. unfold Alt.ask_question.
  rewrite (getitem_Some _ _ _ Hmap). cbn [bind].
  pose proof (total_step (Alt.asked_c st) category 0) as Ht. cbv zeta in Ht.
  unfold dict_mem in *.
  destruct (dict_get (Alt.asked_c st) category) eqn:E; cbn [negb] in *.
  - destruct (getitem (Alt.asked_c st) category); cbn [bind] in *;
      [injection Ht as ->; reflexivity | discriminate].
  - destruct (getitem (dict_set (Alt.asked_c st) category 0) category);
      cbn [bind] in *; [injection Ht as ->; reflexivity | discriminate].
Qed.

Lemma ask_questions_fold (mapping : dict Z string) (questions : list (Z * string)) :
  catalogued mapping questions ->
  forall st : Alt.asked,
    all_zero (Alt.asked_q st) -> all_zero (Alt.asked_c st) ->
    exists st' : Alt.asked,
      foldM (Alt.ask_question mapping) questions st = Ok st' /\
      all_zero (Alt.asked_q st') /\ all_zero (Alt.asked_c st') /\
      (forall idx : Z, In idx (map fst questions) ->
         dict_get (Alt.asked_q st') idx = Some 0) /\
      (forall idx : Z, ~ In idx (map fst questions) ->
         dict_get (Alt.asked_q st') idx = dict_get (Alt.asked_q st) idx) /\
      (forall (idx : Z) (q category : string),
         In (idx, q) questions -> dict_get mapping idx = Some category ->
         dict_get (Alt.asked_c st') category = Some 0).
Proof.
  induction questions as [|[idx question] questions IH]; intros Hcat st Hq Hc.
  - exists st. simpl. repeat split; auto; intros; tauto.
  - assert (Hcat' : catalogued mapping questions).
    { intros i q Hin. apply (Hcat i q). now right. }
    destruct (dict_get mapping idx) as [category|] eqn:Hmap.
    2:{ exfalso. apply (Hcat idx question); [now left | exact Hmap]. }
    cbn [foldM]. rewrite (ask_question_step _ _ _ _ _ Hmap). cbn [bind].
    set (st1 := Alt.mk_asked _ _ _).
    destruct (IH Hcat' st1) as (st' & Hrun & Hq' & Hc' & Hin & Hout & Hcats).
    { now apply all_zero_set. }
    { now apply all_zero_add_total. }
    exists st'. split; [exact Hrun|]. split; [exact Hq'|]. split; [exact Hc'|].
    assert (Hzero : forall i v, dict_get (Alt.asked_q st') i = Some v -> v = 0).
    { intros i v Hget. apply dict_get_In in Hget. now apply (Hq' i). }
    split; [|split].
    + intros i [Hi|Hi]; [|now apply Hin]. simpl in Hi. subst i.
      destruct (in_dec Z.eq_dec idx (map fst questions)) as [Hd|Hd];
        [now apply Hin|].
      rewrite (Hout idx Hd). apply dict_get_set_same.
    + intros i Hni. simpl in Hni.
      rewrite Hout by tauto. unfold st1. cbn [Alt.asked_q].
      apply dict_get_set_other. intros ->. tauto.
    + intros i q c [[= -> ->]|Hi] Hm; [|now apply (Hcats i q c)].
      assert (c = category) by congruence. subst c.
      destruct (dict_get (Alt.asked_c st') category) as [v|] eqn:Hget.
      * apply dict_get_In in Hget. now rewrite (Hc' _ _ Hget).
      * exfalso. revert Hget. clear - Hrun.
        assert (Hkeep : forall (qs : list (Z * string)) (s s' : Alt.asked),
                  foldM (Alt.ask_question mapping) qs s = Ok s' ->
                  dict_get (Alt.asked_c s) category <> None ->
                  dict_get (Alt.asked_c s') category <> None).
        { induction qs as [|[j qj] qs IHq]; intros s s' Hf Hs.
          - simpl in Hf. now injection Hf as <-.
          - cbn [foldM] in Hf.
            destruct (dict_get mapping j) as [cj|] eqn:Hm.
            + rewrite (ask_question_step _ _ _ _ _ Hm) in Hf. cbn [bind] in Hf.
              apply (IHq _ _ Hf). cbn [Alt.asked_c].
              destruct (String.eqb_spec cj category) as [->|Hne].
              * rewrite dict_get_add_total_same. discriminate.
              * rewrite dict_get_add_total_other by congruence. exact Hs.
            + unfold Alt.ask_question, getitem in Hf. rewrite Hm in Hf.
              discriminate. }
        apply (Hkeep _ _ _ Hrun). unfold st1. cbn [Alt.asked_c].
        rewrite dict_get_add_total_same. discriminate.
Qed.

(** C10. In the alternate script [ask_questions] takes no input: for a
    catalog whose question ids all have a category, it returns, the
    per-question dict holds exactly the question ids, each with answer 0,
    and every per-category total is 0 (with a total for the category of
    every question). *)
Theorem ask_questions_all_zero (questions : list (Z * string))
  (scorings : dict string Z) (mapping : dict Z string) (now : datetime) :
  catalogued mapping questions ->
  exists (result_q : dict Z Z) (result_c : dict string Z),
    Alt.ask_questions questions scorings mapping now
      = Ok (result_q, result_c, now) /\
    (forall idx : Z, In idx (map fst questions) ->
       dict_get result_q idx = Some 0) /\
    (forall idx : Z, ~ In idx (map fst questions) ->
       dict_get result_q idx = None) /\
    (forall (idx answer : Z), In (idx, answer) result_q -> answer = 0) /\
    (forall (category : string) (total : Z),
       In (category, total) result_c -> total = 0) /\
    (forall (idx : Z) (q category : string),
       In (idx, q) questions -> dict_get mapping idx = Some category ->
       dict_get result_c category = Some 0).
Proof.
  intros Hcat. unfold Alt.ask_questions.
  destruct (ask_questions_fold mapping questions Hcat (Alt.mk_asked [] [] []))
    as (st & Hrun & Hq & Hc & Hin & Hout & Hcats).
  - intros k v [].
  - intros k v [].
  - exists (Alt.asked_q st), (Alt.asked_c st). rewrite Hrun. cbn [bind].
    repeat split; auto.
Qed.

Lemma ask_questions_all_zero_witness :
  exists (result_q : dict Z Z) (result_c : dict string Z),
    Alt.ask_questions [(0, "Q0"); (1, "Q1")] []
      [(0, "mental"); (1, "technique")] (mk_datetime 2026 11 3 22 47 5 123)
      = Ok (result_q, result_c, mk_datetime 2026 11 3 22 47 5 123) /\
    (forall idx : Z, In idx (map fst [(0, "Q0"); (1, "Q1")]) ->
       dict_get result_q idx = Some 0) /\
    (forall idx : Z, ~ In idx (map fst [(0, "Q0"); (1, "Q1")]) ->
       dict_get result_q idx = None) /\
    (forall (idx answer : Z), In (idx, answer) result_q -> answer = 0) /\
    (forall (category : string) (total : Z),
       In (category, total) result_c -> total = 0) /\
    (forall (idx : Z) (q category : string),
       In (idx, q) [(0, "Q0"); (1, "Q1")] ->
       dict_get [(0, "mental"); (1, "technique")] idx = Some category ->
       dict_get result_c category = Some 0).
Proof.
  apply (ask_questions_all_zero [(0, "Q0"); (1, "Q1")] []
           [(0, "mental"); (1, "technique")]
           (mk_datetime 2026 11 3 22 47 5 123)).
  intros idx q [[= <- <-]|[[= <- <-]|[]]]; discriminate.
Defined.

(** Every catalog [read_questions] returns is catalogued. *)
Lemma read_question_lines_catalogued (ls : list string) :
  forall (i : Z) (questions : list (Z * string)) (mapping : dict Z string)
         (questions' : list (Z * string)) (mapping' : dict Z string),
    catalogued mapping questions ->
    Alt.read_question_lines ls i questions mapping = Ok (questions', mapping') ->
    catalogued mapping' questions'.
Proof.
  induction ls as [|lines rest IH]; intros i questions mapping qs' m' Hcat Hrun.
  - simpl in Hrun. now injection Hrun as <- <-.
  - cbn [Alt.read_question_lines] in Hrun.
    destruct (index (split_on "|" lines) 0) as [field0|]; [|discriminate].
    destruct (index (split_on "|" lines) 1) as [field1|]; [|discriminate].
    cbn [bind] in Hrun. apply (IH _ _ _ _ _) in Hrun; [exact Hrun|].
    intros idx q Hin. apply in_app_or in Hin as [Hin|[[= <- <-]|[]]].
    + destruct (Z.eq_dec idx i) as [->|Hne].
      * rewrite dict_get_set_same. discriminate.
      * rewrite dict_get_set_other by exact Hne. now apply (Hcat idx q).
    + rewrite dict_get_set_same. discriminate.
Qed.

Lemma read_questions_catalogued (infile : string)
  (questions : list (Z * string)) (mapping : dict Z string) :
  Alt.read_questions infile = Ok (questions, mapping) ->
  catalogued mapping questions.
Proof.
  apply read_question_lines_catalogued. intros idx q [].
Qed.

(** ** Splitting at a delimiter *)

Lemma split_on_before_after (sep : ascii) (s : string) :
  split_on sep s
  = before sep s :: match after sep s with
                    | Some r => split_on sep r
                    | None => []
                    end.
Proof.
  induction s as [|c s IH]; [reflexivity|].
  cbn [split_on before after]. destruct (Ascii.eqb c sep).
  - destruct s; reflexivity.
  - now rewrite IH.
Qed.

Lemma index_split_on_0 (sep : ascii) (s : string) :
  index (split_on sep s) 0 = Ok (before sep s).
Proof. now rewrite split_on_before_after. Qed.

Lemma index_split_on_1 (sep : ascii) (s : string) :
  index (split_on sep s) 1
  = match after sep s with
    | Some r => Ok (before sep r)
    | None => Raise IndexError
    end.
Proof.
  rewrite split_on_before_after. destruct (after sep s) as [r|];
    [|reflexivity].
  unfold index. cbn [nth_error]. now rewrite split_on_before_after.
Qed.

(** ** The scoring key loader *)

Lemma read_scoring_line_spec (scorings : dict string Z) (lines : string) :
  match read_scoring_line scorings lines with
  | Ok scorings' =>
      bad_scoring_line lines = false /\
      exists (label : string) (score : Z),
        scoring_entry lines = Some (label, score) /\
        scorings' = dict_set scorings label score
  | Raise e => format_error e = true /\ bad_scoring_line lines = true
  end.
Proof.
  unfold read_scoring_line, bad_scoring_line, non_integer_score,
    lacks_delimiter, scoring_entry.
  rewrite index_split_on_0, index_split_on_1. cbn [bind].
  destruct (int (strip (before "=" lines))) as [score|e] eqn:Hint;
    cbn [bind is_ok negb orb].
  - destruct (after "=" lines) as [rest|]; cbn [bind].
    + split; [reflexivity|]. now exists (strip (before "=" rest)), score.
    + split; reflexivity.
  - unfold int in Hint. destruct (int_literal _); [discriminate|].
    injection Hint as <-. split; reflexivity.
Qed.

Lemma read_scorings_fold (ls : list string) :
  forall scorings : dict string Z,
    match foldM read_scoring_line ls scorings with
    | Ok scorings' =>
        existsb bad_scoring_line ls = false /\
        forall label : string,
          dict_get scorings' label
          = match last_score ls label with
            | Some score => Some score
            | None => dict_get scorings label
            end
    | Raise e => format_error e = true /\ existsb bad_scoring_line ls = true
    end.
Proof.
  induction ls as [|lines rest IH]; intros scorings.
  - simpl. split; reflexivity.
  - cbn [foldM existsb last_score].
    pose proof (read_scoring_line_spec scorings lines) as Hline.
    destruct (read_scoring_line scorings lines) as [s1|e]; cbn [bind].
    + destruct Hline as (Hok & label0 & score0 & Hentry & ->).
      specialize (IH (dict_set scorings label0 score0)).
      destruct (foldM read_scoring_line rest _) as [s2|e].
      * destruct IH as [Hrest Hget]. rewrite Hok, Hrest.
        split; [reflexivity|]. intros label. rewrite Hget, Hentry.
        destruct (last_score rest label); [reflexivity|].
        destruct (String.eqb_spec label label0) as [->|Hne].
        -- apply dict_get_set_same.
        -- now apply dict_get_set_other.
      * destruct IH as [He Hrest]. rewrite Hrest, orb_true_r. now split.
    + destruct Hline as [He Hbad]. rewrite Hbad. now split.
Qed.

(** C8. [read_scorings] fails only with a format error, and it fails
    exactly when some line has a score field that is not an integer or has
    no ['=']; otherwise it returns the dict that maps every trimmed label
    to the integer score of the last line carrying that label. *)
Theorem read_scorings_format_errors (infile : string) :
  (forall e : exn, read_scorings infile = Raise e -> format_error e = true) /\
  ((exists e : exn, read_scorings infile = Raise e) <->
   existsb bad_scoring_line (readlines infile) = true) /\
  ((exists scorings : dict string Z, read_scorings infile = Ok scorings) <->
   existsb bad_scoring_line (readlines infile) = false) /\
  (forall scorings : dict string Z,
     read_scorings infile = Ok scorings ->
     forall label : string,
       dict_get scorings label = last_score (readlines infile) label).
Proof.
  unfold read_scorings.
  pose proof (read_scorings_fold (readlines infile) []) as H.
  destruct (foldM read_scoring_line (readlines infile) []) as [scorings|e].
  - destruct H as [Hok Hget]. repeat split.
    + discriminate.
    + intros [e He]. discriminate.
    + rewrite Hok. discriminate.
    + intros _. exact Hok.
    + intros _. now exists scorings.
    + intros s [= <-] label. rewrite Hget.
      now destruct (last_score (readlines infile) label).
  - destruct H as [He Hbad]. repeat split.
    + now intros e' [= <-].
    + intros _. exact Hbad.
    + intros _. now exists e.
    + intros [s Hs]. discriminate.
    + rewrite Hbad. discriminate.
    + discriminate.
Qed.

(** ** Characters of the things the store writes *)

Ltac by_char c :=
  destruct c as [[] [] [] [] [] [] [] []]; vm_compute;
  intros; first [reflexivity | discriminate | now split].

Lemma is_digit_token_char (c : ascii) :
  is_digit c = true -> token_char c = true.
Proof. by_char c. Qed.

Lemma is_digit_not_space (c : ascii) : is_digit c = true -> is_space c = false.
Proof. by_char c. Qed.

Lemma is_digit_not_underscore (c : ascii) :
  is_digit c = true -> Ascii.eqb c "_" = false.
Proof. by_char c. Qed.

Lemma is_digit_digit (c : ascii) : is_digit c = true -> digit c = true.
Proof. by_char c. Qed.

Lemma is_digit_not_line_end (c : ascii) :
  is_digit c = true -> Ascii.eqb c nl = false /\ Ascii.eqb c cr = false.
Proof. by_char c. Qed.

Lemma token_char_not_space (c : ascii) :
  token_char c = true -> is_space c = false.
Proof. by_char c. Qed.

Lemma token_char_not_eq (c : ascii) :
  token_char c = true -> Ascii.eqb c "=" = false.
Proof. by_char c. Qed.

Lemma digit_char_spec (d : Z) :
  0 <= d <= 9 ->
  is_digit (digit_char d) = true /\ digit_val (digit_char d) = d.
Proof.
  intros Hd.
  assert (H : d = 0 \/ d = 1 \/ d = 2 \/ d = 3 \/ d = 4 \/ d = 5 \/ d = 6
              \/ d = 7 \/ d = 8 \/ d = 9) by lia.
  repeat destruct H as [->|H]; try subst d; split; reflexivity.
Qed.

Lemma mod10_digit (n : Z) : 0 <= n mod 10 <= 9.
Proof. pose proof (Z.mod_pos_bound n 10). lia. Qed.

Lemma all_chars_append (p : ascii -> bool) (a b : string) :
  all_chars p (a ++ b) = all_chars p a && all_chars p b.
Proof.
  induction a as [|c a IH]; [reflexivity|].
  simpl. now rewrite IH, andb_assoc.
Qed.

Lemma all_chars_impl (p q : ascii -> bool) (s : string) :
  (forall c, p c = true -> q c = true) ->
  all_chars p s = true -> all_chars q s = true.
Proof.
  intros Hpq. induction s as [|c s IH]; [reflexivity|].
  simpl. rewrite !andb_true_iff. intros [Hc Hs]. auto.
Qed.

(** ** Integers: [int(str(z)) = z] *)

Lemma int_digits_digit (c : ascii) (r : string) (acc : Z) (prev : bool) :
  is_digit c = true ->
  int_digits (String c r) acc prev
  = int_digits r (acc * 10 + digit_val c) true.
Proof. intros Hc. cbn [int_digits]. now rewrite Hc. Qed.

Lemma str_digits_spec (fuel : nat) :
  forall (n : Z) (acc : string),
    (0 < fuel)%nat -> 0 <= n < 10 ^ Z.of_nat fuel ->
    exists t : string,
      str_digits fuel n acc = t ++ acc /\
      all_chars is_digit t = true /\ t <> "" /\
      forall (a : Z) (p : bool) (u : string),
        int_digits (t ++ u) a p = int_digits u (a * 10 ^ len t + n) true.
Proof.
  induction fuel as [|f IH]; intros n acc Hf Hn; [lia|].
  cbn [str_digits].
  destruct (digit_char_spec (n mod 10) (mod10_digit n)) as [Hd Hv].
  pose proof (Z.div_mod n 10 ltac:(lia)) as Hdm.
  pose proof (mod10_digit n) as Hm.
  destruct (Z.eqb_spec (n / 10) 0) as [Hz|Hnz].
  - exists (String (digit_char (n mod 10)) ""). repeat split.
    + cbn [all_chars]. now rewrite Hd.
    + discriminate.
    + intros a p u. cbn [append]. rewrite int_digits_digit by exact Hd.
      rewrite Hv. change (len (String (digit_char (n mod 10)) "")) with 1.
      f_equal. lia.
  - assert (Hq : 0 <= n / 10) by (apply Z.div_pos; lia).
    rewrite Nat2Z.inj_succ, Z.pow_succ_r in Hn by lia.
    assert (Hlt : n / 10 < 10 ^ Z.of_nat f)
      by (apply Z.div_lt_upper_bound; lia).
    assert (Hfpos : (0 < f)%nat).
    { destruct f; [|lia]. change (10 ^ Z.of_nat 0) with 1 in Hlt. lia. }
    destruct (IH (n / 10) (String (digit_char (n mod 10)) acc) Hfpos)
      as (t & Ht & Hall & Hne & Hint); [lia|].
    exists (t ++ String (digit_char (n mod 10)) ""). repeat split.
    + rewrite Ht, append_assoc. reflexivity.
    + rewrite all_chars_append, Hall. cbn [all_chars]. now rewrite Hd.
    + destruct t; discriminate.
    + intros a p u. rewrite append_assoc. cbn [append].
      rewrite Hint, int_digits_digit by exact Hd. rewrite Hv.
      f_equal. rewrite len_append.
      change (len (String (digit_char (n mod 10)) "")) with 1.
      rewrite Z.pow_add_r by (pose proof (len_nonneg t); lia). lia.
Qed.

Lemma str_nonneg_spec (n : Z) :
  0 <= n ->
  all_chars is_digit (str_nonneg n) = true /\ str_nonneg n <> "" /\
  forall (a : Z) (p : bool),
    int_digits (str_nonneg n) a p = Some (a * 10 ^ len (str_nonneg n) + n).
Proof.
  intros Hn. unfold str_nonneg.
  destruct (str_digits_spec (S (Z.to_nat (Z.log2 n))) n "")
    as (t & Ht & Hall & Hne & Hint); [lia| |].
  - split; [lia|]. rewrite Nat2Z.inj_succ, Z2Nat.id by apply Z.log2_nonneg.
    destruct (Z.eq_dec n 0) as [->|Hnz]; [reflexivity|].
    pose proof (Z.log2_spec n ltac:(lia)) as [_ Hlog].
    apply Z.lt_le_trans with (1 := Hlog).
    apply Z.pow_le_mono_l. pose proof (Z.log2_nonneg n). lia.
  - rewrite Ht, append_nil_r. repeat split; auto.
    intros a p. specialize (Hint a p ""). rewrite append_nil_r in Hint.
    rewrite Hint. reflexivity.
Qed.

Lemma sign_or_digit_token_char (c : ascii) :
  sign_or_digit c = true -> token_char c = true.
Proof. by_char c. Qed.

Lemma sign_or_digit_not_line_end (c : ascii) :
  sign_or_digit c = true -> Ascii.eqb c nl = false /\ Ascii.eqb c cr = false.
Proof. by_char c. Qed.

Lemma str_chars (z : Z) :
  all_chars sign_or_digit (str z) = true /\ str z <> "".
Proof.
  unfold str. destruct (Z.ltb_spec z 0).
  - destruct (str_nonneg_spec (- z) ltac:(lia)) as (Hall & _ & _).
    split; [|discriminate]. cbn [all_chars].
    change (sign_or_digit "-") with true. cbn [andb].
    apply (all_chars_impl is_digit); [|exact Hall].
    intros c Hc. unfold sign_or_digit. now rewrite Hc.
  - destruct (str_nonneg_spec z ltac:(lia)) as (Hall & Hne & _).
    split; [|exact Hne].
    apply (all_chars_impl is_digit); [|exact Hall].
    intros c Hc. unfold sign_or_digit. now rewrite Hc.
Qed.

Lemma int_literal_digit_first (c : ascii) (r : string) :
  is_digit c = true ->
  int_literal (String c r) = int_digits (String c r) 0 false.
Proof. by_char c. Qed.

Lemma rstrip_cons (c : ascii) (r : string) :
  rstrip (String c r)
  = match rstrip r with
    | EmptyString => if is_space c then "" else String c ""
    | r' => String c r'
    end.
Proof. reflexivity. Qed.

Lemma rstrip_ends_clean (s : string) : ends_clean s = true -> rstrip s = s.
Proof.
  induction s as [|c s IH]; [reflexivity|].
  destruct s as [|c' s].
  - simpl. now intros ->%negb_true_iff.
  - intros He. change (ends_clean (String c' s) = true) in He.
    rewrite rstrip_cons, (IH He). reflexivity.
Qed.

Lemma ends_clean_all (s : string) :
  all_chars (fun c => negb (is_space c)) s = true -> ends_clean s = true.
Proof.
  induction s as [|c s IH]; [reflexivity|].
  cbn [all_chars]. rewrite andb_true_iff. intros [Hc Hs].
  destruct s; [exact Hc | now apply IH].
Qed.

Lemma ends_clean_append (a b : string) :
  b <> "" -> ends_clean (a ++ b) = ends_clean b.
Proof.
  intros Hb. induction a as [|c a IH]; [reflexivity|].
  cbn [append]. destruct (a ++ b) eqn:E.
  - destruct a, b; simpl in E; congruence.
  - exact IH.
Qed.

Lemma rstrip_spaces (s t : string) :
  all_chars is_space t = true -> rstrip (s ++ t) = rstrip s.
Proof.
  intros Ht. induction s as [|c s IH].
  - cbn [append]. induction t as [|x t IHt]; [reflexivity|].
    cbn [all_chars] in Ht. apply andb_true_iff in Ht as [Hx Ht].
    rewrite rstrip_cons, (IHt Ht). cbn [rstrip]. now rewrite Hx.
  - cbn [append]. now rewrite !rstrip_cons, IH.
Qed.

Lemma lstrip_clean_start (c : ascii) (s : string) :
  is_space c = false -> lstrip (String c s) = String c s.
Proof. intros Hc. cbn [lstrip]. now rewrite Hc. Qed.

Lemma strip_clean (s : string) :
  all_chars (fun c => negb (is_space c)) s = true -> strip s = s.
Proof.
  intros Hs. unfold strip.
  assert (Hl : lstrip s = s).
  { destruct s as [|c s]; [reflexivity|]. cbn [all_chars] in Hs.
    apply andb_true_iff in Hs as [Hc _]. apply lstrip_clean_start.
    now apply negb_true_iff. }
  rewrite Hl. now apply rstrip_ends_clean, ends_clean_all.
Qed.

Lemma token_chars_clean (s : string) :
  all_chars token_char s = true ->
  all_chars (fun c => negb (is_space c)) s = true.
Proof.
  apply all_chars_impl. intros c Hc.
  now rewrite (token_char_not_space c Hc).
Qed.

(** [int(str(z)) = z]. *)
Lemma int_str (z : Z) : int (str z) = Ok z.
Proof.
  unfold int.
  destruct (str_chars z) as [Hall Hne].
  rewrite strip_clean.
  2:{ apply token_chars_clean.
      apply (all_chars_impl sign_or_digit); [|exact Hall].
      apply sign_or_digit_token_char. }
  unfold str in *. destruct (Z.ltb_spec z 0).
  - destruct (str_nonneg_spec (- z) ltac:(lia)) as (_ & _ & Hint).
    cbn [int_literal]. rewrite Hint. cbn [option_map]. f_equal; lia.
  - destruct (str_nonneg_spec z ltac:(lia)) as (Hdig & _ & Hint).
    destruct (str_nonneg z) as [|c r] eqn:E; [congruence|].
    cbn [all_chars] in Hdig. apply andb_true_iff in Hdig as [Hc _].
    rewrite (int_literal_digit_first c r Hc), Hint. f_equal; lia.
Qed.

Lemma before_clean (sep : ascii) (s t : string) :
  all_chars (fun c => negb (Ascii.eqb c sep)) s = true ->
  before sep (s ++ String sep t) = s /\
  after sep (s ++ String sep t) = Some t.
Proof.
  intros Hs. induction s as [|c s IH].
  - cbn [append before after]. now rewrite Ascii.eqb_refl.
  - cbn [all_chars] in Hs. apply andb_true_iff in Hs as [Hc Hs].
    apply negb_true_iff in Hc. destruct (IH Hs) as [IHb IHa].
    cbn [append before after]. rewrite Hc, IHb, IHa. now split.
Qed.

Lemma before_whole (sep : ascii) (s : string) :
  all_chars (fun c => negb (Ascii.eqb c sep)) s = true ->
  before sep s = s /\ after sep s = None.
Proof.
  intros Hs. induction s as [|c s IH]; [now split|].
  cbn [all_chars] in Hs. apply andb_true_iff in Hs as [Hc Hs].
  apply negb_true_iff in Hc. destruct (IH Hs) as [IHb IHa].
  cbn [before after]. rewrite Hc, IHb, IHa. now split.
Qed.

Lemma token_chars_no_eq (s : string) :
  all_chars token_char s = true ->
  all_chars (fun c => negb (Ascii.eqb c "=")) s = true.
Proof.
  apply all_chars_impl. intros c Hc.
  now rewrite (token_char_not_eq c Hc).
Qed.

(** ** Timestamps: [strptime(strftime(t)) = t] *)

Lemma zfill_digits (w : nat) :
  forall n : Z, all_chars is_digit (zfill w n) = true.
Proof.
  induction w as [|w IH]; intros n; [reflexivity|].
  cbn [zfill]. rewrite all_chars_append, IH. cbn [all_chars].
  now rewrite (proj1 (digit_char_spec _ (mod10_digit n))).
Qed.

Lemma length_append (a b : string) :
  String.length (a ++ b) = (String.length a + String.length b)%nat.
Proof. induction a as [|c a IH]; simpl; [reflexivity | now rewrite IH]. Qed.

Lemma length_zfill (w : nat) : forall n : Z, String.length (zfill w n) = w.
Proof.
  induction w as [|w IH]; intros n; [reflexivity|].
  cbn [zfill]. rewrite length_append, IH. simpl. lia.
Qed.

Lemma int_digits_zfill (w : nat) :
  forall (n a : Z) (p : bool) (u : string),
    0 <= n < 10 ^ Z.of_nat w ->
    int_digits (zfill w n ++ u) a p
    = int_digits u (a * 10 ^ Z.of_nat w + n)
        (match w with O => p | S _ => true end).
Proof.
  induction w as [|w IH]; intros n a p u Hn.
  - cbn [zfill append]. change (10 ^ Z.of_nat 0) with 1 in *.
    f_equal. lia.
  - cbn [zfill]. rewrite append_assoc. cbn [append].
    rewrite Nat2Z.inj_succ, Z.pow_succ_r in * by lia.
    pose proof (Z.div_mod n 10 ltac:(lia)) as Hdm.
    pose proof (mod10_digit n) as Hm.
    destruct (digit_char_spec (n mod 10) Hm) as [Hd Hv].
    rewrite IH.
    2:{ split; [apply Z.div_pos; lia | apply Z.div_lt_upper_bound; lia]. }
    rewrite int_digits_digit by exact Hd. rewrite Hv. f_equal. lia.
Qed.

Lemma int_zfill (w : nat) (n : Z) :
  (0 < w)%nat -> 0 <= n < 10 ^ Z.of_nat w -> int (zfill w n) = Ok n.
Proof.
  intros Hw Hn. unfold int.
  pose proof (zfill_digits w n) as Hdig.
  rewrite strip_clean.
  2:{ apply (all_chars_impl is_digit); [|exact Hdig].
      intros c Hc. now rewrite (is_digit_not_space c Hc). }
  pose proof (int_digits_zfill w n 0 false "" Hn) as Hint.
  rewrite append_nil_r in Hint.
  destruct (zfill w n) as [|c r] eqn:E.
  - pose proof (length_zfill w n) as Hl. rewrite E in Hl. simpl in Hl. lia.
  - cbn [all_chars] in Hdig. apply andb_true_iff in Hdig as [Hc _].
    rewrite (int_literal_digit_first c r Hc), Hint.
    destruct w; [lia|]. cbn [int_digits]. f_equal; lia.
Qed.

Lemma match_atoms_digits (t s : string) :
  all_chars is_digit t = true ->
  match_atoms (repeat digit (String.length t)) (t ++ s) = Some (t, s).
Proof.
  induction t as [|c t IH]; [reflexivity|].
  cbn [all_chars]. rewrite andb_true_iff. intros [Hc Ht].
  cbn [String.length repeat append match_atoms].
  now rewrite (is_digit_digit c Hc), (IH Ht).
Qed.

Lemma str_four_digits (n : Z) : 1000 <= n <= 9999 -> str n = zfill 4 n.
Proof.
  intros Hn.
  assert (H : forallb (fun k => String.eqb (str (1000 + Z.of_nat k))
                                  (zfill 4 (1000 + Z.of_nat k)))
                (seq 0 (Z.to_nat 9000)) = true) by (vm_compute; reflexivity).
  rewrite forallb_forall in H.
  specialize (H (Z.to_nat (n - 1000))).
  replace (1000 + Z.of_nat (Z.to_nat (n - 1000))) with n in H by lia.
  apply String.eqb_eq, H, in_seq. lia.
Qed.

Lemma hits_year (n : Z) : hits DY (zfill 4 n).
Proof.
  intros X k s x Hk.
  pose proof (match_atoms_digits (zfill 4 n) s (zfill_digits 4 n)) as Hm.
  rewrite length_zfill in Hm.
  change (alternatives DY) with [repeat digit 4].
  cbn [first_alt]. now rewrite Hm, Hk.
Qed.

Lemma hits_fraction (n : Z) : hits Df (zfill 6 n).
Proof.
  intros X k s x Hk.
  pose proof (match_atoms_digits (zfill 6 n) s (zfill_digits 6 n)) as Hm.
  rewrite length_zfill in Hm.
  change (alternatives Df)
    with (repeat digit 6 :: [repeat digit 5; repeat digit 4; repeat digit 3;
                             repeat digit 2; repeat digit 1]).
  cbn [first_alt]. now rewrite Hm, Hk.
Qed.

Tactic Notation "two_digit_cases" constr(n) integer(bound) :=
  let m := fresh "m" in
  let Hm := fresh "Hm" in
  remember (Z.to_nat n) as m eqn:Hm;
  assert (n = Z.of_nat m) by lia; subst n; clear Hm;
  do bound (destruct m as [|m];
            [ first [ exfalso; lia
                    | match goal with
                      | Hk : _ = Some _ |- _ =>
                          vm_compute in Hk |- *; rewrite Hk; reflexivity
                      end ]
            | ]);
  exfalso; lia.

Lemma hits_day (n : Z) : 1 <= n <= 31 -> hits Dd (zfill 2 n).
Proof. intros Hn X k s x Hk. two_digit_cases n 32. Qed.

Lemma hits_month (n : Z) : 1 <= n <= 12 -> hits Dm (zfill 2 n).
Proof. intros Hn X k s x Hk. two_digit_cases n 13. Qed.

Lemma hits_hour (n : Z) : 0 <= n <= 23 -> hits DH (zfill 2 n).
Proof. intros Hn X k s x Hk. two_digit_cases n 24. Qed.

Lemma hits_minute (n : Z) : 0 <= n <= 59 -> hits DM (zfill 2 n).
Proof. intros Hn X k s x Hk. two_digit_cases n 60. Qed.

Lemma hits_second (n : Z) : 0 <= n <= 59 -> hits DS (zfill 2 n).
Proof. intros Hn X k s x Hk. two_digit_cases n 60. Qed.

Lemma strftime_DATE_FMT (t : datetime) :
  strftime t _DATE_FMT
  = zfill 2 (day t) ++ String "."
      (zfill 2 (month t) ++ String "."
         (str (year t) ++ String "-"
            (zfill 2 (hour t) ++ String ":"
               (zfill 2 (minute t) ++ String ":"
                  (zfill 2 (second t) ++ String ":"
                     (zfill 6 (microsecond t) ++ "")))))).
Proof. reflexivity. Qed.

Lemma match_items_dir (d : directive) (rest : list fmt_item)
  (txt s : string) (gs : list (directive * string)) (r : string) :
  hits d txt ->
  match_items rest s = Some (gs, r) ->
  match_items (Dir d :: rest) (txt ++ s) = Some ((d, txt) :: gs, r).
Proof.
  intros Hhit Hrest. cbn [match_items]. apply Hhit. now rewrite Hrest.
Qed.

Lemma match_items_chr (c : ascii) (rest : list fmt_item) (s : string) :
  match_items (Chr c :: rest) (String c s) = match_items rest s.
Proof. cbn [match_items]. now rewrite Ascii.eqb_refl. Qed.

Lemma days_in_month_le (y m : Z) : days_in_month y m <= 31.
Proof.
  unfold days_in_month.
  destruct (m =? 2); [destruct (is_leap y); lia|].
  destruct (_ || _)%bool; lia.
Qed.

Lemma valid_datetime_ranges (t : datetime) :
  valid_datetime t = true ->
  1 <= year t <= 9999 /\ 1 <= month t <= 12 /\ 1 <= day t <= 31 /\
  0 <= hour t <= 23 /\ 0 <= minute t <= 59 /\ 0 <= second t <= 59 /\
  0 <= microsecond t <= 999999.
Proof.
  unfold valid_datetime, between. rewrite !andb_true_iff, !Z.leb_le.
  pose proof (days_in_month_le (year t) (month t)). lia.
Qed.

(** Parsing the text [strftime] writes for a valid timestamp with a year
    of four digits gives the timestamp back. *)
Lemma strptime_strftime (t : datetime) :
  valid_datetime t = true ->
  1000 <= year t ->
  strptime (strftime t _DATE_FMT) _DATE_FMT = Ok t.
Proof.
  intros Hvalid Hyear.
  destruct (valid_datetime_ranges t Hvalid)
    as (Hy & Hmo & Hd & Hh & Hmi & Hs & Hus).
  unfold strptime. rewrite strftime_DATE_FMT.
  rewrite (str_four_digits (year t)) by lia.
  change (fmt_items _DATE_FMT)
    with [Dir Dd; Chr "."; Dir Dm; Chr "."; Dir DY; Chr "-"; Dir DH;
          Chr ":"; Dir DM; Chr ":"; Dir DS; Chr ":"; Dir Df].
  rewrite (match_items_dir Dd _ _ _
             [(Dm, zfill 2 (month t)); (DY, zfill 4 (year t));
              (DH, zfill 2 (hour t)); (DM, zfill 2 (minute t));
              (DS, zfill 2 (second t)); (Df, zfill 6 (microsecond t))] "").
  - cbn [foldM set_field].
    rewrite !(int_zfill 2), (int_zfill 4) by (try lia; simpl; lia).
    cbn [bind year month day hour minute second microsecond].
    rewrite length_zfill. cbn [Nat.sub repeat_char].
    rewrite append_nil_r, (int_zfill 6) by (try lia; simpl; lia).
    cbn [bind year month day hour minute second microsecond].
    unfold make_datetime. destruct t. cbn in *. now rewrite Hvalid.
  - now apply hits_day.
  - rewrite match_items_chr.
    apply match_items_dir; [now apply hits_month|].
    rewrite match_items_chr.
    apply match_items_dir; [now apply hits_year|].
    rewrite match_items_chr.
    apply match_items_dir; [now apply hits_hour|].
    rewrite match_items_chr.
    apply match_items_dir; [now apply hits_minute|].
    rewrite match_items_chr.
    apply match_items_dir; [now apply hits_second|].
    rewrite match_items_chr.
    apply match_items_dir; [now apply hits_fraction|].
    reflexivity.
Qed.

(** ** Sorting *)

Lemma insert_perm {A : Type} (leb : A -> A -> bool) (x : A) (l : list A) :
  Permutation (insert leb x l) (x :: l).
Proof.
  induction l as [|y l IH]; simpl; [reflexivity|].
  destruct (leb x y); [reflexivity|].
  rewrite IH. apply perm_swap.
Qed.

Lemma sorted_perm {A : Type} (leb : A -> A -> bool) (l : list A) :
  Permutation (sorted leb l) l.
Proof.
  induction l as [|x l IH]; simpl; [reflexivity|].
  now rewrite insert_perm, IH.
Qed.

Lemma insert_ascending (x : Z) (l : list Z) :
  StronglySorted Z.le l -> StronglySorted Z.le (insert Z.leb x l).
Proof.
  induction 1 as [|y l Hs IH Hy]; simpl; [repeat constructor|].
  destruct (Z.leb_spec x y).
  - constructor; [now constructor|].
    constructor; [assumption|]. eapply Forall_impl; [|exact Hy].
    intros; lia.
  - constructor; [exact IH|].
    apply Forall_forall. intros z Hz.
    apply (Permutation_in _ (insert_perm Z.leb x l)) in Hz.
    destruct Hz as [<-|Hz]; [lia|].
    rewrite Forall_forall in Hy. now apply Hy.
Qed.

Lemma sorted_ascending (l : list Z) : StronglySorted Z.le (sorted Z.leb l).
Proof.
  induction l as [|x l IH]; simpl; [constructor|].
  now apply insert_ascending.
Qed.

Lemma ascending_strict (l : list Z) :
  NoDup l -> StronglySorted Z.le l -> StronglySorted Z.lt l.
Proof.
  induction 2 as [|y l Hs IH Hy]; [constructor|].
  inversion H as [|? ? Hnotin Hnd]; subst.
  constructor; [now apply IH|].
  rewrite Forall_forall in *. intros z Hz. specialize (Hy z Hz).
  assert (z <> y) by (intros ->; contradiction). lia.
Qed.

Lemma sorted_keys_strict (l : list Z) :
  NoDup l -> StronglySorted Z.lt (sorted Z.leb l).
Proof.
  intros Hnd. apply ascending_strict; [|apply sorted_ascending].
  apply (Permutation_NoDup (l := l)); [|exact Hnd].
  symmetry. apply sorted_perm.
Qed.

(** ** Lines and words *)

Lemma word_char_line_char (c : ascii) : word_char c = true -> line_char c = true.
Proof. by_char c. Qed.

Lemma token_char_word_char (c : ascii) : token_char c = true -> word_char c = true.
Proof. by_char c. Qed.

Lemma readlines_cons (c : ascii) (r : string) :
  readlines (String c r)
  = if Ascii.eqb c nl then String nl "" :: readlines r
    else if Ascii.eqb c cr then
      match r with
      | String c' r' =>
          if Ascii.eqb c' nl then String nl "" :: readlines r'
          else String nl "" :: readlines r
      | EmptyString => [String nl ""]
      end
    else match readlines r with
         | l :: ls => String c l :: ls
         | [] => [String c ""]
         end.
Proof. reflexivity. Qed.

Lemma readlines_nonempty (s : string) : s <> "" -> readlines s <> [].
Proof.
  destruct s as [|c r]; [congruence|]. intros _. rewrite readlines_cons.
  destruct (Ascii.eqb c nl); [discriminate|].
  destruct (Ascii.eqb c cr).
  - destruct r as [|c' r']; [discriminate|].
    destruct (Ascii.eqb c' nl); discriminate.
  - destruct (readlines r); discriminate.
Qed.

Lemma complete_tail (c : ascii) (r : string) :
  complete (String c r) = true -> complete r = true.
Proof. destruct r; [reflexivity | auto]. Qed.

Lemma readlines_app_bounded (n : nat) :
  forall a b : string,
    (String.length a <= n)%nat -> complete a = true ->
    readlines (a ++ b) = (readlines a ++ readlines b)%list.
Proof.
  induction n as [|n IH]; intros a b Hlen Ha.
  - destruct a; [reflexivity | simpl in Hlen; lia].
  - destruct a as [|c r]; [reflexivity|].
    cbn [String.length] in Hlen. pose proof (complete_tail c r Ha) as Hr.
    cbn [append]. rewrite !readlines_cons.
    destruct (Ascii.eqb c nl) eqn:Enl.
    + rewrite (IH r b) by (auto; lia). reflexivity.
    + destruct r as [|c' r'].
      { simpl in Ha. congruence. }
      pose proof (complete_tail c' r' Hr) as Hr'.
      cbn [String.length] in Hlen.
      destruct (Ascii.eqb c cr).
      * cbn [append]. destruct (Ascii.eqb c' nl).
        -- rewrite (IH r' b) by (auto; lia). reflexivity.
        -- change (String c' (r' ++ b)) with (String c' r' ++ b).
           rewrite (IH (String c' r') b) by (auto; simpl; lia). reflexivity.
      * rewrite (IH (String c' r') b) by (auto; simpl; lia).
        pose proof (readlines_nonempty (String c' r') ltac:(discriminate)).
        destruct (readlines (String c' r')); [congruence | reflexivity].
Qed.

Lemma readlines_app (a b : string) :
  complete a = true -> readlines (a ++ b) = (readlines a ++ readlines b)%list.
Proof. now apply (readlines_app_bounded (String.length a)). Qed.

Lemma readlines_one_line (body : string) :
  all_chars line_char body = true ->
  readlines (body ++ String nl "") = [body ++ String nl ""].
Proof.
  induction body as [|c body IH]; [reflexivity|].
  cbn [all_chars]. rewrite andb_true_iff. intros [Hc Hb].
  unfold line_char in Hc. apply andb_true_iff in Hc as [H1 H2].
  apply negb_true_iff in H1, H2.
  cbn [append]. rewrite readlines_cons, H1, H2, (IH Hb). reflexivity.
Qed.

Lemma split_ws_cons (c : ascii) (r : string) :
  split_ws (String c r)
  = if is_space c then split_ws r
    else match r with
         | EmptyString => [String c ""]
         | String c' _ =>
             if is_space c' then String c "" :: split_ws r
             else match split_ws r with
                  | t :: ts => String c t :: ts
                  | [] => [String c ""]
                  end
         end.
Proof. reflexivity. Qed.

(** A non-empty word in front of a space, or at the end, is the first
    item of the split. *)
Lemma split_ws_word (w : string) :
  forall s : string,
    w <> "" -> all_chars word_char w = true ->
    match s with EmptyString => True | String c _ => is_space c = true end ->
    split_ws (w ++ s) = w :: split_ws s.
Proof.
  induction w as [|c w IH]; intros s Hne Hw Hs; [congruence|].
  cbn [all_chars] in Hw. apply andb_true_iff in Hw as [Hc Hw].
  unfold word_char in Hc. apply negb_true_iff in Hc.
  cbn [append]. rewrite split_ws_cons, Hc.
  destruct w as [|c' w].
  - cbn [append]. destruct s as [|c2 s]; [reflexivity|]. now rewrite Hs.
  - assert (Hc' : is_space c' = false).
    { cbn [all_chars] in Hw. apply andb_true_iff in Hw as [Hc' _].
      now apply negb_true_iff. }
    cbn [append]. rewrite Hc'.
    change (String c' (w ++ s)) with (String c' w ++ s).
    rewrite (IH s) by (auto; discriminate). reflexivity.
Qed.

Lemma split_ws_join (ws : list string) :
  Forall word ws -> split_ws (join " " ws) = ws.
Proof.
  induction 1 as [|w ws [Hne Hw] Hws IH]; [reflexivity|].
  destruct ws as [|w' ws].
  - cbn [join]. rewrite <- (append_nil_r w) at 1.
    now rewrite split_ws_word.
  - change (join " " (w :: w' :: ws))
      with (w ++ String " " (join " " (w' :: ws))).
    rewrite split_ws_word by (auto; reflexivity).
    rewrite split_ws_cons. change (is_space " ") with true. cbv iota.
    now rewrite IH.
Qed.

Lemma join_nonempty (sep : string) (ws : list string) :
  ws <> [] -> Forall word ws -> join sep ws <> "".
Proof.
  intros Hne Hws. destruct Hws as [|w ws [Hw _] _]; [congruence|].
  destruct ws; cbn [join]; destruct w; try congruence; discriminate.
Qed.

Lemma word_ends_clean (w : string) : word w -> ends_clean w = true.
Proof. intros [_ Hw]. now apply ends_clean_all. Qed.

Lemma join_ends_clean (ws : list string) :
  Forall word ws -> ends_clean (join " " ws) = true.
Proof.
  induction 1 as [|w ws Hw Hws IH]; [reflexivity|].
  destruct ws as [|w' ws]; [now apply word_ends_clean|].
  change (join " " (w :: w' :: ws))
    with (w ++ String " " (join " " (w' :: ws))).
  rewrite ends_clean_append by discriminate.
  pose proof (join_nonempty " " (w' :: ws) ltac:(discriminate) Hws) as Hne.
  destruct (join " " (w' :: ws)) eqn:E; [congruence | exact IH].
Qed.

Lemma join_line_chars (ws : list string) :
  Forall word ws -> all_chars line_char (join " " ws) = true.
Proof.
  induction 1 as [|w ws [_ Hw] Hws IH]; [reflexivity|].
  assert (Hl : all_chars line_char w = true)
    by (apply (all_chars_impl word_char); auto using word_char_line_char).
  destruct ws as [|w' ws]; [exact Hl|].
  change (join " " (w :: w' :: ws))
    with (w ++ String " " (join " " (w' :: ws))).
  rewrite all_chars_append, Hl. cbn [all_chars]. now rewrite IH.
Qed.

Lemma join_snoc (sep : string) (ws : list string) (x : string) :
  ws <> [] -> join sep (ws ++ [x]) = join sep ws ++ sep ++ x.
Proof.
  induction ws as [|w ws IH]; [congruence|]. intros _.
  destruct ws as [|w' ws]; [reflexivity|].
  change (join sep ((w :: w' :: ws) ++ [x]))
    with (w ++ sep ++ join sep ((w' :: ws) ++ [x])).
  rewrite IH by discriminate.
  change (join sep (w :: w' :: ws)) with (w ++ sep ++ join sep (w' :: ws)).
  now rewrite !append_assoc.
Qed.

(** What the reader makes of a written line: its words. *)
Lemma words_of_line (ws : list string) :
  ws <> [] -> Forall word ws ->
  split_ws (strip (join " " (ws ++ [String nl ""]))) = ws.
Proof.
  intros Hne Hws. rewrite join_snoc by exact Hne.
  unfold strip.
  pose proof (join_nonempty " " ws Hne Hws) as Hj.
  assert (Hl : lstrip (join " " ws ++ " " ++ String nl "")
               = join " " ws ++ " " ++ String nl "").
  { destruct Hws as [|w ws [Hw Hall] _]; [congruence|].
    destruct w as [|c w]; [congruence|].
    cbn [all_chars] in Hall. apply andb_true_iff in Hall as [Hc _].
    unfold word_char in Hc. apply negb_true_iff in Hc.
    destruct ws; cbn [join append]; now rewrite lstrip_clean_start. }
  rewrite Hl, rstrip_spaces by reflexivity.
  rewrite rstrip_ends_clean by now apply join_ends_clean.
  now apply split_ws_join.
Qed.

(** ** Tokens *)

Lemma read_token_unfold (mapping : dict Z string) (st : session) (tok : string) :
  read_token mapping st tok
  = if String.eqb (before "=" tok) "time" then
      match after "=" tok with
      | None => Raise IndexError
      | Some r =>
          t <- strptime (before "=" r) _DATE_FMT ;;
          Ok (mk_session (Some t) (result_q st) (result_c st))
      end
    else
      idx <- int (before "=" tok) ;;
      match after "=" tok with
      | None => Raise IndexError
      | Some r =>
          answer <- int (before "=" r) ;;
          category <- getitem mapping idx ;;
          Ok (mk_session (time st) (dict_set (result_q st) idx answer)
                (add_total (result_c st) category answer))
      end.
Proof.
  unfold read_token. rewrite index_split_on_0, index_split_on_1. cbn [bind].
  destruct (String.eqb (before "=" tok) "time").
  - destruct (after "=" tok); reflexivity.
  - destruct (int (before "=" tok)) as [idx|]; [|reflexivity]. cbn [bind].
    destruct (after "=" tok) as [r|]; [|reflexivity]. cbn [bind].
    destruct (int (before "=" r)) as [answer|]; [|reflexivity]. cbn [bind].
    destruct (getitem mapping idx) as [category|]; [|reflexivity].
    cbn [bind].
    apply (total_step_in (result_c st) category answer
             (mk_session (time st) (dict_set (result_q st) idx answer))).
Qed.

Lemma separator_token_chars :
  token_char "." = true /\ token_char "-" = true /\ token_char ":" = true.
Proof. repeat split; reflexivity. Qed.

Lemma zfill_token_chars (w : nat) (n : Z) :
  all_chars token_char (zfill w n) = true.
Proof.
  apply (all_chars_impl is_digit); [apply is_digit_token_char|].
  apply zfill_digits.
Qed.

Lemma str_token_chars (z : Z) : all_chars token_char (str z) = true.
Proof.
  apply (all_chars_impl sign_or_digit); [apply sign_or_digit_token_char|].
  apply str_chars.
Qed.

Lemma strftime_token_chars (t : datetime) :
  all_chars token_char (strftime t _DATE_FMT) = true.
Proof.
  rewrite strftime_DATE_FMT.
  repeat (rewrite all_chars_append;
          first [rewrite zfill_token_chars | rewrite str_token_chars];
          cbn [all_chars andb];
          try change (token_char ".") with true;
          try change (token_char "-") with true;
          try change (token_char ":") with true; cbn [andb]).
  reflexivity.
Qed.

Lemma str_not_time (z : Z) : String.eqb (str z) "time" = false.
Proof.
  destruct (str_chars z) as [Hall Hne].
  destruct (str z) as [|c r]; [congruence|].
  cbn [all_chars] in Hall. apply andb_true_iff in Hall as [Hc _].
  cbn [String.eqb].
  assert (Ht : Ascii.eqb c "t" = false) by (revert Hc; by_char c).
  now rewrite Ht.
Qed.

Lemma word_chars_from_token_chars (s : string) :
  all_chars token_char s = true -> all_chars word_char s = true.
Proof. apply all_chars_impl, token_char_word_char. Qed.

Lemma time_token_word (t : datetime) : word (time_token t).
Proof.
  split; [discriminate|]. unfold time_token. cbn [append all_chars].
  apply word_chars_from_token_chars, strftime_token_chars.
Qed.

Lemma answer_token_word (key answer : Z) : word (answer_token key answer).
Proof.
  unfold answer_token. split.
  - destruct (str_chars key) as [_ Hne]. destruct (str key); [congruence|].
    discriminate.
  - rewrite all_chars_append, (word_chars_from_token_chars _ (str_token_chars key)).
    cbn [append all_chars andb]. change (word_char "=") with true.
    apply word_chars_from_token_chars, str_token_chars.
Qed.

Lemma line_tokens_words (result_q : dict Z Z) (t : datetime) :
  Forall word (line_tokens result_q t).
Proof.
  constructor; [apply time_token_word|].
  apply Forall_forall. intros tok Hin. apply in_map_iff in Hin as (k & <- & _).
  apply answer_token_word.
Qed.

Lemma read_token_time (mapping : dict Z string) (st : session) (t : datetime) :
  valid_datetime t = true ->
  1000 <= year t ->
  read_token mapping st (time_token t)
  = Ok (mk_session (Some t) (result_q st) (result_c st)).
Proof.
  intros Hvalid Hyear. rewrite read_token_unfold. unfold time_token.
  cbn [append before after Ascii.eqb Bool.eqb String.eqb].
  destruct (before_whole "=" (strftime t _DATE_FMT)
              (token_chars_no_eq _ (strftime_token_chars t))) as [Hb _].
  now rewrite Hb, strptime_strftime.
Qed.

Lemma read_token_answer (mapping : dict Z string) (st : session)
  (key answer : Z) (category : string) :
  dict_get mapping key = Some category ->
  read_token mapping st (answer_token key answer)
  = Ok (mk_session (time st) (dict_set (result_q st) key answer)
          (add_total (result_c st) category answer)).
Proof.
  intros Hmap. rewrite read_token_unfold. unfold answer_token.
  destruct (before_clean "=" (str key) (str answer)
              (token_chars_no_eq _ (str_token_chars key))) as [Hb Ha].
  destruct (before_whole "=" (str answer)
              (token_chars_no_eq _ (str_token_chars answer))) as [Hb' _].
  cbn [append]. rewrite Hb, Ha, Hb', str_not_time, !int_str. cbn [bind].
  now rewrite (getitem_Some _ _ _ Hmap).
Qed.

(** ** The line [store_results] writes *)

Lemma getitem_lookup (result_q : dict Z Z) (key : Z) :
  In key (keys result_q) -> getitem result_q key = Ok (lookup result_q key).
Proof.
  intros Hin. unfold getitem, lookup.
  destruct (dict_get result_q key) eqn:E; [reflexivity|].
  apply dict_get_None in E. contradiction.
Qed.

Lemma result_line_tokens (result_q : dict Z Z) (t : datetime) :
  result_line result_q t
  = Ok (join " " (line_tokens result_q t ++ [String nl ""])).
Proof.
  unfold result_line.
  rewrite (mapM_ok _ (fun key => answer_token key (lookup result_q key))).
  - reflexivity.
  - intros key Hin.
    apply (Permutation_in _ (sorted_perm Z.leb (keys result_q))) in Hin.
    now rewrite (getitem_lookup _ _ Hin).
Qed.

Lemma written_line (result_q : dict Z Z) (t : datetime) :
  let toks := line_tokens result_q t in
  let line := join " " toks ++ " " ++ String nl "" in
  result_line result_q t = Ok line /\
  readlines line = [line] /\
  split_ws (strip line) = toks.
Proof.
  cbv zeta. pose proof (line_tokens_words result_q t) as Hws.
  assert (Hne : line_tokens result_q t <> []) by discriminate.
  rewrite result_line_tokens, join_snoc by exact Hne.
  split; [reflexivity|]. split.
  - rewrite <- append_assoc. apply readlines_one_line.
    rewrite all_chars_append, join_line_chars by exact Hws. reflexivity.
  - rewrite <- (join_snoc " " _ (String nl "") Hne).
    now apply words_of_line.
Qed.

(** C2. For a session (a dict, so with distinct keys) [store_results]
    appends the text [' '.join(tokens + ['\n'])], where the tokens are
    [time=<strftime(time)>] followed by one [<id>=<answer>] per question
    in strictly ascending id order. The text is one line, it ends with the
    newline (which the join puts behind a space), and splitting it at white
    space gives back exactly these tokens. *)
Theorem store_results_one_line (outfile : string) (result_q : dict Z Z)
  (time : datetime) :
  NoDup (keys result_q) ->
  exists ks : list Z,
    Permutation ks (keys result_q) /\
    StronglySorted Z.lt ks /\
    (forall key : Z, In key ks ->
       dict_get result_q key = Some (lookup result_q key)) /\
    let toks :=
      ("time=" ++ strftime time _DATE_FMT)
      :: map (fun key => str key ++ "=" ++ str (lookup result_q key)) ks in
    let line := join " " toks ++ " " ++ String nl "" in
    store_results outfile result_q time = Ok (outfile ++ line) /\
    readlines line = [line] /\
    split_ws (strip line) = toks.
Proof.
  intros Hnd. exists (sorted Z.leb (keys result_q)).
  split; [apply sorted_perm|]. split; [now apply sorted_keys_strict|].
  split.
  - intros key Hin.
    apply (Permutation_in _ (sorted_perm Z.leb (keys result_q))) in Hin.
    unfold lookup. destruct (dict_get result_q key) eqn:E; [reflexivity|].
    apply dict_get_None in E. contradiction.
  - destruct (written_line result_q time) as (Hline & Hone & Hsplit).
    cbv zeta. unfold store_results. rewrite Hline. cbn [bind].
    split; [reflexivity|]. split; [exact Hone | exact Hsplit].
Qed.

Lemma store_results_one_line_witness :
  exists ks : list Z,
    Permutation ks (keys [(3, 1); (1, 5); (-2, 0)]) /\
    StronglySorted Z.lt ks /\
    (forall key : Z, In key ks ->
       dict_get [(3, 1); (1, 5); (-2, 0)] key
       = Some (lookup [(3, 1); (1, 5); (-2, 0)] key)) /\
    let toks :=
      ("time=" ++ strftime (mk_datetime 2026 11 3 22 47 5 123) _DATE_FMT)
      :: map (fun key => str key ++ "="
                         ++ str (lookup [(3, 1); (1, 5); (-2, 0)] key)) ks in
    let line := join " " toks ++ " " ++ String nl "" in
    store_results "" [(3, 1); (1, 5); (-2, 0)]
      (mk_datetime 2026 11 3 22 47 5 123) = Ok ("" ++ line) /\
    readlines line = [line] /\
    split_ws (strip line) = toks.
Proof.
  apply (store_results_one_line "" [(3, 1); (1, 5); (-2, 0)]
           (mk_datetime 2026 11 3 22 47 5 123)).
  repeat constructor; simpl; intuition discriminate.
Defined.

(** ** Reading back what was written *)

Lemma fold_set_fresh (items : list (Z * Z)) :
  forall d : dict Z Z,
    NoDup (keys items) ->
    (forall key : Z, In key (keys items) -> dict_get d key = None) ->
    fold_left set_item items d = (d ++ items)%list.
Proof.
  induction items as [|[k v] items IH]; intros d Hnd Hfresh.
  - cbn [fold_left]. now rewrite app_nil_r.
  - inversion Hnd as [|? ? Hnotin Hnd']; subst.
    cbn [fold_left]. unfold set_item at 2. cbn [fst snd].
    rewrite dict_set_absent by (apply Hfresh; now left).
    rewrite IH; [now rewrite <- app_assoc | exact Hnd' |].
    intros key Hin.
    assert (key <> k) by (intros ->; contradiction).
    rewrite <- (dict_set_absent d k v) by (apply Hfresh; now left).
    rewrite dict_get_set_other by assumption. apply Hfresh. now right.
Qed.

Lemma read_answer_tokens (mapping : dict Z string) (items : list (Z * Z)) :
  (forall key : Z, In key (keys items) -> dict_get mapping key <> None) ->
  forall st : session,
    exists rc : dict string Z,
      foldM (read_token mapping)
        (map (fun kv => answer_token (fst kv) (snd kv)) items) st
      = Ok (mk_session (time st) (fold_left set_item items (result_q st)) rc).
Proof.
  induction items as [|[k v] items IH]; intros Hmap st.
  - exists (result_c st). now destruct st.
  - destruct (dict_get mapping k) as [category|] eqn:Hk.
    2:{ exfalso. apply (Hmap k); [now left | exact Hk]. }
    cbn [map foldM fst snd]. rewrite (read_token_answer _ _ _ _ _ Hk).
    cbn [bind].
    destruct (IH (fun key Hin => Hmap key (or_intror Hin))
                (mk_session (time st) (dict_set (result_q st) k v)
                   (add_total (result_c st) category v))) as [rc Hrc].
    exists rc. exact Hrc.
Qed.

(** The session a written line is read as. *)
Lemma read_written_line (mapping : dict Z string) (result_q0 : dict Z Z)
  (t : datetime) :
  NoDup (keys result_q0) ->
  valid_datetime t = true ->
  1000 <= year t ->
  (forall key : Z, In key (keys result_q0) -> dict_get mapping key <> None) ->
  exists rc : dict string Z,
    read_line mapping (join " " (line_tokens result_q0 t) ++ " " ++ String nl "")
    = Ok (mk_session (Some t)
            (map (fun key => (key, lookup result_q0 key))
               (sorted Z.leb (keys result_q0)))
            rc).
Proof.
  intros Hnd Hvalid Hyear Hmap. unfold read_line.
  destruct (written_line result_q0 t) as (_ & _ & Hsplit). cbv zeta in Hsplit.
  rewrite Hsplit. unfold line_tokens. cbn [foldM].
  rewrite read_token_time by assumption. cbn [bind].
  unfold new_session. cbn [result_q result_c].
  set (items := map (fun key => (key, lookup result_q0 key))
                  (sorted Z.leb (keys result_q0))).
  assert (Hkeys : keys items = sorted Z.leb (keys result_q0)).
  { unfold items, keys. rewrite map_map. cbn [fst]. apply map_id. }
  assert (Htoks : map (fun key => answer_token key (lookup result_q0 key))
                    (sorted Z.leb (keys result_q0))
                  = map (fun kv => answer_token (fst kv) (snd kv)) items).
  { unfold items. now rewrite map_map. }
  rewrite Htoks.
  destruct (read_answer_tokens mapping items) with (st := mk_session (Some t) [] [])
    as [rc Hrc].
  { intros key Hin. rewrite Hkeys in Hin. apply Hmap.
    now apply (Permutation_in _ (sorted_perm Z.leb (keys result_q0))). }
  exists rc. cbn [result_q result_c time] in *. rewrite Hrc. f_equal. f_equal.
  rewrite fold_set_fresh; [reflexivity | | reflexivity].
  rewrite Hkeys. apply (Permutation_NoDup (l := keys result_q0)); [|exact Hnd].
  symmetry. apply sorted_perm.
Qed.

Lemma sorted_items_get (result_q : dict Z Z) (key : Z) :
  NoDup (keys result_q) ->
  dict_get (map (fun key => (key, lookup result_q key))
              (sorted Z.leb (keys result_q))) key
  = dict_get result_q key.
Proof.
  intros Hnd.
  set (items := map (fun key => (key, lookup result_q key))
                  (sorted Z.leb (keys result_q))).
  assert (Hkeys : keys items = sorted Z.leb (keys result_q)).
  { unfold items, keys. rewrite map_map. cbn [fst]. apply map_id. }
  destruct (dict_get result_q key) as [v|] eqn:E.
  - apply In_dict_get.
    + rewrite Hkeys. apply (Permutation_NoDup (l := keys result_q)); [|exact Hnd].
      symmetry. apply sorted_perm.
    + unfold items. apply in_map_iff. exists key. split.
      * unfold lookup. now rewrite E.
      * apply (Permutation_in _ (Permutation_sym (sorted_perm Z.leb _))).
        apply dict_get_In in E. unfold keys. apply in_map_iff.
        now exists (key, v).
  - apply dict_get_None. rewrite Hkeys. intros Hin.
    apply (Permutation_in _ (sorted_perm Z.leb (keys result_q))) in Hin.
    apply dict_get_None in E. contradiction.
Qed.

Lemma read_results_snoc (infile line : string) (mapping : dict Z string)
  (sessions : list session) (s : session) :
  complete infile = true ->
  readlines line = [line] ->
  read_results infile mapping = Ok sessions ->
  read_line mapping line = Ok s ->
  read_results (infile ++ line) mapping = Ok (sessions ++ [s])%list.
Proof.
  intros Hc Hone Hold Hline. unfold read_results in *.
  rewrite readlines_app by exact Hc. rewrite Hone, foldM_app, Hold.
  cbn [bind foldM]. now rewrite Hline.
Qed.

(** C1, as amended. Appending a session with [store_results] to a results
    file that reads as [sessions] (and is empty or ends with a newline),
    and reading the file again, gives [sessions] followed by one session
    whose per-question answers are those of the appended dict and whose
    timestamp is the appended one; the pattern keeps all six fractional
    digits, the whole resolution of a timestamp, so nothing is cut off.
    The session is a dict (distinct ids), its timestamp is one the
    constructor accepts with a year of four digits, and its ids have a
    category in [mapping]. *)
Theorem store_then_read (outfile : string) (result_q0 : dict Z Z)
  (t : datetime) (mapping : dict Z string) (sessions : list session) :
  NoDup (keys result_q0) ->
  valid_datetime t = true ->
  1000 <= year t ->
  (forall key : Z, In key (keys result_q0) -> dict_get mapping key <> None) ->
  complete outfile = true ->
  read_results outfile mapping = Ok sessions ->
  exists (infile : string) (s : session),
    store_results outfile result_q0 t = Ok infile /\
    read_results infile mapping = Ok (sessions ++ [s])%list /\
    time s = Some t /\
    (forall key : Z, dict_get (result_q s) key = dict_get result_q0 key) /\
    result_q s
    = map (fun key => (key, lookup result_q0 key))
        (sorted Z.leb (keys result_q0)).
Proof.
  intros Hnd Hvalid Hyear Hmap Hcomplete Hold.
  destruct (written_line result_q0 t) as (Hline & Hone & _). cbv zeta in *.
  destruct (read_written_line mapping result_q0 t Hnd Hvalid Hyear Hmap)
    as [rc Hread].
  eexists. eexists. split; [|split; [|split; [|split]]].
  - unfold store_results. rewrite Hline. reflexivity.
  - apply read_results_snoc; eassumption.
  - reflexivity.
  - intros key. cbn [result_q]. now apply sorted_items_get.
  - reflexivity.
Qed.

Lemma store_then_read_witness :
  exists (infile : string) (s : session),
    store_results "" [(3, 1); (1, 5); (-2, 0)]
      (mk_datetime 2026 11 3 22 47 5 123) = Ok infile /\
    read_results infile [(3, "mental"); (1, "physical"); (-2, "mental")]
      = Ok ([] ++ [s])%list /\
    time s = Some (mk_datetime 2026 11 3 22 47 5 123) /\
    (forall key : Z,
       dict_get (result_q s) key = dict_get [(3, 1); (1, 5); (-2, 0)] key) /\
    result_q s
    = map (fun key => (key, lookup [(3, 1); (1, 5); (-2, 0)] key))
        (sorted Z.leb (keys [(3, 1); (1, 5); (-2, 0)])).
Proof.
  apply (store_then_read "" [(3, 1); (1, 5); (-2, 0)]
           (mk_datetime 2026 11 3 22 47 5 123)
           [(3, "mental"); (1, "physical"); (-2, "mental")] []).
  - repeat constructor; simpl; intuition discriminate.
  - reflexivity.
  - cbn [year]; lia.
  - intros key [<-|[<-|[<-|[]]]]; discriminate.
  - reflexivity.
  - reflexivity.
Defined.

(** C1 as stated fails outside these conditions: a year below 1000 is
    written with fewer than four digits, which the pattern does not read
    back; an id without a category is not read; a line appended to a
    file that does not end with a newline runs into the last line; and
    an earlier line that cannot be read still cannot be read. *)
Lemma store_then_read_counterexample :
  (valid_datetime (mk_datetime 33 1 3 2 7 5 0) = true /\
   store_results "" [(0, 1)] (mk_datetime 33 1 3 2 7 5 0)
   = Ok ("time=03.01.33-02:07:05:000000 0=1 " ++ String nl "") /\
   read_results ("time=03.01.33-02:07:05:000000 0=1 " ++ String nl "")
     [(0, "mental")] = Raise ValueError) /\
  (store_results "" [(0, 1)] (mk_datetime 2026 11 3 22 47 5 123)
   = Ok ("time=03.11.2026-22:47:05:000123 0=1 " ++ String nl "") /\
   read_results ("time=03.11.2026-22:47:05:000123 0=1 " ++ String nl "") []
   = Raise KeyError) /\
  (read_results "0=1" [(0, "mental")]
   = Ok [mk_session None [(0, 1)] [("mental", 1)]] /\
   store_results "0=1" [(0, 1)] (mk_datetime 2026 11 3 22 47 5 123)
   = Ok ("0=1time=03.11.2026-22:47:05:000123 0=1 " ++ String nl "") /\
   read_results ("0=1time=03.11.2026-22:47:05:000123 0=1 " ++ String nl "")
     [(0, "mental")] = Raise ValueError) /\
  (store_results ("x" ++ String nl "") [(0, 1)]
     (mk_datetime 2026 11 3 22 47 5 123)
   = Ok ("x" ++ String nl ("time=03.11.2026-22:47:05:000123 0=1 "
                            ++ String nl "")) /\
   read_results ("x" ++ String nl ("time=03.11.2026-22:47:05:000123 0=1 "
                                     ++ String nl ""))
     [(0, "mental")] = Raise ValueError).
Proof. repeat split; reflexivity. Qed.

(** ** Lines of a results file *)

Lemma read_token_well_formed (mapping : dict Z string) (st : session)
  (tok : string) :
  stamp_token tok || pair_token mapping tok = true ->
  exists st' : session,
    read_token mapping st tok = Ok st' /\
    (String.eqb (before "=" tok) "time" = false -> time st' = time st).
Proof.
  rewrite read_token_unfold. unfold stamp_token, pair_token.
  destruct (String.eqb_spec (before "=" tok) "time") as [Hkey|Hkey].
  - rewrite Hkey. change (int "time") with (@Raise Z ValueError).
    rewrite orb_false_r. cbn [andb].
    destruct (after "=" tok) as [r|]; [|discriminate].
    destruct (strptime (before "=" r) _DATE_FMT) as [t|]; [|discriminate].
    intros _. eexists. split; [reflexivity | discriminate].
  - cbn [andb orb].
    destruct (int (before "=" tok)) as [idx|]; [|discriminate].
    destruct (after "=" tok) as [r|]; [|discriminate].
    destruct (int (before "=" r)) as [answer|]; [|discriminate].
    cbn [bind is_ok andb]. unfold dict_mem, getitem.
    destruct (dict_get mapping idx) as [category|]; [|discriminate].
    intros _. cbn [bind]. eexists. split; reflexivity.
Qed.

Lemma read_tokens_well_formed (mapping : dict Z string) (toks : list string) :
  forallb (fun tok => stamp_token tok || pair_token mapping tok) toks = true ->
  forall st : session,
    exists s : session,
      foldM (read_token mapping) toks st = Ok s /\
      (forallb (fun tok => negb (String.eqb (before "=" tok) "time")) toks
         = true -> time s = time st).
Proof.
  induction toks as [|tok toks IH]; intros Hwf st.
  - exists st. now split.
  - cbn [forallb] in Hwf. apply andb_true_iff in Hwf as [Htok Hwf].
    destruct (read_token_well_formed mapping st tok Htok) as (st1 & Hrun & Ht).
    destruct (IH Hwf st1) as (s & Hfold & Hs).
    exists s. cbn [foldM]. rewrite Hrun. cbn [bind]. split; [exact Hfold|].
    cbn [forallb]. rewrite andb_true_iff, negb_true_iff.
    intros [Hno Hrest]. now rewrite (Hs Hrest), (Ht Hno).
Qed.

Lemma read_line_well_formed (mapping : dict Z string) (lines : string) :
  results_file_line mapping lines ->
  exists s : session,
    read_line mapping lines = Ok s /\
    (no_time_token lines -> time s = None).
Proof.
  intros Hwf. apply (read_tokens_well_formed mapping _ Hwf new_session).
Qed.

Lemma read_results_from (mapping : dict Z string) (ls : list string) :
  Forall (results_file_line mapping) ls ->
  forall results : list session,
    exists sessions : list session,
      foldM (fun results lines =>
               new_result <- read_line mapping lines ;;
               Ok (results ++ [new_result])%list) ls results
      = Ok (results ++ sessions)%list /\
      Forall2 (fun lines s => read_line mapping lines = Ok s) ls sessions.
Proof.
  induction 1 as [|lines ls Hline Hls IH]; intros results.
  - exists []. rewrite app_nil_r. now split.
  - destruct (read_line_well_formed mapping lines Hline) as (s & Hs & _).
    destruct (IH (results ++ [s])%list) as (sessions & Hrun & Hall).
    exists (s :: sessions). cbn [foldM]. rewrite Hs. cbn [bind].
    rewrite Hrun, <- app_assoc. split; [reflexivity|]. now constructor.
Qed.

Lemma Forall2_nth_error_left {A B : Type} (R : A -> B -> Prop)
  (l : list A) (l' : list B) :
  Forall2 R l l' ->
  forall (i : nat) (x : A),
    nth_error l i = Some x -> exists y : B, nth_error l' i = Some y /\ R x y.
Proof.
  induction 1 as [|a b l l' Hab _ IH]; intros [|i] x Hx; try discriminate.
  - injection Hx as <-. now exists b.
  - now apply IH.
Qed.

(** C7. In a results file whose lines are all made of [time=<stamp>] and
    [<id>=<answer>] tokens, a line (the [i]-th) without any token whose
    key is [time] is still read as a session (the [i]-th of the list
    returned), and the timestamp of that session is [None]: nothing is
    parsed and no default is put in its place. *)
Theorem read_results_line_without_time (infile : string)
  (mapping : dict Z string) (i : nat) (lines : string) :
  Forall (results_file_line mapping) (readlines infile) ->
  nth_error (readlines infile) i = Some lines ->
  no_time_token lines ->
  exists (sessions : list session) (s : session),
    read_results infile mapping = Ok sessions /\
    nth_error sessions i = Some s /\
    read_line mapping lines = Ok s /\
    time s = None.
Proof.
  intros Hfile Hi Hno.
  destruct (read_results_from mapping (readlines infile) Hfile [])
    as (sessions & Hrun & Hall).
  destruct (Forall2_nth_error_left _ _ _ Hall i lines Hi) as (s & Hs & Hread).
  exists sessions, s. repeat split; auto.
  destruct (read_line_well_formed mapping lines) as (s' & Hs' & Htime).
  - rewrite Forall_forall in Hfile. apply Hfile.
    now apply nth_error_In with (n := i).
  - rewrite Hread in Hs'. injection Hs' as <-. now apply Htime.
Qed.

Lemma read_results_line_without_time_witness :
  exists (sessions : list session) (s : session),
    read_results ("time=03.11.2026-22:47:05:000123 0=2"
                    ++ String nl ("0=1 1=4" ++ String nl ""))
      [(0, "mental"); (1, "physical")] = Ok sessions /\
    nth_error sessions 1 = Some s /\
    read_line [(0, "mental"); (1, "physical")] ("0=1 1=4" ++ String nl "")
      = Ok s /\
    time s = None.
Proof.
  apply (read_results_line_without_time
           ("time=03.11.2026-22:47:05:000123 0=2"
              ++ String nl ("0=1 1=4" ++ String nl ""))
           [(0, "mental"); (1, "physical")] 1
           ("0=1 1=4" ++ String nl "")).
  - repeat constructor.
  - reflexivity.
  - reflexivity.
Defined.

(** ** Per-category totals of a session read from a file *)

(** As long as no id is repeated in a line, the totals add up to the
    answers. *)
Lemma read_tokens_totals (mapping : dict Z string) (toks : list string) :
  forall st s : session,
    foldM (read_token mapping) toks st = Ok s ->
    NoDup (keys (result_q st) ++ token_ids toks) ->
    sum (values (result_c st)) = sum (values (result_q st)) ->
    sum (values (result_c s)) = sum (values (result_q s)).
Proof.
  induction toks as [|tok toks IH]; intros st s Hrun Hnd Hsum.
  - cbn [foldM] in Hrun. now injection Hrun as <-.
  - cbn [foldM] in Hrun. rewrite read_token_unfold in Hrun.
    unfold token_ids in Hnd. cbn [flat_map] in Hnd. fold (token_ids toks) in Hnd.
    destruct (String.eqb (before "=" tok) "time").
    + destruct (after "=" tok) as [r|]; [|discriminate].
      destruct (strptime (before "=" r) _DATE_FMT); cbn [bind] in Hrun;
        [|discriminate].
      apply (IH _ _ Hrun); assumption.
    + destruct (int (before "=" tok)) as [idx|]; cbn [bind] in Hrun;
        [|discriminate].
      destruct (after "=" tok) as [r|]; [|discriminate].
      destruct (int (before "=" r)) as [answer|]; cbn [bind] in Hrun;
        [|discriminate].
      destruct (getitem mapping idx) as [category|]; cbn [bind] in Hrun;
        [|discriminate].
      assert (Hfresh : dict_get (result_q st) idx = None).
      { apply dict_get_None. intros Hin. cbn [app] in Hnd.
        apply NoDup_remove_2 in Hnd. apply Hnd.
        apply in_or_app. now left. }
      apply (IH _ _ Hrun); cbn [result_q result_c].
      * rewrite keys_dict_set. unfold dict_mem. rewrite Hfresh.
        now rewrite <- app_assoc.
      * rewrite sum_values_add_total, sum_values_set, Hfresh. lia.
Qed.

Lemma read_line_totals (mapping : dict Z string) (lines : string) (s : session) :
  read_line mapping lines = Ok s ->
  NoDup (token_ids (tokens lines)) ->
  sum (values (result_c s)) = sum (values (result_q s)).
Proof.
  intros Hrun Hnd.
  apply (read_tokens_totals mapping (tokens lines) new_session s Hrun);
    [exact Hnd | reflexivity].
Qed.

(** C3 fails on a line that repeats a question id: the later answer
    replaces the earlier one in [result_q], while [result_c] has added up
    both. *)
Lemma read_results_repeated_id :
  exists s : session,
    read_results ("0=1 0=2" ++ String nl "") [(0, "mental")] = Ok [s] /\
    result_q s = [(0, 2)] /\
    result_c s = [("mental", 3)] /\
    sum (values (result_c s)) = 3 /\
    sum (values (result_q s)) = 2.
Proof. eexists. repeat split. Qed.

(** ** The low-scoring report *)

Lemma str_inj (a b : Z) : str a = str b -> a = b.
Proof.
  intros E. pose proof (int_str a) as Ha. rewrite E, int_str in Ha.
  now injection Ha.
Qed.

Lemma nonempty_snoc {A : Type} (l : list A) (x : A) :
  nonempty (l ++ [x])%list = Some (l ++ [x])%list.
Proof. destruct l; reflexivity. Qed.

Lemma low_rows_snoc (questions mapping : dict Z string) (category : string)
  (done : dict Z Z) (item : Z * Z) :
  low_rows questions mapping category (done ++ [item])%list
  = if in_low_category mapping category item
    then (low_rows questions mapping category done
            ++ [low_row questions item])%list
    else low_rows questions mapping category done.
Proof.
  unfold low_rows. rewrite filter_app. cbn [filter].
  destruct (in_low_category mapping category item).
  - now rewrite map_app.
  - now rewrite app_nil_r.
Qed.

Lemma low_step_spec (questions mapping : dict Z string)
  (low : dict string (list (list string))) (done : dict Z Z)
  (idx answer : Z) :
  dict_get mapping idx <> None -> dict_get questions idx <> None ->
  NoDup (keys low) ->
  (forall c : string,
     dict_get low c = nonempty (low_rows questions mapping c done)) ->
  exists low' : dict string (list (list string)),
    low_step questions mapping low (idx, answer) = Ok low' /\
    NoDup (keys low') /\
    forall c : string,
      dict_get low' c
      = nonempty (low_rows questions mapping c (done ++ [(idx, answer)])%list).
Proof.
  intros Hm Hq Hnd Hinv. unfold low_step.
  destruct (dict_get mapping idx) as [category|] eqn:Em; [|congruence].
  destruct (dict_get questions idx) as [q|] eqn:Eq; [|congruence].
  rewrite (getitem_Some _ _ _ Em). cbn [bind].
  destruct (Z.leb_spec answer 3) as [Hle|Hgt].
  - set (low1 := if dict_mem low category then low
                 else dict_set low category []).
    assert (H1 : dict_get low1 category
                 = Some (low_rows questions mapping category done)
                 /\ NoDup (keys low1)
                 /\ forall c, c <> category -> dict_get low1 c = dict_get low c).
    { unfold low1, dict_mem. specialize (Hinv category).
      destruct (dict_get low category) as [rows|] eqn:E.
      - split; [|split; auto]. rewrite E, Hinv.
        destruct (low_rows questions mapping category done);
          [discriminate | reflexivity].
      - split; [|split].
        + rewrite dict_get_set_same.
          destruct (low_rows questions mapping category done);
            [reflexivity | discriminate].
        + now apply NoDup_keys_dict_set.
        + intros c Hc. now apply dict_get_set_other. }
    destruct H1 as (Hget & Hnd1 & Hother).
    rewrite (getitem_Some _ _ _ Hget). cbn [bind].
    rewrite (getitem_Some _ _ _ Eq). cbn [bind].
    eexists. split; [reflexivity|]. split; [now apply NoDup_keys_dict_set|].
    intros c. rewrite low_rows_snoc. unfold in_low_category. cbn [fst snd].
    rewrite Em. replace (answer <=? 3) with true by (symmetry; now apply Z.leb_le).
    cbn [andb]. destruct (String.eqb_spec category c) as [<-|Hne].
    + rewrite dict_get_set_same, nonempty_snoc. unfold low_row, question_text.
      cbn [fst snd]. now rewrite Eq.
    + rewrite dict_get_set_other by congruence.
      rewrite Hother by congruence. apply Hinv.
  - exists low. split; [reflexivity|]. split; [exact Hnd|].
    intros c. rewrite low_rows_snoc. unfold in_low_category. cbn [fst snd].
    replace (answer <=? 3) with false by (symmetry; now apply Z.leb_gt).
    apply Hinv.
Qed.

Lemma low_questions_from (questions mapping : dict Z string) (items : dict Z Z) :
  forall (done : dict Z Z) (low : dict string (list (list string))),
    (forall idx : Z, In idx (keys items) ->
       dict_get mapping idx <> None /\ dict_get questions idx <> None) ->
    NoDup (keys low) ->
    (forall c : string,
       dict_get low c = nonempty (low_rows questions mapping c done)) ->
    exists low' : dict string (list (list string)),
      foldM (low_step questions mapping) items low = Ok low' /\
      NoDup (keys low') /\
      forall c : string,
        dict_get low' c
        = nonempty (low_rows questions mapping c (done ++ items)%list).
Proof.
  induction items as [|[idx answer] items IH]; intros done low Hcov Hnd Hinv.
  - exists low. rewrite app_nil_r. now repeat split.
  - destruct (Hcov idx (or_introl eq_refl)) as [Hm Hq].
    destruct (low_step_spec questions mapping low done idx answer Hm Hq Hnd Hinv)
      as (low1 & Hstep & Hnd1 & Hinv1).
    destruct (IH (done ++ [(idx, answer)])%list low1) as (low' & Hrun & Hnd' & Hinv').
    + intros i Hi. apply Hcov. now right.
    + exact Hnd1.
    + exact Hinv1.
    + exists low'. cbn [foldM]. rewrite Hstep. cbn [bind].
      split; [exact Hrun|]. split; [exact Hnd'|].
      intros c. rewrite Hinv', <- app_assoc. reflexivity.
Qed.

Lemma low_tables_spec (questions mapping : dict Z string) (result_q0 : dict Z Z) :
  covered questions mapping result_q0 ->
  exists tables : list (string * list (list string)),
    low_tables result_q0 questions mapping = Ok tables /\
    NoDup (map fst tables) /\
    forall (category : string) (rows : list (list string)),
      In (category, rows) tables <->
      rows = low_rows questions mapping category result_q0 /\ rows <> [].
Proof.
  intros Hcov. unfold low_tables, low_questions.
  destruct (low_questions_from questions mapping result_q0 [] [])
    as (low & Hrun & Hnd & Hinv); [exact Hcov | constructor | reflexivity |].
  cbn [app] in Hinv. rewrite Hrun. cbn [bind].
  set (rows_of := fun c => low_rows questions mapping c result_q0).
  assert (Hkeys : forall c, In c (keys low) <-> rows_of c <> []).
  { intros c. pose proof (dict_get_None low c) as Hn. rewrite Hinv in Hn.
    unfold rows_of. destruct (low_rows questions mapping c result_q0).
    - cbn [nonempty] in Hn. tauto.
    - cbn [nonempty] in Hn. split; [discriminate|]. intros _.
      destruct (in_dec String.string_dec c (keys low)) as [Hin|Hin]; [exact Hin|].
      apply Hn in Hin. discriminate. }
  exists (map (fun c => (c, rows_of c)) (sorted String.leb (keys low))).
  split; [|split].
  - apply mapM_ok. intros c Hc.
    apply (Permutation_in _ (sorted_perm String.leb (keys low))) in Hc.
    apply Hkeys in Hc. unfold getitem. rewrite Hinv. fold (rows_of c).
    destruct (rows_of c); [congruence | reflexivity].
  - rewrite map_map. cbn [fst]. rewrite map_id.
    apply (Permutation_NoDup (l := keys low)); [|exact Hnd].
    symmetry. apply sorted_perm.
  - intros category rows. rewrite in_map_iff. split.
    + intros (c & [= <- <-] & Hc).
      apply (Permutation_in _ (sorted_perm String.leb (keys low))) in Hc.
      split; [reflexivity | now apply Hkeys].
    + intros [-> Hne]. exists category. split; [reflexivity|].
      apply (Permutation_in _ (Permutation_sym (sorted_perm String.leb _))).
      now apply Hkeys.
Qed.

Lemma in_low_rows (questions mapping : dict Z string) (category : string)
  (result_q0 : dict Z Z) (row : list string) :
  In row (low_rows questions mapping category result_q0) <->
  exists idx answer : Z,
    In (idx, answer) result_q0 /\ answer <= 3 /\
    dict_get mapping idx = Some category /\
    row = low_row questions (idx, answer).
Proof.
  unfold low_rows. rewrite in_map_iff. split.
  - intros ([idx answer] & <- & Hin). apply filter_In in Hin as [Hin Hp].
    unfold in_low_category in Hp. cbn [fst snd] in Hp.
    apply andb_true_iff in Hp as [Hle Hc]. apply Z.leb_le in Hle.
    exists idx, answer. repeat split; auto.
    destruct (dict_get mapping idx) as [c|]; [|discriminate].
    apply String.eqb_eq in Hc. now subst.
  - intros (idx & answer & Hin & Hle & Hc & ->).
    exists (idx, answer). split; [reflexivity|]. apply filter_In.
    split; [exact Hin|]. unfold in_low_category. cbn [fst snd].
    rewrite Hc, String.eqb_refl, andb_true_r. now apply Z.leb_le.
Qed.

(** The rows of the tables [low_tables] builds: every row is the row of
    an answer that is at most 3; the table of a category has a row for a
    given answer exactly when that answer is at most 3 and its question
    maps to this category; every answer at most 3 has its row in the table
    of its category; and the categories of the tables are distinct. *)
Lemma low_tables_rows (result_q0 : dict Z Z)
  (questions mapping : dict Z string) :
  NoDup (keys result_q0) ->
  covered questions mapping result_q0 ->
  exists tables : list (string * list (list string)),
    low_tables result_q0 questions mapping = Ok tables /\
    NoDup (map fst tables) /\
    (forall (category : string) (rows : list (list string))
            (row : list string),
       In (category, rows) tables -> In row rows ->
       exists idx answer : Z,
         In (idx, answer) result_q0 /\ answer <= 3 /\
         row = [str idx; question_text questions idx; str answer]) /\
    (forall (idx answer : Z) (category : string) (rows : list (list string)),
       In (idx, answer) result_q0 -> In (category, rows) tables ->
       (has_row idx rows <->
        answer <= 3 /\ dict_get mapping idx = Some category)) /\
    (forall idx answer : Z,
       In (idx, answer) result_q0 -> answer <= 3 ->
       exists (category : string) (rows : list (list string)),
         dict_get mapping idx = Some category /\
         In (category, rows) tables /\
         In [str idx; question_text questions idx; str answer] rows).
Proof.
  intros Hnd Hcov.
  destruct (low_tables_spec questions mapping result_q0 Hcov)
    as (tables & Hrun & Hcats & Htab).
  exists tables. split; [exact Hrun|]. split; [exact Hcats|].
  split; [|split].
  - intros category rows row Ht Hrow. apply Htab in Ht as [-> _].
    apply in_low_rows in Hrow as (idx & answer & Hin & Hle & _ & ->).
    now exists idx, answer.
  - intros idx answer category rows Hin Ht. apply Htab in Ht as [-> _].
    split.
    + intros (row & Hrow & Hid).
      apply in_low_rows in Hrow as (idx' & answer' & Hin' & Hle & Hc & ->).
      cbn [low_row nth fst] in Hid. apply str_inj in Hid. subst idx'.
      pose proof (In_dict_get _ _ _ Hnd Hin) as H1.
      pose proof (In_dict_get _ _ _ Hnd Hin') as H2.
      assert (answer' = answer) by congruence. subst. now split.
    + intros [Hle Hc]. exists (low_row questions (idx, answer)).
      split; [|reflexivity]. apply in_low_rows. now exists idx, answer.
  - intros idx answer Hin Hle.
    destruct (Hcov idx) as [Hm _].
    { unfold keys. apply in_map_iff. now exists (idx, answer). }
    destruct (dict_get mapping idx) as [category|] eqn:Em; [|congruence].
    exists category, (low_rows questions mapping category result_q0).
    assert (Hrow : In (low_row questions (idx, answer))
                     (low_rows questions mapping category result_q0)).
    { apply in_low_rows. now exists idx, answer. }
    split; [reflexivity|]. split; [|exact Hrow].
    apply Htab. split; [reflexivity|]. intros E. rewrite E in Hrow.
    destruct Hrow.
Qed.

(** * Further properties of the result store *)

Lemma read_token_returns (mapping : dict Z string) (st st' : session)
  (tok : string) :
  read_token mapping st tok = Ok st' ->
  stamp_token tok || pair_token mapping tok = true.
Proof.
  rewrite read_token_unfold. unfold stamp_token, pair_token.
  destruct (String.eqb (before "=" tok) "time"); cbn [andb orb].
  - destruct (after "=" tok) as [r|]; [|discriminate].
    destruct (strptime (before "=" r) _DATE_FMT); [reflexivity | discriminate].
  - destruct (int (before "=" tok)) as [idx|]; cbn [bind]; [|discriminate].
    destruct (after "=" tok) as [r|]; [|discriminate].
    destruct (int (before "=" r)) as [answer|]; cbn [bind]; [|discriminate].
    unfold getitem, dict_mem.
    destruct (dict_get mapping idx); [reflexivity | discriminate].
Qed.

Lemma read_tokens_return (mapping : dict Z string) (toks : list string) :
  forall st s : session,
    foldM (read_token mapping) toks st = Ok s ->
    forallb (fun tok => stamp_token tok || pair_token mapping tok) toks = true.
Proof.
  induction toks as [|tok toks IH]; intros st s Hrun; [reflexivity|].
  cbn [foldM] in Hrun.
  destruct (read_token mapping st tok) as [st1|] eqn:E; [|discriminate].
  cbn [bind] in Hrun. cbn [forallb].
  now rewrite (read_token_returns _ _ _ _ E), (IH _ _ Hrun).
Qed.

Lemma read_line_returns (mapping : dict Z string) (lines : string) (s : session) :
  read_line mapping lines = Ok s -> results_file_line mapping lines.
Proof. apply read_tokens_return. Qed.

(** [read_results] is the line reader mapped over the lines. *)
Lemma read_results_fold (mapping : dict Z string) (ls : list string) :
  forall results : list session,
    foldM (fun results lines =>
             new_result <- read_line mapping lines ;;
             Ok (results ++ [new_result])%list) ls results
    = (sessions <- mapM (read_line mapping) ls ;;
       Ok (results ++ sessions)%list).
Proof.
  induction ls as [|lines ls IH]; intros results.
  - cbn [foldM mapM bind]. now rewrite app_nil_r.
  - cbn [foldM mapM]. destruct (read_line mapping lines) as [s|]; cbn [bind];
      [|reflexivity].
    rewrite IH. destruct (mapM (read_line mapping) ls); cbn [bind];
      [|reflexivity].
    now rewrite <- app_assoc.
Qed.

Lemma read_results_mapM (infile : string) (mapping : dict Z string) :
  read_results infile mapping = mapM (read_line mapping) (readlines infile).
Proof.
  unfold read_results. rewrite read_results_fold.
  now destruct (mapM (read_line mapping) (readlines infile)).
Qed.

Lemma mapM_Forall2 {A B : Type} (f : A -> result B) (l : list A) :
  forall ys : list B,
    mapM f l = Ok ys <-> Forall2 (fun x y => f x = Ok y) l ys.
Proof.
  induction l as [|x l IH]; intros ys.
  - cbn [mapM]. split.
    + intros [= <-]. constructor.
    + intros Hall. inversion Hall. reflexivity.
  - cbn [mapM]. split.
    + destruct (f x) as [y|] eqn:Ex; cbn [bind]; [|discriminate].
      destruct (mapM f l) as [ys'|] eqn:El; cbn [bind]; [|discriminate].
      intros [= <-]. constructor; [exact Ex | now apply IH].
    + intros Hall. inversion Hall as [|? y ? ys' Hx Hrest]; subst.
      rewrite Hx. cbn [bind]. apply IH in Hrest. rewrite Hrest. reflexivity.
Qed.

Lemma mapM_app {A B : Type} (f : A -> result B) (l1 l2 : list A) :
  mapM f (l1 ++ l2)
  = (ys1 <- mapM f l1 ;; ys2 <- mapM f l2 ;; Ok (ys1 ++ ys2)%list).
Proof.
  induction l1 as [|x l1 IH]; cbn [app mapM bind].
  - now destruct (mapM f l2).
  - destruct (f x); cbn [bind]; [|reflexivity]. rewrite IH.
    destruct (mapM f l1); cbn [bind]; [|reflexivity].
    now destruct (mapM f l2).
Qed.

(** X1. [read_results] returns exactly when every line of the file is made
    of [time=<stamp>] tokens whose stamp parses and [<id>=<answer>] tokens
    of two integers whose id is a key of [mapping]; it then returns one
    session per line, in the order of the lines, each the reading of its
    line. *)
Theorem read_results_returns_iff (infile : string) (mapping : dict Z string) :
  ((exists sessions : list session, read_results infile mapping = Ok sessions)
   <-> Forall (results_file_line mapping) (readlines infile)) /\
  (forall sessions : list session,
     read_results infile mapping = Ok sessions ->
     List.length sessions = List.length (readlines infile) /\
     forall (i : nat) (lines : string),
       nth_error (readlines infile) i = Some lines ->
       exists s : session,
         nth_error sessions i = Some s /\ read_line mapping lines = Ok s).
Proof.
  rewrite read_results_mapM. split; [split|].
  - intros [sessions Hrun]. apply mapM_Forall2 in Hrun.
    induction Hrun as [|lines s ls ss Hline _ IH]; constructor; auto.
    now apply (read_line_returns mapping lines s).
  - intros Hall.
    destruct (read_results_from mapping (readlines infile) Hall [])
      as (sessions & _ & Hall2).
    exists sessions. now apply mapM_Forall2.
  - intros sessions Hrun. apply mapM_Forall2 in Hrun. split.
    + symmetry. now apply Forall2_length in Hrun.
    + intros i lines Hi.
      now apply (Forall2_nth_error_left _ _ _ Hrun i lines Hi).
Qed.

Lemma read_results_concat (a b : string) (mapping : dict Z string) :
  complete a = true ->
  read_results (a ++ b) mapping
  = (sa <- read_results a mapping ;;
     sb <- read_results b mapping ;;
     Ok (sa ++ sb)%list).
Proof.
  intros Ha. rewrite !read_results_mapM, readlines_app by exact Ha.
  induction (readlines a) as [|x l1 IH]; cbn [app mapM bind].
  - now destruct (mapM (read_line mapping) (readlines b)).
  - destruct (read_line mapping x); cbn [bind]; [|reflexivity]. rewrite IH.
    destruct (mapM (read_line mapping) l1); cbn [bind]; [|reflexivity].
    now destruct (mapM (read_line mapping) (readlines b)).
Qed.

(** X2. Reading is line by line: the sessions of a file that ends with a
    newline (or is empty) followed by more text are the sessions of the
    file followed by the sessions of that text, and reading the whole
    fails as soon as reading either part does. *)
Theorem read_results_append (a b : string) (mapping : dict Z string) :
  complete a = true ->
  read_results (a ++ b) mapping
  = (sa <- read_results a mapping ;;
     sb <- read_results b mapping ;;
     Ok (sa ++ sb)%list).
Proof.
  intros Ha. rewrite !read_results_mapM, readlines_app by exact Ha.
  apply mapM_app.
Qed.

Lemma read_results_append_witness :
  read_results (("0=1" ++ String nl "") ++ ("1=4" ++ String nl ""))
    [(0, "mental"); (1, "physical")]
  = (sa <- read_results ("0=1" ++ String nl "")
             [(0, "mental"); (1, "physical")] ;;
     sb <- read_results ("1=4" ++ String nl "")
             [(0, "mental"); (1, "physical")] ;;
     Ok (sa ++ sb)%list).
Proof.
  apply (read_results_append ("0=1" ++ String nl "") ("1=4" ++ String nl "")
           [(0, "mental"); (1, "physical")]).
  reflexivity.
Defined.

Lemma complete_append (a b : string) :
  b <> "" -> complete (a ++ b) = complete b.
Proof.
  intros Hb. induction a as [|c a IH]; [reflexivity|].
  cbn [append]. destruct (a ++ b) eqn:E.
  - destruct a, b; simpl in E; congruence.
  - exact IH.
Qed.

Lemma complete_written (outfile body : string) :
  complete (outfile ++ body ++ " " ++ String nl "") = true.
Proof.
  rewrite complete_append by (destruct body; discriminate).
  rewrite complete_append by discriminate. reflexivity.
Qed.

(** X3. Appends accumulate in order: after storing a first and then a
    second session, each with a timestamp whose year has four digits,
    onto a file that ends with a newline (or is empty) and reads as
    [sessions], the file reads as [sessions] followed by the first and
    then the second session, each with its own timestamp and answers. *)
Theorem store_twice_then_read (outfile : string) (q1 q2 : dict Z Z)
  (t1 t2 : datetime) (mapping : dict Z string) (sessions : list session) :
  NoDup (keys q1) -> NoDup (keys q2) ->
  valid_datetime t1 = true -> valid_datetime t2 = true ->
  1000 <= year t1 -> 1000 <= year t2 ->
  (forall key : Z, In key (keys q1) -> dict_get mapping key <> None) ->
  (forall key : Z, In key (keys q2) -> dict_get mapping key <> None) ->
  complete outfile = true ->
  read_results outfile mapping = Ok sessions ->
  exists (file1 file2 : string) (s1 s2 : session),
    store_results outfile q1 t1 = Ok file1 /\
    store_results file1 q2 t2 = Ok file2 /\
    read_results file2 mapping = Ok (sessions ++ [s1; s2])%list /\
    time s1 = Some t1 /\ time s2 = Some t2 /\
    (forall key : Z, dict_get (result_q s1) key = dict_get q1 key) /\
    (forall key : Z, dict_get (result_q s2) key = dict_get q2 key).
Proof.
  intros Hnd1 Hnd2 Hv1 Hv2 Hy1 Hy2 Hm1 Hm2 Hcomplete Hold.
  destruct (written_line q1 t1) as (Hline1 & Hone1 & _).
  destruct (written_line q2 t2) as (Hline2 & Hone2 & _). cbv zeta in *.
  destruct (read_written_line mapping q1 t1 Hnd1 Hv1 Hy1 Hm1) as [rc1 Hread1].
  destruct (read_written_line mapping q2 t2 Hnd2 Hv2 Hy2 Hm2) as [rc2 Hread2].
  do 4 eexists. split; [|split; [|split; [|split; [|split; [|split]]]]].
  - unfold store_results. rewrite Hline1. reflexivity.
  - unfold store_results. rewrite Hline2. reflexivity.
  - change (sessions ++ [?x; ?y])%list with (sessions ++ [x] ++ [y])%list.
    rewrite app_assoc. apply read_results_snoc; try eassumption.
    + apply complete_written.
    + apply read_results_snoc; eassumption.
  - reflexivity.
  - reflexivity.
  - intros key. cbn [result_q]. now apply sorted_items_get.
  - intros key. cbn [result_q]. now apply sorted_items_get.
Qed.

Lemma store_twice_then_read_witness :
  exists (file1 file2 : string) (s1 s2 : session),
    store_results "" [(0, 2); (1, 5)] (mk_datetime 2026 11 3 22 47 5 123)
      = Ok file1 /\
    store_results file1 [(1, 0); (0, 4)] (mk_datetime 2026 11 4 8 0 0 0)
      = Ok file2 /\
    read_results file2 [(0, "mental"); (1, "technique")]
      = Ok ([] ++ [s1; s2])%list /\
    time s1 = Some (mk_datetime 2026 11 3 22 47 5 123) /\
    time s2 = Some (mk_datetime 2026 11 4 8 0 0 0) /\
    (forall key : Z,
       dict_get (result_q s1) key = dict_get [(0, 2); (1, 5)] key) /\
    (forall key : Z,
       dict_get (result_q s2) key = dict_get [(1, 0); (0, 4)] key).
Proof.
  apply (store_twice_then_read "" [(0, 2); (1, 5)] [(1, 0); (0, 4)]
           (mk_datetime 2026 11 3 22 47 5 123)
           (mk_datetime 2026 11 4 8 0 0 0)
           [(0, "mental"); (1, "technique")] []).
  - repeat constructor; simpl; intuition discriminate.
  - repeat constructor; simpl; intuition discriminate.
  - reflexivity.
  - reflexivity.
  - cbn [year]; lia.
  - cbn [year]; lia.
  - intros key [<-|[<-|[]]]; discriminate.
  - intros key [<-|[<-|[]]]; discriminate.
  - reflexivity.
  - reflexivity.
Defined.

(** ** What a line is read as *)

Lemma sum_app (l1 l2 : list Z) : sum (l1 ++ l2) = sum l1 + sum l2.
Proof. induction l1 as [|x l1 IH]; [reflexivity|]. cbn [app]. rewrite !sum_cons, IH. lia. Qed.

Lemma existsb_false_filter {A : Type} (p : A -> bool) (l : list A) :
  existsb p l = false -> filter p l = [].
Proof.
  induction l as [|x l IH]; [reflexivity|]. cbn [existsb filter].
  destruct (p x); [discriminate | exact IH].
Qed.

Lemma category_total_snoc (mapping : dict Z string) (category : string)
  (pairs : list (Z * Z)) (item : Z * Z) :
  category_total mapping category (pairs ++ [item])
  = if maps_to mapping category item
    then Some (match category_total mapping category pairs with
               | Some t => t
               | None => 0
               end + snd item)
    else category_total mapping category pairs.
Proof.
  unfold category_total. rewrite existsb_app, filter_app, map_app, sum_app.
  cbn [existsb filter]. destruct (maps_to mapping category item).
  - rewrite orb_true_r. cbn [map]. rewrite sum_cons. cbn [sum fold_right].
    destruct (existsb (maps_to mapping category) pairs) eqn:E.
    + f_equal. lia.
    + rewrite (existsb_false_filter _ _ E). cbn [map sum fold_right].
      f_equal. lia.
  - rewrite !orb_false_r. cbn [map sum fold_right].
    now rewrite Z.add_0_r.
Qed.

Lemma last_answer_snoc (pairs : list (Z * Z)) (item : Z * Z) (idx : Z) :
  last_answer (pairs ++ [item]) idx
  = if Z.eqb (fst item) idx then Some (snd item) else last_answer pairs idx.
Proof. unfold last_answer. now rewrite fold_left_app. Qed.

Lemma dict_get_add_total (mapping : dict Z string) (rc : dict string Z)
  (done : list (Z * Z)) (idx answer : Z) (category : string) :
  dict_get mapping idx = Some category ->
  (forall c, dict_get rc c = category_total mapping c done) ->
  forall c,
    dict_get (add_total rc category answer) c
    = category_total mapping c (done ++ [(idx, answer)]).
Proof.
  intros Hm Hinv c. rewrite category_total_snoc. unfold maps_to.
  cbn [fst snd]. rewrite Hm.
  destruct (String.eqb_spec category c) as [<-|Hne].
  - now rewrite dict_get_add_total_same, Hinv.
  - rewrite dict_get_add_total_other by congruence. apply Hinv.
Qed.

Lemma read_tokens_meaning (mapping : dict Z string) (toks : list string) :
  forall (st s : session) (done : list (Z * Z)),
    foldM (read_token mapping) toks st = Ok s ->
    (forall idx, dict_get (result_q st) idx = last_answer done idx) ->
    (forall c, dict_get (result_c st) c = category_total mapping c done) ->
    (forall idx,
       dict_get (result_q s) idx
       = last_answer (done ++ parsed_pairs toks) idx) /\
    (forall c,
       dict_get (result_c s) c
       = category_total mapping c (done ++ parsed_pairs toks)).
Proof.
  induction toks as [|tok toks IH]; intros st s done Hrun Hq Hc.
  - cbn [foldM] in Hrun. injection Hrun as <-.
    unfold parsed_pairs. cbn [flat_map]. rewrite app_nil_r. now split.
  - cbn [foldM] in Hrun. rewrite read_token_unfold in Hrun.
    unfold parsed_pairs. cbn [flat_map]. fold (parsed_pairs toks).
    destruct (String.eqb (before "=" tok) "time").
    + destruct (after "=" tok) as [r|]; [|discriminate].
      destruct (strptime (before "=" r) _DATE_FMT); cbn [bind] in Hrun;
        [|discriminate].
      cbn [app]. apply (IH _ _ _ Hrun); assumption.
    + destruct (int (before "=" tok)) as [idx|]; cbn [bind] in Hrun;
        [|discriminate].
      destruct (after "=" tok) as [r|]; [|discriminate].
      destruct (int (before "=" r)) as [answer|]; cbn [bind] in Hrun;
        [|discriminate].
      unfold getitem in Hrun.
      destruct (dict_get mapping idx) as [category|] eqn:Hm;
        cbn [bind] in Hrun; [|discriminate].
      change ([(idx, answer)] ++ parsed_pairs toks)%list
        with ((idx, answer) :: parsed_pairs toks).
      replace (done ++ (idx, answer) :: parsed_pairs toks)%list
        with ((done ++ [(idx, answer)]) ++ parsed_pairs toks)%list
        by (now rewrite <- app_assoc).
      apply (IH _ _ _ Hrun); cbn [result_q result_c].
      * intros i. rewrite last_answer_snoc. cbn [fst snd].
        destruct (Z.eqb_spec idx i) as [<-|Hne].
        -- apply dict_get_set_same.
        -- rewrite dict_get_set_other by congruence. apply Hq.
      * now apply dict_get_add_total.
Qed.

(** X4. What [read_results] makes of a line it can read: the answer of an
    id is the one of the last token with that id, and the total of a
    category is the sum of the answers of all the tokens whose id maps to
    it, repeated ids included; ids without a token and categories without
    one are absent. *)
Theorem read_results_session (infile : string) (mapping : dict Z string)
  (sessions : list session) (i : nat) (lines : string) (s : session) :
  read_results infile mapping = Ok sessions ->
  nth_error (readlines infile) i = Some lines ->
  nth_error sessions i = Some s ->
  (forall idx : Z,
     dict_get (result_q s) idx
     = last_answer (parsed_pairs (tokens lines)) idx) /\
  (forall category : string,
     dict_get (result_c s) category
     = category_total mapping category (parsed_pairs (tokens lines))).
Proof.
  intros Hrun Hline Hs. rewrite read_results_mapM in Hrun.
  apply mapM_Forall2 in Hrun.
  destruct (Forall2_nth_error_left _ _ _ Hrun i lines Hline) as (s' & Hs' & Hread).
  assert (s' = s) by congruence. subst s'.
  apply (read_tokens_meaning mapping (tokens lines) new_session s [] Hread);
    reflexivity.
Qed.

Lemma read_results_session_witness :
  (forall idx : Z,
     dict_get [(0, 2); (1, 4)] idx
     = last_answer (parsed_pairs (tokens ("0=1 1=4 0=2" ++ String nl ""))) idx) /\
  (forall category : string,
     dict_get [("mental", 7)] category
     = category_total [(0, "mental"); (1, "mental")] category
         (parsed_pairs (tokens ("0=1 1=4 0=2" ++ String nl "")))).
Proof.
  apply (read_results_session ("0=1 1=4 0=2" ++ String nl "")
           [(0, "mental"); (1, "mental")]
           [mk_session None [(0, 2); (1, 4)] [("mental", 7)]] 0
           ("0=1 1=4 0=2" ++ String nl "")
           (mk_session None [(0, 2); (1, 4)] [("mental", 7)]));
    reflexivity.
Defined.

(** X5. In a file where no line repeats a question id, every session read
    has totals that add up to its answers. *)
Theorem read_results_totals (infile : string) (mapping : dict Z string)
  (sessions : list session) :
  read_results infile mapping = Ok sessions ->
  Forall (fun lines => NoDup (token_ids (tokens lines))) (readlines infile) ->
  Forall (fun s => sum (values (result_c s)) = sum (values (result_q s)))
         sessions.
Proof.
  intros Hrun Hnd. rewrite read_results_mapM in Hrun.
  apply mapM_Forall2 in Hrun.
  induction Hrun as [|lines s ls ss Hline _ IH]; [constructor|].
  inversion Hnd as [|? ? Hl Hls]; subst.
  constructor; [|now apply IH].
  now apply (read_line_totals mapping lines).
Qed.

Lemma read_results_totals_witness :
  Forall (fun s => sum (values (result_c s)) = sum (values (result_q s)))
         [mk_session None [(0, 1); (1, 4)] [("mental", 5)]].
Proof.
  apply (read_results_totals ("0=1 1=4" ++ String nl "")
           [(0, "mental"); (1, "mental")]
           [mk_session None [(0, 1); (1, 4)] [("mental", 5)]]).
  - reflexivity.
  - repeat constructor; simpl; intuition discriminate.
Defined.

(** ** The totals [plot_results_categories] recomputes *)

Lemma recompute_step_spec (mapping : dict Z string) (rc : dict string Z)
  (idx answer : Z) :
  recompute_step mapping rc (idx, answer)
  = match dict_get mapping idx with
    | Some category => Ok (add_total rc category answer)
    | None => Raise KeyError
    end.
Proof.
  unfold recompute_step, getitem at 1.
  destruct (dict_get mapping idx) as [category|]; cbn [bind]; [|reflexivity].
  apply (total_step_in rc category answer (fun d => d)).
Qed.

Lemma recompute_from (mapping : dict Z string) (items : list (Z * Z)) :
  forall (rc : dict string Z) (done : list (Z * Z)),
    (forall c, dict_get rc c = category_total mapping c done) ->
    match foldM (recompute_step mapping) items rc with
    | Ok rc' =>
        (forall idx, In idx (keys items) -> dict_get mapping idx <> None) /\
        sum (values rc') = sum (values rc) + sum (values items) /\
        forall c, dict_get rc' c = category_total mapping c (done ++ items)
    | Raise e =>
        e = KeyError /\
        exists idx, In idx (keys items) /\ dict_get mapping idx = None
    end.
Proof.
  induction items as [|[idx answer] items IH]; intros rc done Hinv.
  - cbn [foldM]. rewrite app_nil_r. split; [intros idx []|].
    split; [cbn; lia | exact Hinv].
  - cbn [foldM]. rewrite recompute_step_spec.
    destruct (dict_get mapping idx) as [category|] eqn:Hm; cbn [bind].
    + specialize (IH (add_total rc category answer)
                     (done ++ [(idx, answer)])%list
                     (dict_get_add_total mapping rc done idx answer category
                        Hm Hinv)).
      destruct (foldM (recompute_step mapping) items _) as [rc'|e].
      * destruct IH as (Hcov & Hsum & Hget). split; [|split].
        -- intros i Hi. unfold keys in Hi. cbn [map fst In] in Hi.
           destruct Hi as [<-|Hi]; [congruence | now apply Hcov].
        -- rewrite Hsum, sum_values_add_total. unfold values.
           cbn [map snd]. rewrite sum_cons. lia.
        -- intros c. rewrite Hget, <- app_assoc. reflexivity.
      * destruct IH as (He & i & Hi & Hnone). split; [exact He|].
        exists i. split; [now right | exact Hnone].
    + split; [reflexivity|]. exists idx. split; [now left | exact Hm].
Qed.

(** X6. The totals that [plot_results_categories] recomputes from a
    session's answers: the loop raises [KeyError] exactly when an id of
    the session has no category; otherwise the total of every category is
    the sum of the answers of its questions, and the totals add up to the
    answers. *)
Theorem recompute_totals_spec (result_q0 : dict Z Z) (mapping : dict Z string) :
  match recompute_totals result_q0 mapping with
  | Ok results_c =>
      (forall idx, In idx (keys result_q0) -> dict_get mapping idx <> None) /\
      sum (values results_c) = sum (values result_q0) /\
      forall category : string,
        dict_get results_c category
        = category_total mapping category result_q0
  | Raise e =>
      e = KeyError /\
      exists idx, In idx (keys result_q0) /\ dict_get mapping idx = None
  end.
Proof.
  unfold recompute_totals.
  pose proof (recompute_from mapping result_q0 [] [] (fun c => eq_refl)) as H.
  destruct (foldM (recompute_step mapping) result_q0 []); [|exact H].
  destruct H as (Hcov & Hsum & Hget). repeat split; auto.
Qed.

Lemma recompute_snoc (mapping : dict Z string) (rq : dict Z Z)
  (rc : dict string Z) (idx answer : Z) (category : string) :
  dict_get mapping idx = Some category ->
  foldM (recompute_step mapping) rq [] = Ok rc ->
  foldM (recompute_step mapping) (rq ++ [(idx, answer)]) []
  = Ok (add_total rc category answer).
Proof.
  intros Hm Hrun. rewrite foldM_app, Hrun. cbn [bind foldM].
  rewrite recompute_step_spec, Hm. reflexivity.
Qed.

Lemma read_tokens_recompute (mapping : dict Z string) (toks : list string) :
  forall st s : session,
    foldM (read_token mapping) toks st = Ok s ->
    NoDup (keys (result_q st) ++ token_ids toks) ->
    recompute_totals (result_q st) mapping = Ok (result_c st) ->
    recompute_totals (result_q s) mapping = Ok (result_c s).
Proof.
  unfold recompute_totals.
  induction toks as [|tok toks IH]; intros st s Hrun Hnd Hre.
  - cbn [foldM] in Hrun. now injection Hrun as <-.
  - cbn [foldM] in Hrun. rewrite read_token_unfold in Hrun.
    unfold token_ids in Hnd. cbn [flat_map] in Hnd. fold (token_ids toks) in Hnd.
    destruct (String.eqb (before "=" tok) "time").
    + destruct (after "=" tok) as [r|]; [|discriminate].
      destruct (strptime (before "=" r) _DATE_FMT); cbn [bind] in Hrun;
        [|discriminate].
      apply (IH _ _ Hrun); assumption.
    + destruct (int (before "=" tok)) as [idx|]; cbn [bind] in Hrun;
        [|discriminate].
      destruct (after "=" tok) as [r|]; [|discriminate].
      destruct (int (before "=" r)) as [answer|]; cbn [bind] in Hrun;
        [|discriminate].
      unfold getitem in Hrun.
      destruct (dict_get mapping idx) as [category|] eqn:Hm;
        cbn [bind] in Hrun; [|discriminate].
      assert (Hfresh : dict_get (result_q st) idx = None).
      { apply dict_get_None. intros Hin. cbn [app] in Hnd.
        apply NoDup_remove_2 in Hnd. apply Hnd.
        apply in_or_app. now left. }
      apply (IH _ _ Hrun); cbn [result_q result_c].
      * rewrite keys_dict_set. unfold dict_mem. rewrite Hfresh.
        now rewrite <- app_assoc.
      * rewrite dict_set_absent by exact Hfresh.
        now apply recompute_snoc.
Qed.

(** X7. For a session read from a line that repeats no question id, the
    totals [plot_results_categories] recomputes are the very dict
    [read_results] stored as [result_c]: same categories, same order,
    same totals. *)
Theorem recompute_totals_of_read (infile : string) (mapping : dict Z string)
  (sessions : list session) (i : nat) (lines : string) (s : session) :
  read_results infile mapping = Ok sessions ->
  nth_error (readlines infile) i = Some lines ->
  nth_error sessions i = Some s ->
  NoDup (token_ids (tokens lines)) ->
  recompute_totals (result_q s) mapping = Ok (result_c s).
Proof.
  intros Hrun Hline Hs Hnd. rewrite read_results_mapM in Hrun.
  apply mapM_Forall2 in Hrun.
  destruct (Forall2_nth_error_left _ _ _ Hrun i lines Hline) as (s' & Hs' & Hread).
  assert (s' = s) by congruence. subst s'.
  apply (read_tokens_recompute mapping (tokens lines) new_session s Hread);
    [exact Hnd | reflexivity].
Qed.

Lemma recompute_totals_of_read_witness :
  recompute_totals [(0, 1); (1, 4); (2, 3)]
    [(0, "mental"); (1, "physical"); (2, "mental")]
  = Ok [("mental", 4); ("physical", 4)].
Proof.
  apply (recompute_totals_of_read ("0=1 1=4 2=3" ++ String nl "")
           [(0, "mental"); (1, "physical"); (2, "mental")]
           [mk_session None [(0, 1); (1, 4); (2, 3)]
              [("mental", 4); ("physical", 4)]] 0
           ("0=1 1=4 2=3" ++ String nl "")
           (mk_session None [(0, 1); (1, 4); (2, 3)]
              [("mental", 4); ("physical", 4)])).
  - reflexivity.
  - reflexivity.
  - reflexivity.
  - repeat constructor; simpl; intuition discriminate.
Defined.

(** * Further properties of the table primitive *)

Lemma Forall_list_set {A : Type} (P : A -> Prop) (l : list A) (i : nat) (x : A) :
  Forall P l -> P x -> Forall P (list_set l i x).
Proof.
  intros Hl Hx. revert i. induction Hl as [|y l Hy Hl IH]; intros [|i];
    cbn [list_set]; constructor; auto.
Qed.

Lemma index_out_of_range {A : Type} (l : list A) (i : nat) :
  (List.length l <= i)%nat -> index l i = Raise IndexError.
Proof.
  intros Hi. unfold index. now rewrite (proj2 (nth_error_None l i) Hi).
Qed.

Lemma widen_row_cases (row : list string) :
  forall (i : nat) (col_len : list Z),
    Forall (fun w => 2 <= w) col_len ->
    match widen_row row i col_len with
    | Ok col_len' =>
        (row = [] \/ (i + List.length row <= List.length col_len)%nat) /\
        List.length col_len' = List.length col_len /\
        Forall (fun w => 2 <= w) col_len'
    | Raise e =>
        e = IndexError /\ row <> [] /\
        (List.length col_len < i + List.length row)%nat
    end.
Proof.
  induction row as [|col rest IH]; intros i col_len Hge.
  - cbn [widen_row]. repeat split; auto.
  - cbn [widen_row List.length].
    destruct (Nat.lt_ge_cases i (List.length col_len)) as [Hi|Hi].
    + rewrite (index_nth col_len i 0 Hi). cbn [bind].
      set (cl := if len col >=? nth i col_len 0 - 2
                 then list_set col_len i (len col + 2) else col_len).
      assert (Hcl : List.length cl = List.length col_len /\
                    Forall (fun w => 2 <= w) cl).
      { unfold cl. destruct (_ >=? _); [|now split].
        split; [apply length_list_set|].
        apply Forall_list_set; [exact Hge|].
        pose proof (len_nonneg col). lia. }
      destruct Hcl as [Hlen Hge'].
      specialize (IH (S i) cl Hge').
      destruct (widen_row rest (S i) cl) as [c'|e].
      * destruct IH as (Hfit & Hl & Hg). split; [|split; [congruence | exact Hg]].
        right. destruct Hfit as [->|Hfit]; simpl; lia.
      * destruct IH as (He & Hne & Hover). split; [exact He|].
        split; [discriminate | lia].
    + rewrite (index_out_of_range col_len i Hi). cbn [bind].
      split; [reflexivity|]. split; [discriminate | lia].
Qed.

Lemma column_widths_cases (n : nat) (table : list (list string)) :
  forall col_len : list Z,
    List.length col_len = n ->
    Forall (fun w => 2 <= w) col_len ->
    match foldM (fun col_len row => widen_row row 0 col_len) table col_len with
    | Ok col_len' =>
        Forall (fun row => (List.length row <= n)%nat) table /\
        List.length col_len' = n /\
        Forall (fun w => 2 <= w) col_len'
    | Raise e =>
        e = IndexError /\
        Exists (fun row => (n < List.length row)%nat) table
    end.
Proof.
  induction table as [|row table IH]; intros col_len Hlen Hge.
  - cbn [foldM]. repeat split; auto.
  - cbn [foldM]. pose proof (widen_row_cases row 0 col_len Hge) as Hrow.
    destruct (widen_row row 0 col_len) as [c1|e]; cbn [bind].
    + destruct Hrow as (Hfit & Hl1 & Hg1).
      specialize (IH c1 ltac:(congruence) Hg1).
      destruct (foldM _ table c1) as [c2|e].
      * destruct IH as (Hall & Hl2 & Hg2). split; [|now split].
        constructor; [|exact Hall].
        destruct Hfit as [->|Hfit]; simpl in *; lia.
      * destruct IH as [He Hex]. split; [exact He | now right].
    + destruct Hrow as (He & _ & Hover). split; [exact He|].
      left. simpl in Hover. lia.
Qed.

Lemma length_table_lines (col_len : list Z) (table : list (list string))
  (title : string) (headings : list string) :
  List.length (table_lines col_len table title headings)
  = (5 + 2 * List.length table)%nat.
Proof.
  unfold table_lines. cbn [List.length]. do 5 f_equal.
  induction table as [|row table IH]; [reflexivity|].
  cbn [flat_map app List.length]. rewrite IH. lia.
Qed.

(** X8. [generate_rst_table] returns exactly when there is at least one
    heading and no row has more cells than there are headings; the table
    then has five lines and two more for every row. It raises
    [IndexError] when some row has more cells than there are headings,
    and [ValueError] when there is no heading at all (and then no row has
    a cell); it raises nothing else. *)
Theorem generate_rst_table_cases (table : list (list string))
  (title : string) (headings : list string) :
  match generate_rst_table table title headings with
  | Ok lines =>
      headings <> [] /\
      Forall (fun row => (List.length row <= List.length headings)%nat) table /\
      List.length lines = (5 + 2 * List.length table)%nat
  | Raise e =>
      (e = IndexError /\
       Exists (fun row => (List.length headings < List.length row)%nat) table)
      \/
      (e = ValueError /\ headings = [] /\ Forall (fun row => row = []) table)
  end.
Proof.
  pose proof (column_widths_cases (List.length headings) table
                (map (fun col => len col + 2) headings)) as Hcol.
  assert (Hinit : Forall (fun w => 2 <= w)
                    (map (fun col => len col + 2) headings)).
  { apply Forall_forall. intros w Hw. apply in_map_iff in Hw as (h & <- & _).
    pose proof (len_nonneg h). lia. }
  specialize (Hcol (length_map _ _) Hinit).
  destruct (foldM _ table _) as [col_len|e] eqn:Hrun.
  - destruct Hcol as (Hall & Hlen & Hge).
    destruct headings as [|h headings].
    + destruct col_len; [|discriminate].
      unfold generate_rst_table, column_widths.
      rewrite Hrun. cbn. right. split; [reflexivity|]. split; [reflexivity|].
      eapply Forall_impl; [|exact Hall].
      intros [|c row] Hrow; [reflexivity | simpl in Hrow; lia].
    + pose proof (sum_ge col_len Hge) as Hsum.
      rewrite (generate_rst_table_lines table title (h :: headings) col_len).
      * split; [discriminate|]. split; [exact Hall|].
        apply length_table_lines.
      * exact Hrun.
      * now apply Forall_ge_weaken.
      * rewrite Hlen. simpl List.length in *. lia.
  - destruct Hcol as [He Hex]. unfold generate_rst_table, column_widths.
    rewrite Hrun. cbn [bind]. left. now split.
Qed.

(** X9. For rows of the arity of the headings (and at least one heading)
    every line but the title line is [width + 2] characters long, where
    [width = len(col_len) + sum(col_len) - 1]; the title line is
    [max(len(title), width) + 2] long, so a title longer than [width]
    sticks out of the table by the difference. *)
Theorem generate_rst_table_title_line (table : list (list string))
  (title : string) (headings : list string) :
  same_arity headings table ->
  headings <> [] ->
  exists (col_len : list Z) (topline str_header : string)
         (body : list string),
    column_widths table headings = Ok col_len /\
    generate_rst_table table title headings
      = Ok (topline :: str_header :: body) /\
    let width := Z.of_nat (List.length col_len) + sum col_len - 1 in
    len str_header = Z.max (len title) width + 2 /\
    Forall (fun line => len line = width + 2) (topline :: body).
Proof.
  intros Harity Hne.
  destruct (column_widths_spec table headings Harity)
    as (col_len & Hcol & _ & _).
  destruct (widths_facts table headings col_len Harity Hcol)
    as (Hlen & Hge & Hhead & Hrows).
  pose proof (Forall_ge_weaken col_len Hge) as Hw.
  pose proof (sum_ge col_len Hge) as Hsum.
  assert (Hn : (0 < List.length col_len)%nat).
  { rewrite Hlen. destruct headings; [congruence | simpl; lia]. }
  exists col_len.
  rewrite (generate_rst_table_lines table title headings col_len Hcol Hw)
    by lia.
  unfold table_lines. do 3 eexists. split; [exact Hcol|].
  split; [reflexivity|]. cbv zeta.
  set (width := Z.of_nat (List.length col_len) + sum col_len - 1).
  pose proof (len_nonneg title) as Ht.
  split.
  - rewrite !len_append, len_repeat_char. change (len "|") with 1. lia.
  - repeat apply Forall_cons.
    + rewrite !len_append, len_repeat_char. change (len "+") with 1. lia.
    + rewrite len_rule by exact Hw. unfold width. lia.
    + rewrite len_row_text by exact Hhead. unfold width. lia.
    + rewrite len_replace_char, len_rule by exact Hw. unfold width. lia.
    + apply Forall_flat_map. apply Forall_forall. intros row Hin.
      repeat constructor.
      * rewrite len_row_text by auto. unfold width. lia.
      * rewrite len_rule by exact Hw. unfold width. lia.
Qed.

Lemma generate_rst_table_title_line_witness :
  exists (col_len : list Z) (topline str_header : string)
         (body : list string),
    column_widths [["0"; "Q"; "1"]] ["ID"; "Question"; "Answer"]
      = Ok col_len /\
    generate_rst_table [["0"; "Q"; "1"]]
      "A title that is longer than the whole table"
      ["ID"; "Question"; "Answer"] = Ok (topline :: str_header :: body) /\
    let width := Z.of_nat (List.length col_len) + sum col_len - 1 in
    len str_header
      = Z.max (len "A title that is longer than the whole table") width + 2 /\
    Forall (fun line => len line = width + 2) (topline :: body).
Proof.
  apply (generate_rst_table_title_line [["0"; "Q"; "1"]]
           "A title that is longer than the whole table"
           ["ID"; "Question"; "Answer"]).
  - repeat constructor.
  - discriminate.
Defined.

(** * The reports *)

Example all_rows_example :
  all_rows [(1, 5); (0, 2)] [(0, "Q0"); (1, "Q1")]
    [(0, "mental"); (1, "technique")]
  = Ok ([["0"; "Q0"; "2*"]; ["1"; "Q1"; "5"]],
        [("mental", [["0"; "Q0"; "2*"]]); ("technique", [["1"; "Q1"; "5"]])]).
Proof. reflexivity. Qed.

Lemma all_step_spec (result_q0 : dict Z Z) (questions mapping : dict Z string)
  (answers : list (list string)) (categories : dict string (list (list string)))
  (done : list (Z * Z)) (idx : Z) :
  In idx (keys result_q0) ->
  dict_get mapping idx <> None -> dict_get questions idx <> None ->
  answers = map (marked_row questions) done ->
  (forall c : string,
     dict_get categories c
     = nonempty (map (marked_row questions) (filter (maps_to mapping c) done))) ->
  exists (answers' : list (list string))
         (categories' : dict string (list (list string))),
    all_step result_q0 questions mapping (answers, categories) idx
      = Ok (answers', categories') /\
    answers' = map (marked_row questions)
                 (done ++ [(idx, lookup result_q0 idx)]) /\
    forall c : string,
      dict_get categories' c
      = nonempty (map (marked_row questions)
                    (filter (maps_to mapping c)
                       (done ++ [(idx, lookup result_q0 idx)]))).
Proof.
  intros Hin Hm Hq Hans Hinv. unfold all_step.
  rewrite (getitem_lookup _ _ Hin). cbn [bind].
  set (answer := lookup result_q0 idx).
  destruct (dict_get mapping idx) as [category|] eqn:Em; [|congruence].
  destruct (dict_get questions idx) as [q|] eqn:Eq; [|congruence].
  rewrite (getitem_Some _ _ _ Em). cbn [bind].
  set (rows0 := map (marked_row questions) (filter (maps_to mapping category) done)).
  set (cats1 := if dict_mem categories category then categories
                else dict_set categories category []).
  assert (H1 : dict_get cats1 category = Some rows0
               /\ forall c, c <> category -> dict_get cats1 c = dict_get categories c).
  { unfold cats1, dict_mem. pose proof (Hinv category) as Hc. fold rows0 in Hc.
    destruct (dict_get categories category) as [rows|] eqn:E.
    - split; [|auto]. rewrite E, Hc. destruct rows0; [discriminate | reflexivity].
    - split.
      + rewrite dict_get_set_same. destruct rows0; [reflexivity | discriminate].
      + intros c Hc'. now apply dict_get_set_other. }
  destruct H1 as [Hget Hother].
  rewrite (getitem_Some _ _ _ Hget). cbn [bind].
  rewrite (getitem_Some _ _ _ Eq). cbn [bind].
  assert (Hrow : [str idx; q;
                  if answer <=? 3 then str answer ++ "*" else str answer]
                 = marked_row questions (idx, answer)).
  { unfold marked_row, question_text. cbn [fst snd]. rewrite Eq.
    destruct (answer <=? 3); [reflexivity | now rewrite append_nil_r]. }
  rewrite Hrow. do 2 eexists. split; [reflexivity|]. split.
  - now rewrite Hans, map_app.
  - intros c. rewrite filter_app. cbn [filter]. unfold maps_to at 2.
    cbn [fst]. rewrite Em.
    destruct (String.eqb_spec category c) as [<-|Hne].
    + rewrite dict_get_set_same, map_app. cbn [map]. fold rows0.
      now rewrite nonempty_snoc.
    + rewrite dict_get_set_other by congruence.
      rewrite Hother by congruence. now rewrite app_nil_r.
Qed.

Lemma all_rows_from (result_q0 : dict Z Z) (questions mapping : dict Z string)
  (ks : list Z) :
  forall (answers : list (list string))
         (categories : dict string (list (list string)))
         (done : list (Z * Z)),
    (forall idx, In idx ks ->
       In idx (keys result_q0) /\
       dict_get mapping idx <> None /\ dict_get questions idx <> None) ->
    answers = map (marked_row questions) done ->
    (forall c : string,
       dict_get categories c
       = nonempty (map (marked_row questions)
                     (filter (maps_to mapping c) done))) ->
    exists (answers' : list (list string))
           (categories' : dict string (list (list string))),
      foldM (all_step result_q0 questions mapping) ks (answers, categories)
        = Ok (answers', categories') /\
      answers' = map (marked_row questions)
                   (done ++ map (fun key => (key, lookup result_q0 key)) ks) /\
      forall c : string,
        dict_get categories' c
        = nonempty (map (marked_row questions)
                      (filter (maps_to mapping c)
                         (done ++ map (fun key => (key, lookup result_q0 key))
                                    ks))).
Proof.
  induction ks as [|idx ks IH]; intros answers categories done Hcov Hans Hinv.
  - exists answers, categories. cbn [foldM map]. rewrite app_nil_r.
    now repeat split.
  - destruct (Hcov idx (or_introl eq_refl)) as (Hin & Hm & Hq).
    destruct (all_step_spec result_q0 questions mapping answers categories
                done idx Hin Hm Hq Hans Hinv)
      as (a1 & c1 & Hstep & Ha1 & Hc1).
    destruct (IH a1 c1 (done ++ [(idx, lookup result_q0 idx)])%list)
      as (a2 & c2 & Hrun & Ha2 & Hc2); auto.
    { intros i Hi. apply Hcov. now right. }
    exists a2, c2. cbn [foldM]. rewrite Hstep. cbn [bind].
    split; [exact Hrun|]. cbn [map].
    rewrite <- app_assoc in Ha2. split; [exact Ha2|].
    intros c. rewrite Hc2, <- app_assoc. reflexivity.
Qed.

(** X10. For a session whose ids all have a category and a question text,
    the full report has one row per answer in ascending id order, the
    answer marked with a star exactly when it is at most 3; and the table
    of a category holds the rows of that category's questions, in the same
    order (a category without a question has no table). *)
Theorem all_rows_spec (result_q0 : dict Z Z) (questions mapping : dict Z string) :
  covered questions mapping result_q0 ->
  exists (answers : list (list string))
         (categories : dict string (list (list string))),
    all_rows result_q0 questions mapping = Ok (answers, categories) /\
    answers
    = map (fun item =>
             [str (fst item); question_text questions (fst item);
              str (snd item) ++ (if snd item <=? 3 then "*" else "")])
          (sorted_items result_q0) /\
    forall category : string,
      dict_get categories category
      = nonempty
          (map (fun item =>
                  [str (fst item); question_text questions (fst item);
                   str (snd item) ++ (if snd item <=? 3 then "*" else "")])
               (filter (maps_to mapping category) (sorted_items result_q0))).
Proof.
  intros Hcov. unfold all_rows.
  destruct (all_rows_from result_q0 questions mapping
              (sorted Z.leb (keys result_q0)) [] [] [])
    as (answers & categories & Hrun & Ha & Hc); auto.
  - intros idx Hin.
    apply (Permutation_in _ (sorted_perm Z.leb (keys result_q0))) in Hin.
    destruct (Hcov idx Hin). auto.
  - exists answers, categories. split; [exact Hrun|]. split; [exact Ha|].
    exact Hc.
Qed.

Lemma all_rows_spec_witness :
  exists (answers : list (list string))
         (categories : dict string (list (list string))),
    all_rows [(1, 5); (0, 2)] [(0, "Q0"); (1, "Q1")]
      [(0, "mental"); (1, "technique")] = Ok (answers, categories) /\
    answers
    = map (fun item =>
             [str (fst item);
              question_text [(0, "Q0"); (1, "Q1")] (fst item);
              str (snd item) ++ (if snd item <=? 3 then "*" else "")])
          (sorted_items [(1, 5); (0, 2)]) /\
    forall category : string,
      dict_get categories category
      = nonempty
          (map (fun item =>
                  [str (fst item);
                   question_text [(0, "Q0"); (1, "Q1")] (fst item);
                   str (snd item) ++ (if snd item <=? 3 then "*" else "")])
               (filter (maps_to [(0, "mental"); (1, "technique")] category)
                  (sorted_items [(1, 5); (0, 2)]))).
Proof.
  apply (all_rows_spec [(1, 5); (0, 2)] [(0, "Q0"); (1, "Q1")]
           [(0, "mental"); (1, "technique")]).
  intros idx [<-|[<-|[]]]; split; discriminate.
Defined.

Lemma mapM_raises {A B : Type} (f : A -> result B) (l : list A) (x : A) (e : exn) :
  In x l -> f x = Raise e -> exists e' : exn, mapM f l = Raise e'.
Proof.
  induction l as [|y l IH]; intros Hin Hx; [destruct Hin|].
  cbn [mapM]. destruct (f y) as [b|e1] eqn:Ey; cbn [bind]; [|now exists e1].
  destruct Hin as [->|Hin]; [congruence|].
  destruct (IH Hin Hx) as [e' He']. rewrite He'. now exists e'.
Qed.

Lemma read_line_no_time (mapping : dict Z string) (lines : string) (s : session) :
  read_line mapping lines = Ok s -> no_time_token lines -> time s = None.
Proof.
  intros Hread Hno.
  destruct (read_line_well_formed mapping lines
              (read_line_returns mapping lines s Hread)) as (s' & Hs' & Ht).
  rewrite Hread in Hs'. injection Hs' as <-. now apply Ht.
Qed.

(** X11. Neither report can be printed from a results file that has a line
    without a [time] token: the session of such a line has no timestamp,
    and both [table_results_low_questions] and
    [table_results_all_questions] raise on it instead of returning. *)
Theorem reports_need_timestamps (infile : string)
  (questions mapping : dict Z string) (sessions : list session) :
  read_results infile mapping = Ok sessions ->
  Exists no_time_token (readlines infile) ->
  (exists e : exn,
     table_results_low_questions sessions questions mapping = Raise e) /\
  (exists e : exn,
     table_results_all_questions sessions questions mapping = Raise e).
Proof.
  intros Hrun Hex. rewrite read_results_mapM in Hrun.
  apply mapM_Forall2 in Hrun.
  assert (Hs : exists s, In s sessions /\ time s = None).
  { induction Hrun as [|lines s ls ss Hline _ IH].
    - inversion Hex.
    - inversion Hex as [? ? Hno|? ? Hrest]; subst.
      + exists s. split; [now left|]. now apply (read_line_no_time mapping lines).
      + destruct (IH Hrest) as (s' & Hin & Ht). exists s'. split; [now right | exact Ht]. }
  destruct Hs as (s & Hin & Ht). split.
  - unfold table_results_low_questions.
    destruct (mapM_raises (low_report questions mapping) sessions s
                AttributeError Hin) as [e He].
    { unfold low_report. now rewrite Ht. }
    exists e. now rewrite He.
  - unfold table_results_all_questions.
    destruct (mapM_raises (all_report questions mapping) sessions s
                AttributeError Hin) as [e He].
    { unfold all_report. now rewrite Ht. }
    exists e. now rewrite He.
Qed.

Lemma reports_need_timestamps_witness :
  (exists e : exn,
     table_results_low_questions [mk_session None [(0, 1)] [("mental", 1)]]
       [(0, "Q0")] [(0, "mental")] = Raise e) /\
  (exists e : exn,
     table_results_all_questions [mk_session None [(0, 1)] [("mental", 1)]]
       [(0, "Q0")] [(0, "mental")] = Raise e).
Proof.
  apply (reports_need_timestamps ("0=1" ++ String nl "") [(0, "Q0")]
           [(0, "mental")] [mk_session None [(0, 1)] [("mental", 1)]]).
  - reflexivity.
  - left. reflexivity.
Defined.

Lemma generate_rst_table_ok (table : list (list string)) (title : string)
  (headings : list string) :
  headings <> [] ->
  Forall (fun row => (List.length row <= List.length headings)%nat) table ->
  exists lines : list string,
    generate_rst_table table title headings = Ok lines.
Proof.
  intros Hne Hall.
  pose proof (column_widths_cases (List.length headings) table
                (map (fun col => len col + 2) headings)) as Hcol.
  assert (Hinit : Forall (fun w => 2 <= w)
                    (map (fun col => len col + 2) headings)).
  { apply Forall_forall. intros w Hw. apply in_map_iff in Hw as (h & <- & _).
    pose proof (len_nonneg h). lia. }
  specialize (Hcol (length_map _ _) Hinit).
  destruct (foldM _ table _) as [col_len|e] eqn:Hrun.
  - destruct Hcol as (_ & Hlen & Hge).
    pose proof (sum_ge col_len Hge) as Hsum.
    eexists. apply (generate_rst_table_lines table title headings col_len).
    + exact Hrun.
    + now apply Forall_ge_weaken.
    + rewrite Hlen. destruct headings; [congruence | simpl List.length in *; lia].
  - destruct Hcol as [_ Hex]. exfalso.
    apply Exists_exists in Hex as (row & Hin & Hlong).
    rewrite Forall_forall in Hall. specialize (Hall row Hin). lia.
Qed.

Lemma mapM_first_error {A B : Type} (f : A -> result B) (e0 : exn) (l : list A) :
  (forall x, In x l -> (exists y, f x = Ok y) \/ f x = Raise e0) ->
  match mapM f l with
  | Ok _ => forall x, In x l -> exists y, f x = Ok y
  | Raise e => e = e0 /\ exists x, In x l /\ f x = Raise e0
  end.
Proof.
  induction l as [|x l IH]; intros Hf.
  - cbn [mapM]. intros x [].
  - cbn [mapM]. destruct (Hf x (or_introl eq_refl)) as [[y Hy]|Hx].
    + rewrite Hy. cbn [bind].
      specialize (IH (fun z Hz => Hf z (or_intror Hz))).
      destruct (mapM f l) as [ys|e]; cbn [bind].
      * intros z [<-|Hz]; [now exists y | now apply IH].
      * destruct IH as (He & z & Hz & Hfz). split; [exact He|].
        exists z. split; [now right | exact Hfz].
    + rewrite Hx. cbn [bind]. split; [reflexivity|].
      exists x. split; [now left | exact Hx].
Qed.

(** X12. For a session with a timestamp whose ids all have a category and
    a question text, the low-scoring report is printed exactly when the
    category of every answer of at most 3 is one of [mental],
    [technique], [physical]; it then starts with an empty line and the
    line [Results for questions on <timestamp>]. Otherwise it raises
    [KeyError]. *)
Theorem low_report_cases (questions mapping : dict Z string) (s : session)
  (t : datetime) :
  time s = Some t ->
  covered questions mapping (result_q s) ->
  match low_report questions mapping s with
  | Ok lines =>
      low_categories_named mapping (result_q s) /\
      firstn 2 lines
      = [""; "Results for questions on " ++ strftime t _DATE_FMT]
  | Raise e =>
      e = KeyError /\
      exists (idx answer : Z) (category : string),
        In (idx, answer) (result_q s) /\ answer <= 3 /\
        dict_get mapping idx = Some category /\
        dict_get CATEGORIES category = None
  end.
Proof.
  intros Ht Hcov. unfold low_report. rewrite Ht. cbn [strftime_of bind].
  destruct (low_tables_spec questions mapping (result_q s) Hcov)
    as (tables & Hrun & _ & Htab).
  rewrite Hrun. cbn [bind].
  set (render := fun t0 : string * list (list string) =>
                   name <- getitem CATEGORIES (fst t0) ;;
                   generate_rst_table (snd t0)
                     ("Lowest scoring in category " ++ String dquote name
                        ++ String dquote "")
                     ["ID"; "Question"; "Answer"]).
  assert (Hrender : forall t0, In t0 tables ->
            (exists y, render t0 = Ok y) \/ render t0 = Raise KeyError).
  { intros [c rows] Hin. unfold render, getitem. cbn [fst snd].
    destruct (dict_get CATEGORIES c) as [name|]; cbn [bind]; [left | now right].
    apply generate_rst_table_ok; [discriminate|].
    apply Htab in Hin as [-> _]. apply Forall_forall. intros row Hrow.
    apply in_low_rows in Hrow as (idx & answer & _ & _ & _ & ->).
    simpl. lia. }
  pose proof (mapM_first_error render KeyError tables Hrender) as Hm.
  destruct (mapM render tables) as [printed|e]; cbn [bind].
  - split; [|reflexivity].
    intros idx answer category Hin Hle Hc Hnone.
    assert (Hrow : In (low_row questions (idx, answer))
                     (low_rows questions mapping category (result_q s))).
    { apply in_low_rows. now exists idx, answer. }
    assert (Hin' : In (category, low_rows questions mapping category (result_q s))
                     tables).
    { apply Htab. split; [reflexivity|]. intros E. rewrite E in Hrow.
      destruct Hrow. }
    destruct (Hm _ Hin') as [y Hy]. unfold render, getitem in Hy.
    cbn [fst] in Hy. rewrite Hnone in Hy. discriminate.
  - destruct Hm as (He & [c rows] & Hin & Hfail). split; [exact He|].
    unfold render, getitem in Hfail. cbn [fst snd] in Hfail.
    destruct (dict_get CATEGORIES c) as [name|] eqn:Ec.
    + cbn [bind] in Hfail. exfalso.
      destruct (generate_rst_table_ok rows
                  ("Lowest scoring in category " ++ String dquote name
                     ++ String dquote "")
                  ["ID"; "Question"; "Answer"]) as [lines Hl];
        [discriminate | | congruence].
      apply Htab in Hin as [-> _]. apply Forall_forall. intros row Hrow.
      apply in_low_rows in Hrow as (idx & answer & _ & _ & _ & ->).
      simpl. lia.
    + apply Htab in Hin as [-> Hne].
      destruct (low_rows questions mapping c (result_q s)) as [|row rows']
        eqn:E; [congruence|].
      assert (Hrow : In row (low_rows questions mapping c (result_q s)))
        by (rewrite E; now left).
      apply in_low_rows in Hrow as (idx & answer & Hin & Hle & Hc & _).
      now exists idx, answer, c.
Qed.

Lemma low_report_cases_witness :
  match low_report [(0, "Q0"); (1, "Q1")] [(0, "mental"); (1, "stamina")]
          (mk_session (Some (mk_datetime 2026 11 3 22 47 5 123))
             [(0, 2); (1, 1)] [("mental", 2); ("stamina", 1)]) with
  | Ok lines =>
      low_categories_named [(0, "mental"); (1, "stamina")] [(0, 2); (1, 1)] /\
      firstn 2 lines
      = [""; "Results for questions on "
               ++ strftime (mk_datetime 2026 11 3 22 47 5 123) _DATE_FMT]
  | Raise e =>
      e = KeyError /\
      exists (idx answer : Z) (category : string),
        In (idx, answer) [(0, 2); (1, 1)] /\ answer <= 3 /\
        dict_get [(0, "mental"); (1, "stamina")] idx = Some category /\
        dict_get CATEGORIES category = None
  end.
Proof.
  apply (low_report_cases [(0, "Q0"); (1, "Q1")]
           [(0, "mental"); (1, "stamina")]
           (mk_session (Some (mk_datetime 2026 11 3 22 47 5 123))
              [(0, 2); (1, 1)] [("mental", 2); ("stamina", 1)])
           (mk_datetime 2026 11 3 22 47 5 123)).
  - reflexivity.
  - intros idx [<-|[<-|[]]]; split; discriminate.
Defined.

(** * The two scripts together *)

Example alt_store_results_example :
  Alt.store_results "" [(1, 0); (0, 0)] (mk_datetime 2026 11 3 22 47 5 123)
  = Ok ("time: " ++ String dquote "03.11.2026 22:47:05"
          ++ String dquote " answers: 0=0 1=0 " ++ String nl "").
Proof. reflexivity. Qed.

Lemma zfill_word_chars (w : nat) (n : Z) :
  all_chars word_char (zfill w n) = true.
Proof. apply word_chars_from_token_chars, zfill_token_chars. Qed.

Lemma alt_line_tokens_words (result_q : dict Z Z) (t : datetime) :
  Forall word (alt_line_tokens result_q t).
Proof.
  unfold alt_line_tokens. repeat apply Forall_cons.
  - split; [discriminate | reflexivity].
  - split; [discriminate|]. cbn [all_chars].
    change (word_char dquote) with true. cbn [andb].
    repeat (rewrite all_chars_append, zfill_word_chars; cbn [all_chars andb];
            try change (word_char ".") with true; cbn [andb]).
    apply word_chars_from_token_chars, str_token_chars.
  - split.
    + pose proof (length_zfill 2 (hour t)) as Hl.
      destruct (zfill 2 (hour t)); [discriminate | discriminate].
    + repeat (rewrite all_chars_append, zfill_word_chars; cbn [all_chars andb];
              try change (word_char ":") with true; cbn [andb]).
      reflexivity.
  - split; [discriminate | reflexivity].
  - apply Forall_forall. intros tok Hin.
    apply in_map_iff in Hin as (k & <- & _). apply answer_token_word.
Qed.

Lemma alt_result_line_tokens (result_q : dict Z Z) (t : datetime) :
  Alt.result_line result_q t
  = Ok (join " " (alt_line_tokens result_q t ++ [String nl ""])).
Proof.
  unfold Alt.result_line.
  rewrite (mapM_ok _ (fun key => answer_token key (lookup result_q key))).
  2:{ intros key Hin.
      apply (Permutation_in _ (sorted_perm Z.leb (keys result_q))) in Hin.
      now rewrite (getitem_lookup _ _ Hin). }
  cbn [bind]. f_equal. unfold alt_line_tokens.
  set (toks := map _ _).
  assert (Hs : strftime t Alt._DATE_FMT
               = zfill 2 (day t) ++ String "."
                   (zfill 2 (month t) ++ String "."
                      (str (year t) ++ String " "
                         (zfill 2 (hour t) ++ String ":"
                            (zfill 2 (minute t) ++ String ":"
                               (zfill 2 (second t) ++ ""))))))
    by reflexivity.
  rewrite Hs. cbn [app join]. clear Hs.
  generalize (zfill 2 (day t)) (zfill 2 (month t)) (str (year t))
    (zfill 2 (hour t)) (zfill 2 (minute t)) (zfill 2 (second t)).
  intros D M Y h m sec.
  generalize (match (toks ++ [String nl ""])%list with
              | [] => "answers:"
              | _ :: _ => "answers:" ++ " " ++ join " " (toks ++ [String nl ""])
              end).
  intros R. cbn [append]. do 2 f_equal.
  repeat (rewrite append_assoc; cbn [append]).
  reflexivity.
Qed.

Lemma line_of_words (ws : list string) :
  ws <> [] -> Forall word ws ->
  readlines (join " " (ws ++ [String nl ""]))
  = [join " " (ws ++ [String nl ""])] /\
  tokens (join " " (ws ++ [String nl ""])) = ws.
Proof.
  intros Hne Hws. split; [|now apply words_of_line].
  rewrite join_snoc by exact Hne. rewrite <- append_assoc.
  apply readlines_one_line.
  rewrite all_chars_append, join_line_chars by exact Hws. reflexivity.
Qed.

(** X13. The two scripts do not share a file format: the line the
    alternate script's [store_results] appends starts with the token
    [time:], which the reporting script's [read_results] takes for a
    question id, so reading a readable file after such an append raises
    [ValueError], whatever the session. *)
Theorem alt_store_results_unreadable (outfile : string) (result_q0 : dict Z Z)
  (t : datetime) (mapping : dict Z string) (sessions : list session) :
  complete outfile = true ->
  read_results outfile mapping = Ok sessions ->
  exists infile : string,
    Alt.store_results outfile result_q0 t = Ok infile /\
    read_results infile mapping = Raise ValueError.
Proof.
  intros Hcomplete Hold. unfold Alt.store_results.
  rewrite alt_result_line_tokens. cbn [bind]. eexists. split; [reflexivity|].
  destruct (line_of_words (alt_line_tokens result_q0 t))
    as [Hone Htoks]; [discriminate | apply alt_line_tokens_words |].
  rewrite read_results_concat by exact Hcomplete. rewrite Hold. cbn [bind].
  rewrite read_results_mapM, Hone. cbn [mapM]. unfold read_line.
  unfold tokens in Htoks. rewrite Htoks. reflexivity.
Qed.

Lemma alt_store_results_unreadable_witness :
  exists infile : string,
    Alt.store_results "" [(1, 0); (0, 0)] (mk_datetime 2026 11 3 22 47 5 123)
      = Ok infile /\
    read_results infile [(0, "mental"); (1, "technique")] = Raise ValueError.
Proof.
  apply (alt_store_results_unreadable "" [(1, 0); (0, 0)]
           (mk_datetime 2026 11 3 22 47 5 123)
           [(0, "mental"); (1, "technique")] []); reflexivity.
Defined.

(** * The question catalog *)

Example read_questions_example :
  read_questions ("Q0 | mental" ++ String nl ("Q1|technique | x" ++ String nl ""))
  = Ok ([(0, "Q0"); (1, "Q1")], [(0, "mental"); (1, "technique")]) /\
  read_questions ("Q0 | mental" ++ String nl ("Q1" ++ String nl ""))
  = Raise IndexError.
Proof. split; reflexivity. Qed.

Lemma keys_enumerate_bound {A : Type} (l : list A) :
  forall (i k : Z), In k (keys (enumerate i l)) ->
    i <= k < i + Z.of_nat (List.length l).
Proof.
  induction l as [|x l IH]; intros i k Hin; [destruct Hin|].
  cbn [enumerate keys map fst In List.length] in Hin |- *.
  rewrite Nat2Z.inj_succ. destruct Hin as [<-|Hin]; [lia|].
  apply IH in Hin. lia.
Qed.

Lemma dict_set_fresh_bound {V : Type} (d : dict Z V) (i : Z) (v : V) :
  (forall k, In k (keys d) -> k < i) ->
  dict_set d i v = (d ++ [(i, v)])%list.
Proof.
  intros Hb. apply dict_set_absent. apply dict_get_None.
  intros Hin. apply Hb in Hin. lia.
Qed.

Lemma keys_snoc_bound {V : Type} (d : dict Z V) (i : Z) (v : V) :
  (forall k, In k (keys d) -> k < i) ->
  forall k, In k (keys (d ++ [(i, v)])%list) -> k < i + 1.
Proof.
  intros Hb k Hin. unfold keys in Hin. rewrite map_app in Hin.
  apply in_app_or in Hin as [Hin|[<-|[]]]; [apply Hb in Hin; lia | simpl; lia].
Qed.

Lemma read_question_lines_spec (ls : list string) :
  forall (i : Z) (questions mapping : dict Z string),
    (forall k, In k (keys questions) -> k < i) ->
    (forall k, In k (keys mapping) -> k < i) ->
    match read_question_lines ls i questions mapping with
    | Ok (questions', mapping') =>
        existsb lacks_bar ls = false /\
        questions' = (questions ++ enumerate i (map question_field ls))%list /\
        mapping' = (mapping ++ enumerate i (map category_field ls))%list
    | Raise e => e = IndexError /\ existsb lacks_bar ls = true
    end.
Proof.
  induction ls as [|lines rest IH]; intros i questions mapping Hq Hm.
  - cbn. now rewrite !app_nil_r.
  - cbn [read_question_lines existsb map enumerate].
    rewrite index_split_on_0, index_split_on_1. cbn [bind].
    assert (Hbar : lacks_bar lines
                   = match after "|" lines with Some _ => false | None => true end)
      by reflexivity.
    assert (Hcat : category_field lines
                   = match after "|" lines with
                     | Some r => strip (before "|" r)
                     | None => ""
                     end) by reflexivity.
    rewrite Hbar, Hcat.
    destruct (after "|" lines) as [r|]; cbn [bind orb]; [|now split].
    rewrite (dict_set_fresh_bound questions i (strip (before "|" lines)) Hq).
    rewrite (dict_set_fresh_bound mapping i (strip (before "|" r)) Hm).
    specialize (IH (i + 1)
                   (questions ++ [(i, strip (before "|" lines))])%list
                   (mapping ++ [(i, strip (before "|" r))])%list
                   (keys_snoc_bound questions i _ Hq)
                   (keys_snoc_bound mapping i _ Hm)).
    destruct (read_question_lines rest (i + 1) _ _) as [[q' m']|e].
    + destruct IH as (Hok & -> & ->). split; [exact Hok|].
      unfold question_field at 2. now rewrite <- !app_assoc.
    + exact IH.
Qed.

Lemma keys_enumerate_map {A B C : Type} (f : A -> B) (g : A -> C) (l : list A) :
  forall i : Z, keys (enumerate i (map f l)) = keys (enumerate i (map g l)).
Proof.
  induction l as [|x l IH]; intros i; [reflexivity|].
  unfold keys in *. cbn [map enumerate fst]. f_equal. apply IH.
Qed.

(** X14. [read_questions] of the reporting script raises [IndexError]
    exactly when some line of the catalog has no bar, and otherwise
    returns two dicts with the same keys, the line numbers from 0 in
    order: the trimmed text in front of the first bar as the question, the
    trimmed text behind it (up to a second bar) as the category. *)
Theorem read_questions_spec (infile : string) :
  match read_questions infile with
  | Ok (questions, mapping) =>
      existsb lacks_bar (readlines infile) = false /\
      questions = enumerate 0 (map question_field (readlines infile)) /\
      mapping = enumerate 0 (map category_field (readlines infile)) /\
      keys questions = keys mapping
  | Raise e =>
      e = IndexError /\ existsb lacks_bar (readlines infile) = true
  end.
Proof.
  unfold read_questions.
  pose proof (read_question_lines_spec (readlines infile) 0 [] []) as H.
  destruct (read_question_lines (readlines infile) 0 [] []) as [[q m]|e].
  - destruct H as (Hok & -> & ->); [intros k [] | intros k [] |].
    cbn [app]. repeat split; auto. apply keys_enumerate_map.
  - apply H; intros k [].
Qed.

(** ** The alternate script from catalog to answers *)

Lemma alt_read_question_lines_ids (ls : list string) :
  forall (i : Z) (questions : list (Z * string)) (mapping : dict Z string)
         (questions' : list (Z * string)) (mapping' : dict Z string),
    Alt.read_question_lines ls i questions mapping = Ok (questions', mapping') ->
    questions' = (questions ++ enumerate i (map question_field ls))%list.
Proof.
  induction ls as [|lines rest IH]; intros i questions mapping qs' m' Hrun.
  - cbn in Hrun. injection Hrun as <- <-. now rewrite app_nil_r.
  - cbn [Alt.read_question_lines] in Hrun.
    rewrite index_split_on_0, index_split_on_1 in Hrun. cbn [bind] in Hrun.
    destruct (after "|" lines) as [r|]; cbn [bind] in Hrun; [|discriminate].
    apply IH in Hrun. rewrite Hrun, <- app_assoc. reflexivity.
Qed.

Lemma NoDup_keys_enumerate {A : Type} (l : list A) :
  forall i : Z, NoDup (keys (enumerate i l)).
Proof.
  induction l as [|x l IH]; intros i; [constructor|].
  cbn [enumerate keys map fst]. constructor; [|apply IH].
  intros Hin. apply keys_enumerate_bound in Hin. lia.
Qed.

Lemma enumerate_zero {A : Type} (l : list A) :
  forall i : Z,
    map (fun q => (fst q, 0)) (enumerate i l)
    = enumerate i (map (fun _ => 0) l).
Proof.
  induction l as [|x l IH]; intros i; [reflexivity|].
  cbn [enumerate map fst]. now rewrite IH.
Qed.

Lemma ask_questions_fresh (mapping : dict Z string)
  (questions : list (Z * string)) :
  catalogued mapping questions ->
  forall st : Alt.asked,
    NoDup (keys (Alt.asked_q st) ++ map fst questions) ->
    all_zero (Alt.asked_c st) ->
    exists st' : Alt.asked,
      foldM (Alt.ask_question mapping) questions st = Ok st' /\
      Alt.asked_q st'
      = (Alt.asked_q st ++ map (fun q => (fst q, 0)) questions)%list /\
      all_zero (Alt.asked_c st').
Proof.
  induction questions as [|[idx question] questions IH]; intros Hcat st Hnd Hz.
  - exists st. cbn [foldM map]. now rewrite app_nil_r.
  - assert (Hcat' : catalogued mapping questions).
    { intros i q Hin. apply (Hcat i q). now right. }
    destruct (dict_get mapping idx) as [category|] eqn:Hmap.
    2:{ exfalso. apply (Hcat idx question); [now left | exact Hmap]. }
    cbn [foldM]. rewrite (ask_question_step _ _ _ _ _ Hmap). cbn [bind].
    assert (Hfresh : dict_get (Alt.asked_q st) idx = None).
    { apply dict_get_None. intros Hin. cbn [map fst] in Hnd.
      apply NoDup_remove_2 in Hnd. apply Hnd. apply in_or_app. now left. }
    set (st1 := Alt.mk_asked _ _ _).
    destruct (IH Hcat' st1) as (st' & Hrun & Hq & Hc).
    + unfold st1. cbn [Alt.asked_q]. rewrite keys_dict_set. unfold dict_mem.
      rewrite Hfresh. cbn [map fst] in Hnd. now rewrite <- app_assoc.
    + unfold st1. cbn [Alt.asked_c]. now apply all_zero_add_total.
    + exists st'. split; [exact Hrun|]. split; [|exact Hc].
      rewrite Hq. unfold st1. cbn [Alt.asked_q map fst].
      rewrite dict_set_absent by exact Hfresh. now rewrite <- app_assoc.
Qed.

(** X15. The alternate script from catalog to answers: whatever catalog
    file [read_questions] accepts, [ask_questions] on what it returned
    does not fail; the per-question dict it returns holds the line
    numbers of the catalog from 0, in order, each with the answer 0, and
    every per-category total is 0. *)
Theorem alt_read_then_ask (infile : string) (scorings : dict string Z)
  (now : datetime) (questions : list (Z * string)) (mapping : dict Z string) :
  Alt.read_questions infile = Ok (questions, mapping) ->
  exists result_c : dict string Z,
    Alt.ask_questions questions scorings mapping now
    = Ok (enumerate 0 (map (fun _ => 0) (readlines infile)), result_c, now) /\
    forall (category : string) (total : Z),
      In (category, total) result_c -> total = 0.
Proof.
  intros Hread.
  pose proof (read_questions_catalogued infile questions mapping Hread) as Hcat.
  unfold Alt.read_questions in Hread.
  apply alt_read_question_lines_ids in Hread. cbn [app] in Hread.
  destruct (ask_questions_fresh mapping questions Hcat (Alt.mk_asked [] [] []))
    as (st & Hrun & Hq & Hc).
  - cbn [Alt.asked_q keys map app]. rewrite Hread.
    apply (NoDup_keys_enumerate (map question_field (readlines infile)) 0).
  - intros k v [].
  - exists (Alt.asked_c st). unfold Alt.ask_questions. rewrite Hrun.
    cbn [bind]. split; [|exact Hc].
    rewrite Hq. cbn [Alt.asked_q app]. rewrite Hread, enumerate_zero.
    now rewrite map_map.
Qed.

Lemma alt_read_then_ask_witness :
  exists result_c : dict string Z,
    Alt.ask_questions [(0, "Q0"); (1, "Q1")] []
      [(0, "mental"); (1, "technique")] (mk_datetime 2026 11 3 22 47 5 123)
    = Ok (enumerate 0
            (map (fun _ => 0)
               (readlines ("Q0 | mental" ++ String nl "Q1|technique"))),
          result_c, mk_datetime 2026 11 3 22 47 5 123) /\
    forall (category : string) (total : Z),
      In (category, total) result_c -> total = 0.
Proof.
  apply (alt_read_then_ask ("Q0 | mental" ++ String nl "Q1|technique") []
           (mk_datetime 2026 11 3 22 47 5 123) [(0, "Q0"); (1, "Q1")]
           [(0, "mental"); (1, "technique")]).
  reflexivity.
Defined.

(** * Collecting answers in the reporting script *)

Example ask_questions_example :
  ask_questions [(1, "Q1"); (0, "Q0"); (2, "Q2")] []
    [(0, "mental"); (1, "technique"); (2, "mental")]
    (mk_datetime 2026 11 3 22 47 5 123)
    (fun k => match k with O => 4 | 1%nat => 0 | _ => 5 end)
  = Ok ([(0, 4); (1, 0); (2, 5)], [("mental", 9); ("technique", 0)],
        mk_datetime 2026 11 3 22 47 5 123).
Proof. reflexivity. Qed.

Lemma dict_get_None_iff_not {V : Type} (d : dict Z V) (k : Z) :
  In k (keys d) -> dict_get d k <> None.
Proof. intros Hin Hnone. now apply dict_get_None in Hnone. Qed.

Lemma ask_step_spec (questions mapping : dict Z string) (randint : nat -> Z)
  (st : collected) (idx : Z) (question category : string) :
  dict_get questions idx = Some question ->
  dict_get mapping idx = Some category ->
  ask_step questions mapping randint st idx
  = Ok (mk_collected (dict_set (collected_q st) idx (randint (calls st)))
          (add_total (collected_c st) category (randint (calls st)))
          (S (calls st))).
Proof.
  intros Hq Hm. unfold ask_step.
  rewrite (getitem_Some _ _ _ Hq), (getitem_Some _ _ _ Hm). cbn [bind].
  apply (total_step_in (collected_c st) category (randint (calls st))
           (fun rc => mk_collected
                        (dict_set (collected_q st) idx (randint (calls st)))
                        rc (S (calls st)))).
Qed.

Lemma ask_fold (questions mapping : dict Z string) (randint : nat -> Z)
  (ks : list Z) :
  forall st : collected,
    (forall idx, In idx ks ->
       dict_get questions idx <> None /\ dict_get mapping idx <> None) ->
    NoDup (keys (collected_q st) ++ ks) ->
    recompute_totals (collected_q st) mapping = Ok (collected_c st) ->
    exists st' : collected,
      foldM (ask_step questions mapping randint) ks st = Ok st' /\
      collected_q st'
      = (collected_q st
           ++ combine ks (map randint (seq (calls st) (List.length ks))))%list /\
      recompute_totals (collected_q st') mapping = Ok (collected_c st').
Proof.
  induction ks as [|idx ks IH]; intros st Hcov Hnd Hre.
  - exists st. cbn [foldM combine]. now rewrite app_nil_r.
  - destruct (Hcov idx (or_introl eq_refl)) as [Hq Hm].
    destruct (dict_get questions idx) as [question|] eqn:Eq; [|congruence].
    destruct (dict_get mapping idx) as [category|] eqn:Em; [|congruence].
    cbn [foldM]. rewrite (ask_step_spec _ _ _ _ _ _ _ Eq Em). cbn [bind].
    assert (Hfresh : dict_get (collected_q st) idx = None).
    { apply dict_get_None. intros Hin.
      apply NoDup_remove_2 in Hnd. apply Hnd. apply in_or_app. now left. }
    set (st1 := mk_collected _ _ _).
    destruct (IH st1) as (st' & Hrun & Hq' & Hre').
    + intros i Hi. apply Hcov. now right.
    + unfold st1. cbn [collected_q]. rewrite keys_dict_set. unfold dict_mem.
      rewrite Hfresh. now rewrite <- app_assoc.
    + unfold st1. cbn [collected_q collected_c].
      rewrite dict_set_absent by exact Hfresh.
      now apply recompute_snoc.
    + exists st'. split; [exact Hrun|]. split; [|exact Hre'].
      rewrite Hq'. unfold st1. cbn [collected_q calls List.length seq map combine].
      rewrite dict_set_absent by exact Hfresh. now rewrite <- app_assoc.
Qed.

Lemma recompute_sum (result_q0 : dict Z Z) (mapping : dict Z string)
  (rc : dict string Z) :
  recompute_totals result_q0 mapping = Ok rc ->
  sum (values rc) = sum (values result_q0).
Proof.
  unfold recompute_totals. intros Hrun.
  pose proof (recompute_from mapping result_q0 [] [] (fun c => eq_refl)) as H.
  rewrite Hrun in H. destruct H as (_ & Hsum & _). cbn in Hsum. lia.
Qed.

(** X16. [ask_questions] of the reporting script, for a catalog whose ids
    all have a category: it returns; the per-question dict holds the ids
    in ascending order, the [k]-th of them with the [k]-th number drawn;
    the per-category totals are those of these answers and add up to
    them; and every answer is between 0 and 5 when every number drawn
    is. *)
Theorem ask_questions_spec (questions : dict Z string)
  (scorings : dict string Z) (mapping : dict Z string) (now : datetime)
  (randint : nat -> Z) :
  NoDup (keys questions) ->
  (forall idx, In idx (keys questions) -> dict_get mapping idx <> None) ->
  exists (result_q0 : dict Z Z) (result_c0 : dict string Z),
    ask_questions questions scorings mapping now randint
      = Ok (result_q0, result_c0, now) /\
    result_q0
    = combine (sorted Z.leb (keys questions))
        (map randint (seq 0 (List.length (keys questions)))) /\
    recompute_totals result_q0 mapping = Ok result_c0 /\
    sum (values result_c0) = sum (values result_q0) /\
    ((forall k : nat, 0 <= randint k <= 5) ->
     forall idx answer : Z, In (idx, answer) result_q0 -> 0 <= answer <= 5).
Proof.
  intros Hnd Hcov. unfold ask_questions.
  pose proof (sorted_perm Z.leb (keys questions)) as Hperm.
  destruct (ask_fold questions mapping randint (sorted Z.leb (keys questions))
              (mk_collected [] [] 0)) as (st & Hrun & Hq & Hre).
  - intros idx Hin. apply (Permutation_in _ Hperm) in Hin. split; [|auto].
    apply dict_get_None_iff_not. exact Hin.
  - cbn [collected_q keys map app].
    apply (Permutation_NoDup (Permutation_sym Hperm) Hnd).
  - reflexivity.
  - exists (collected_q st), (collected_c st). rewrite Hrun. cbn [bind].
    cbn [collected_q calls app] in Hq.
    rewrite (Permutation_length Hperm) in Hq.
    split; [reflexivity|]. split; [exact Hq|]. split; [exact Hre|].
    split; [now apply (recompute_sum _ mapping)|].
    intros Hrange idx answer Hin. rewrite Hq in Hin.
    apply in_combine_r in Hin. apply in_map_iff in Hin as (k & <- & _).
    apply Hrange.
Qed.

Lemma ask_questions_spec_witness :
  exists (result_q0 : dict Z Z) (result_c0 : dict string Z),
    ask_questions [(1, "Q1"); (0, "Q0")] [] [(0, "mental"); (1, "technique")]
      (mk_datetime 2026 11 3 22 47 5 123) (fun k => Z.of_nat k mod 6)
      = Ok (result_q0, result_c0, mk_datetime 2026 11 3 22 47 5 123) /\
    result_q0
    = combine (sorted Z.leb (keys [(1, "Q1"); (0, "Q0")]))
        (map (fun k => Z.of_nat k mod 6)
           (seq 0 (List.length (keys [(1, "Q1"); (0, "Q0")])))) /\
    recompute_totals result_q0 [(0, "mental"); (1, "technique")]
      = Ok result_c0 /\
    sum (values result_c0) = sum (values result_q0) /\
    ((forall k : nat, 0 <= Z.of_nat k mod 6 <= 5) ->
     forall idx answer : Z, In (idx, answer) result_q0 -> 0 <= answer <= 5).
Proof.
  apply (ask_questions_spec [(1, "Q1"); (0, "Q0")] []
           [(0, "mental"); (1, "technique")]
           (mk_datetime 2026 11 3 22 47 5 123) (fun k => Z.of_nat k mod 6)).
  - repeat constructor; simpl; intuition discriminate.
  - intros idx [<-|[<-|[]]]; discriminate.
Defined.

(** ** From the answers to the file and back *)

Lemma sorted_of_ascending (l : list Z) :
  StronglySorted Z.le l -> sorted Z.leb l = l.
Proof.
  induction 1 as [|x l Hs IH Hx]; [reflexivity|].
  cbn [sorted fold_right]. fold (sorted Z.leb l). rewrite IH.
  destruct l as [|y l]; [reflexivity|]. cbn [insert].
  inversion Hx as [|? ? Hxy _]; subst.
  now rewrite (proj2 (Z.leb_le x y) Hxy).
Qed.

Lemma items_of_keys (d : dict Z Z) :
  NoDup (keys d) -> map (fun key => (key, lookup d key)) (keys d) = d.
Proof.
  intros Hnd.
  assert (H : forall l, (forall kv, In kv l -> In kv d) ->
              map (fun key => (key, lookup d key)) (keys l) = l).
  { induction l as [|[k v] l IH]; intros Hsub; [reflexivity|].
    cbn [keys map fst]. fold (keys l). rewrite IH by (intros; apply Hsub; now right).
    f_equal. f_equal. unfold lookup.
    now rewrite (In_dict_get d k v Hnd (Hsub _ (or_introl eq_refl))). }
  now apply H.
Qed.

Lemma token_ids_answers (ks : list Z) (f : Z -> Z) :
  token_ids (map (fun key => answer_token key (f key)) ks) = ks.
Proof.
  induction ks as [|k ks IH]; [reflexivity|].
  unfold token_ids in *. cbn [map flat_map]. rewrite IH.
  unfold answer_token at 1 2.
  destruct (before_clean "=" (str k) (str (f k))
              (token_chars_no_eq _ (str_token_chars k))) as [Hb _].
  cbn [append] in Hb |- *. rewrite Hb, str_not_time, int_str. reflexivity.
Qed.

Lemma token_ids_line_tokens (result_q0 : dict Z Z) (t : datetime) :
  token_ids (line_tokens result_q0 t) = sorted Z.leb (keys result_q0).
Proof.
  unfold line_tokens.
  change (token_ids (time_token t :: ?l)) with (token_ids l).
  apply token_ids_answers.
Qed.

Lemma keys_sorted_items (result_q0 : dict Z Z) :
  keys (sorted_items result_q0) = sorted Z.leb (keys result_q0).
Proof.
  unfold sorted_items, keys. rewrite map_map. cbn [fst]. apply map_id.
Qed.

(** The session a written line is read as, totals included. *)
Lemma read_written_session (mapping : dict Z string) (result_q0 : dict Z Z)
  (t : datetime) :
  NoDup (keys result_q0) ->
  valid_datetime t = true ->
  1000 <= year t ->
  (forall key : Z, In key (keys result_q0) -> dict_get mapping key <> None) ->
  exists rc : dict string Z,
    read_line mapping (join " " (line_tokens result_q0 t) ++ " " ++ String nl "")
    = Ok (mk_session (Some t) (sorted_items result_q0) rc) /\
    recompute_totals (sorted_items result_q0) mapping = Ok rc.
Proof.
  intros Hnd Hvalid Hyear Hmap.
  destruct (read_written_line mapping result_q0 t Hnd Hvalid Hyear Hmap)
    as [rc Hread].
  exists rc. split; [exact Hread|].
  destruct (written_line result_q0 t) as (_ & _ & Hsplit). cbv zeta in Hsplit.
  unfold read_line in Hread. rewrite Hsplit in Hread.
  apply (read_tokens_recompute mapping _ new_session _ Hread); [|reflexivity].
  unfold new_session. cbn [result_q keys map app].
  rewrite token_ids_line_tokens.
  apply (Permutation_NoDup (l := keys result_q0)); [|exact Hnd].
  symmetry. apply sorted_perm.
Qed.

(** X17. The round trip rebuilds the totals as well: for a timestamp
    whose year has four digits, the session read back after
    [store_results] has as [result_c] the totals of the stored answers
    taken in ascending id order, so its totals add up to the answers that
    were stored. *)
Theorem store_then_read_totals (outfile : string) (result_q0 : dict Z Z)
  (t : datetime) (mapping : dict Z string) (sessions : list session) :
  NoDup (keys result_q0) ->
  valid_datetime t = true ->
  1000 <= year t ->
  (forall key : Z, In key (keys result_q0) -> dict_get mapping key <> None) ->
  complete outfile = true ->
  read_results outfile mapping = Ok sessions ->
  exists (infile : string) (rc : dict string Z),
    store_results outfile result_q0 t = Ok infile /\
    read_results infile mapping
      = Ok (sessions ++ [mk_session (Some t) (sorted_items result_q0) rc])%list /\
    recompute_totals (sorted_items result_q0) mapping = Ok rc /\
    sum (values rc) = sum (values result_q0).
Proof.
  intros Hnd Hvalid Hyear Hmap Hcomplete Hold.
  destruct (written_line result_q0 t) as (Hline & Hone & _). cbv zeta in *.
  destruct (read_written_session mapping result_q0 t Hnd Hvalid Hyear Hmap)
    as (rc & Hread & Hre).
  eexists. exists rc. split; [|split; [|split]].
  - unfold store_results. rewrite Hline. reflexivity.
  - apply read_results_snoc; eassumption.
  - exact Hre.
  - rewrite (recompute_sum _ _ _ Hre). unfold sorted_items, values.
    rewrite map_map. cbn [snd].
    assert (Hp : Permutation (map (fun key => lookup result_q0 key)
                                (sorted Z.leb (keys result_q0)))
                   (map (fun key => lookup result_q0 key) (keys result_q0)))
      by (apply Permutation_map, sorted_perm).
    assert (Hs : forall l1 l2 : list Z, Permutation l1 l2 -> sum l1 = sum l2).
    { unfold sum. induction 1; cbn [fold_right] in *; lia. }
    rewrite (Hs _ _ Hp).
    rewrite <- (items_of_keys result_q0 Hnd) at 2.
    now rewrite map_map.
Qed.

Lemma store_then_read_totals_witness :
  exists (infile : string) (rc : dict string Z),
    store_results "" [(3, 1); (1, 5); (-2, 0)]
      (mk_datetime 2026 11 3 22 47 5 123) = Ok infile /\
    read_results infile [(3, "mental"); (1, "physical"); (-2, "mental")]
      = Ok ([] ++ [mk_session (Some (mk_datetime 2026 11 3 22 47 5 123))
                     (sorted_items [(3, 1); (1, 5); (-2, 0)]) rc])%list /\
    recompute_totals (sorted_items [(3, 1); (1, 5); (-2, 0)])
      [(3, "mental"); (1, "physical"); (-2, "mental")] = Ok rc /\
    sum (values rc) = sum (values [(3, 1); (1, 5); (-2, 0)]).
Proof.
  apply (store_then_read_totals "" [(3, 1); (1, 5); (-2, 0)]
           (mk_datetime 2026 11 3 22 47 5 123)
           [(3, "mental"); (1, "physical"); (-2, "mental")] []).
  - repeat constructor; simpl; intuition discriminate.
  - reflexivity.
  - cbn [year]; lia.
  - intros key [<-|[<-|[<-|[]]]]; discriminate.
  - reflexivity.
  - reflexivity.
Defined.

Lemma keys_combine {A B : Type} (l : list A) (l' : list B) :
  List.length l = List.length l' -> map fst (combine l l') = l.
Proof.
  revert l'. induction l as [|x l IH]; intros [|y l'] Hlen; simpl in *;
    try discriminate; [reflexivity|]. now rewrite IH by lia.
Qed.

(** X18. The whole loop of the reporting script, for a clock whose year
    has four digits: the answers [ask_questions] collects, stored with
    [store_results] and read again with [read_results], come back as a
    session with the timestamp taken at the start and exactly the two
    dicts [ask_questions] returned, the per-category totals included. *)
Theorem ask_store_read (outfile : string) (questions : dict Z string)
  (scorings : dict string Z) (mapping : dict Z string) (now : datetime)
  (randint : nat -> Z) (sessions : list session) :
  NoDup (keys questions) ->
  (forall idx, In idx (keys questions) -> dict_get mapping idx <> None) ->
  valid_datetime now = true ->
  1000 <= year now ->
  complete outfile = true ->
  read_results outfile mapping = Ok sessions ->
  exists (result_q0 : dict Z Z) (result_c0 : dict string Z) (infile : string),
    ask_questions questions scorings mapping now randint
      = Ok (result_q0, result_c0, now) /\
    store_results outfile result_q0 now = Ok infile /\
    read_results infile mapping
      = Ok (sessions ++ [mk_session (Some now) result_q0 result_c0])%list.
Proof.
  intros Hnd Hcov Hvalid Hyear Hcomplete Hold. unfold ask_questions.
  pose proof (sorted_perm Z.leb (keys questions)) as Hperm.
  destruct (ask_fold questions mapping randint (sorted Z.leb (keys questions))
              (mk_collected [] [] 0)) as (st & Hrun & Hq & Hre).
  { intros idx Hin. apply (Permutation_in _ Hperm) in Hin. split; [|auto].
    now apply dict_get_None_iff_not. }
  { cbn [collected_q keys map app].
    apply (Permutation_NoDup (Permutation_sym Hperm) Hnd). }
  { reflexivity. }
  rewrite Hrun. cbn [bind]. cbn [collected_q calls app] in Hq.
  set (rq := collected_q st) in *.
  assert (Hkeys : keys rq = sorted Z.leb (keys questions)).
  { rewrite Hq. apply keys_combine. now rewrite length_map, length_seq. }
  assert (Hndq : NoDup (keys rq)).
  { rewrite Hkeys. apply (Permutation_NoDup (Permutation_sym Hperm) Hnd). }
  assert (Hsorted : sorted_items rq = rq).
  { unfold sorted_items. rewrite Hkeys.
    rewrite sorted_of_ascending by apply sorted_ascending.
    rewrite <- Hkeys. now apply items_of_keys. }
  assert (Hmap : forall key, In key (keys rq) -> dict_get mapping key <> None).
  { intros key Hin. rewrite Hkeys in Hin. apply Hcov.
    now apply (Permutation_in _ Hperm). }
  destruct (written_line rq now) as (Hline & Hone & _). cbv zeta in *.
  destruct (read_written_session mapping rq now Hndq Hvalid Hyear Hmap)
    as (rc & Hread & Hre').
  rewrite Hsorted in Hread, Hre'.
  assert (rc = collected_c st) by congruence. subst rc.
  exists rq, (collected_c st). eexists. split; [reflexivity|]. split.
  - unfold store_results. rewrite Hline. reflexivity.
  - apply read_results_snoc; eassumption.
Qed.

Lemma ask_store_read_witness :
  exists (result_q0 : dict Z Z) (result_c0 : dict string Z) (infile : string),
    ask_questions [(1, "Q1"); (0, "Q0")] [] [(0, "mental"); (1, "technique")]
      (mk_datetime 2026 11 3 22 47 5 123) (fun k => Z.of_nat k mod 6)
      = Ok (result_q0, result_c0, mk_datetime 2026 11 3 22 47 5 123) /\
    store_results "" result_q0 (mk_datetime 2026 11 3 22 47 5 123)
      = Ok infile /\
    read_results infile [(0, "mental"); (1, "technique")]
      = Ok ([] ++ [mk_session (Some (mk_datetime 2026 11 3 22 47 5 123))
                     result_q0 result_c0])%list.
Proof.
  apply (ask_store_read "" [(1, "Q1"); (0, "Q0")] []
           [(0, "mental"); (1, "technique")]
           (mk_datetime 2026 11 3 22 47 5 123) (fun k => Z.of_nat k mod 6) []).
  - repeat constructor; simpl; intuition discriminate.
  - intros idx [<-|[<-|[]]]; discriminate.
  - reflexivity.
  - cbn [year]; lia.
  - reflexivity.
  - reflexivity.
Defined.

(** * The alternate script as a whole *)

Example alt_main_example :
  Alt.main ("Q0 | mental" ++ String nl ("Q1|technique" ++ String nl ""))
    ("0 = never" ++ String nl "") "old" (mk_datetime 2026 11 3 22 47 5 123)
  = Ok ("oldtime: " ++ String dquote "03.11.2026 22:47:05"
          ++ String dquote " answers: 0=0 1=0 " ++ String nl "",
        [("mental", 0); ("technique", 0)]).
Proof. reflexivity. Qed.

Lemma alt_read_question_lines_cases (ls : list string) :
  forall (i : Z) (questions : list (Z * string)) (mapping : dict Z string),
    match Alt.read_question_lines ls i questions mapping with
    | Ok (questions', _) =>
        existsb lacks_bar ls = false /\
        questions' = (questions ++ enumerate i (map question_field ls))%list
    | Raise e => e = IndexError /\ existsb lacks_bar ls = true
    end.
Proof.
  induction ls as [|lines rest IH]; intros i questions mapping.
  - cbn. now rewrite app_nil_r.
  - cbn [Alt.read_question_lines existsb map enumerate].
    rewrite index_split_on_0, index_split_on_1. cbn [bind].
    assert (Hbar : lacks_bar lines
                   = match after "|" lines with Some _ => false | None => true end)
      by reflexivity.
    rewrite Hbar.
    destruct (after "|" lines) as [r|]; cbn [bind orb]; [|now split].
    specialize (IH (i + 1)
                   (questions ++ [(i, strip (before "|" lines))])%list
                   (dict_set mapping i (strip (before "|" r)))).
    destruct (Alt.read_question_lines rest (i + 1) _ _) as [[q' m']|e].
    + destruct IH as (Hok & ->). split; [exact Hok|].
      unfold question_field at 2. now rewrite <- !app_assoc.
    + exact IH.
Qed.

Lemma sorted_keys_enumerate {A : Type} (l : list A) :
  forall i : Z, sorted Z.leb (keys (enumerate i l)) = keys (enumerate i l).
Proof.
  intros i. apply sorted_of_ascending. revert i.
  induction l as [|x l IH]; intros i; [constructor|].
  cbn [enumerate keys map fst]. constructor; [apply IH|].
  apply Forall_forall. intros k Hin.
  apply (keys_enumerate_bound l (i + 1) k) in Hin. lia.
Qed.

Lemma In_enumerate_const {A B : Type} (l : list A) (b : B) :
  forall (i k : Z) (v : B),
    In (k, v) (enumerate i (map (fun _ => b) l)) -> v = b.
Proof.
  induction l as [|x l IH]; intros i k v Hin; [destruct Hin|].
  cbn [map enumerate In] in Hin. destruct Hin as [[= _ <-]|Hin];
    [reflexivity | now apply (IH (i + 1) k)].
Qed.

Lemma alt_result_line_zero (ls : list string) (t : datetime) :
  Alt.result_line (enumerate 0 (map (fun _ => 0) ls)) t
  = Ok (join " "
          (["time:";
            String dquote (strftime t Alt._DATE_FMT ++ String dquote "");
            "answers:"]
           ++ map (fun q => (str (fst q) ++ "=0")%string) (enumerate 0 ls)
           ++ [String nl ""])%list).
Proof.
  unfold Alt.result_line. rewrite sorted_keys_enumerate.
  rewrite (mapM_ok _ (fun key => str key ++ "=0")).
  2:{ intros key Hin. unfold getitem.
      destruct (dict_get _ key) as [v|] eqn:E.
      - apply dict_get_In, In_enumerate_const in E. now subst v.
      - apply dict_get_None in E. contradiction. }
  cbn [bind].
  assert (H : forall i : Z,
            map (fun key => (str key ++ "=0")%string)
              (keys (enumerate i (map (fun _ : string => 0) ls)))
            = map (fun q => (str (fst q) ++ "=0")%string) (enumerate i ls)).
  { induction ls as [|x ls IH]; intros i; [reflexivity|].
    cbn [map enumerate keys fst]. f_equal. apply IH. }
  rewrite H. cbn [app]. reflexivity.
Qed.

(** X19. The alternate script from start to end.  If no line of the
    catalog lacks a bar and no line of the scoring file is malformed,
    [main] appends exactly one line to the results file: the words
    [time:], the quoted timestamp and [answers:], then [i=0] for every
    line number [i] of the catalog in ascending order, each followed by a
    space, and a newline; and every total it prints is 0.  Otherwise it
    raises a format error and the results file is not written. *)
Theorem alt_main_spec (questions_txt scoring_txt results_txt : string)
  (now : datetime) :
  match Alt.main questions_txt scoring_txt results_txt now with
  | Ok (results_txt', result_c) =>
      existsb lacks_bar (readlines questions_txt) = false /\
      existsb bad_scoring_line (readlines scoring_txt) = false /\
      results_txt'
      = results_txt
        ++ join " "
             (["time:";
               String dquote (strftime now Alt._DATE_FMT ++ String dquote "");
               "answers:"]
              ++ map (fun q => (str (fst q) ++ "=0")%string)
                   (enumerate 0 (readlines questions_txt))
              ++ [String nl ""])%list /\
      all_zero result_c
  | Raise e =>
      format_error e = true /\
      (existsb lacks_bar (readlines questions_txt) = true \/
       existsb bad_scoring_line (readlines scoring_txt) = true)
  end.
Proof.
  unfold Alt.main.
  pose proof (read_questions_catalogued questions_txt) as Hcat.
  unfold Alt.read_questions in *.
  pose proof (alt_read_question_lines_cases (readlines questions_txt) 0 [] [])
    as Hq.
  destruct (Alt.read_question_lines (readlines questions_txt) 0 [] [])
    as [[questions mapping]|e]; cbn [bind].
  2:{ destruct Hq as [-> Hbar]. split; [reflexivity | now left]. }
  destruct Hq as [Hbar Hqs]. cbn [app] in Hqs.
  specialize (Hcat questions mapping eq_refl).
  unfold Alt.read_scorings.
  pose proof (read_scorings_fold (readlines scoring_txt) []) as Hs.
  destruct (foldM read_scoring_line (readlines scoring_txt) [])
    as [scorings|e]; cbn [bind].
  2:{ destruct Hs as [He Hbad]. split; [exact He | now right]. }
  destruct Hs as [Hgood _].
  destruct (ask_questions_fresh mapping questions Hcat (Alt.mk_asked [] [] []))
    as (st & Hrun & Hrq & Hrc).
  { cbn [Alt.asked_q keys map app]. rewrite Hqs.
    apply (NoDup_keys_enumerate (map question_field (readlines questions_txt)) 0). }
  { intros k v []. }
  unfold Alt.ask_questions. rewrite Hrun. cbn [bind].
  rewrite Hrq. cbn [Alt.asked_q app]. rewrite Hqs, enumerate_zero, map_map.
  unfold Alt.store_results. rewrite alt_result_line_zero. cbn [bind].
  repeat split; assumption.
Qed.

(** * The data of the trend chart *)

Example plot_score_questions_data_example :
  plot_score_questions_data
    [mk_session None [(0, 2); (1, 5)] []; mk_session None [(1, 3)] []]
  = Ok ([None; None], [(0, [2]); (1, [5; 3])]).
Proof. reflexivity. Qed.

Lemma extend_app (o : option (list Z)) (l1 l2 : list Z) :
  extend (extend o l1) l2 = extend o (l1 ++ l2).
Proof.
  destruct l1 as [|x l1]; [reflexivity|].
  destruct l2 as [|y l2]; cbn [extend app].
  - now rewrite app_nil_r.
  - now rewrite <- app_assoc.
Qed.

Lemma answers_step_spec (answers : dict Z (list Z)) (idx answer : Z) :
  exists answers' : dict Z (list Z),
    answers_step answers (idx, answer) = Ok answers' /\
    forall k : Z,
      dict_get answers' k
      = extend (dict_get answers k) (if Z.eqb idx k then [answer] else []).
Proof.
  unfold answers_step, dict_mem, getitem.
  destruct (dict_get answers idx) as [s|] eqn:E; cbn [negb].
  - rewrite E. cbn [bind]. eexists. split; [reflexivity|]. intros k.
    destruct (Z.eqb_spec idx k) as [<-|Hne].
    + now rewrite dict_get_set_same, E.
    + rewrite dict_get_set_other by congruence. reflexivity.
  - rewrite dict_get_set_same. cbn [bind]. eexists. split; [reflexivity|].
    intros k. destruct (Z.eqb_spec idx k) as [<-|Hne].
    + now rewrite dict_get_set_same, E.
    + rewrite !dict_get_set_other by congruence. reflexivity.
Qed.

Lemma answers_fold (items : dict Z Z) :
  forall answers : dict Z (list Z),
    exists answers' : dict Z (list Z),
      foldM answers_step items answers = Ok answers' /\
      forall k : Z,
        dict_get answers' k
        = extend (dict_get answers k)
            (map snd (filter (fun kv => Z.eqb (fst kv) k) items)).
Proof.
  induction items as [|[idx answer] items IH]; intros answers.
  - exists answers. now split.
  - destruct (answers_step_spec answers idx answer) as (a1 & Hstep & H1).
    destruct (IH a1) as (a2 & Hrun & H2).
    exists a2. cbn [foldM]. rewrite Hstep. cbn [bind]. split; [exact Hrun|].
    intros k. rewrite H2, H1, extend_app. f_equal.
    cbn [filter fst]. now destruct (Z.eqb idx k).
Qed.

Lemma items_of_key (items : dict Z Z) (k : Z) :
  NoDup (keys items) ->
  map snd (filter (fun kv => Z.eqb (fst kv) k) items)
  = match dict_get items k with Some answer => [answer] | None => [] end.
Proof.
  induction items as [|[idx answer] items IH]; intros Hnd; [reflexivity|].
  cbn [keys map fst] in Hnd. inversion Hnd as [|? ? Hnotin Hnd']; subst.
  cbn [filter fst dict_get]. change (key_eqb k idx) with (Z.eqb k idx).
  rewrite (Z.eqb_sym k idx).
  destruct (Z.eqb_spec idx k) as [->|Hne]; [|now apply IH].
  cbn [map snd]. f_equal.
  destruct (filter _ items) as [|[k' v'] l] eqn:E; [reflexivity|].
  exfalso. apply Hnotin.
  assert (Hin : In (k', v') (filter (fun kv => Z.eqb (fst kv) k) items))
    by (rewrite E; now left).
  apply filter_In in Hin as [Hin Hk]. cbn [fst] in Hk.
  apply Z.eqb_eq in Hk. subst k'. unfold keys. apply in_map_iff.
  now exists (k, v').
Qed.

Lemma series_fold (results : list session) :
  (forall s : session, In s results -> NoDup (keys (result_q s))) ->
  forall answers : dict Z (list Z),
    exists answers' : dict Z (list Z),
      foldM (fun answers result =>
               foldM answers_step (result_q result) answers) results answers
      = Ok answers' /\
      forall k : Z,
        dict_get answers' k = extend (dict_get answers k) (series results k).
Proof.
  induction results as [|s results IH]; intros Hnd answers.
  - exists answers. now split.
  - destruct (answers_fold (result_q s) answers) as (a1 & Hstep & H1).
    destruct (IH (fun s' Hin => Hnd s' (or_intror Hin)) a1)
      as (a2 & Hrun & H2).
    exists a2. cbn [foldM]. rewrite Hstep. cbn [bind]. split; [exact Hrun|].
    intros k. rewrite H2, H1, extend_app. f_equal.
    unfold series. cbn [flat_map]. f_equal. unfold answered.
    apply items_of_key, Hnd. now left.
Qed.

(** X20. What the trend chart is drawn from: [plot_score_questions]
    collects one date per session, and for every question id the answers
    of the sessions that answered it, in session order; an id that no
    session answered gets no series.  A question some session left out
    therefore gets a series shorter than the list of dates. *)
Theorem plot_score_questions_series (results : list session) :
  (forall s : session, In s results -> NoDup (keys (result_q s))) ->
  exists answers : dict Z (list Z),
    plot_score_questions_data results = Ok (map time results, answers) /\
    (forall idx : Z,
       dict_get answers idx
       = match series results idx with [] => None | l => Some l end) /\
    (forall idx : Z,
       List.length (series results idx)
       = List.length (filter (fun s => dict_mem (result_q s) idx) results)).
Proof.
  intros Hnd. destruct (series_fold results Hnd []) as (answers & Hrun & Hget).
  exists answers. unfold plot_score_questions_data. rewrite Hrun. cbn [bind].
  split; [reflexivity|]. split.
  - intros idx. rewrite Hget. cbn [dict_get extend].
    now destruct (series results idx).
  - intros idx. unfold series, answered, dict_mem. clear.
    induction results as [|s results IH]; [reflexivity|].
    cbn [flat_map filter]. rewrite length_app, IH.
    now destruct (dict_get (result_q s) idx).
Qed.

Lemma plot_score_questions_series_witness :
  exists answers : dict Z (list Z),
    plot_score_questions_data
      [mk_session None [(0, 2); (1, 5)] []; mk_session None [(1, 3)] []]
    = Ok (map time
            [mk_session None [(0, 2); (1, 5)] []; mk_session None [(1, 3)] []],
          answers) /\
    (forall idx : Z,
       dict_get answers idx
       = match series
                 [mk_session None [(0, 2); (1, 5)] [];
                  mk_session None [(1, 3)] []] idx
         with [] => None | l => Some l end) /\
    (forall idx : Z,
       List.length
         (series [mk_session None [(0, 2); (1, 5)] [];
                  mk_session None [(1, 3)] []] idx)
       = List.length
           (filter (fun s => dict_mem (result_q s) idx)
              [mk_session None [(0, 2); (1, 5)] [];
               mk_session None [(1, 3)] []])).
Proof.
  apply (plot_score_questions_series
           [mk_session None [(0, 2); (1, 5)] []; mk_session None [(1, 3)] []]).
  intros s [<-|[<-|[]]]; repeat constructor; simpl; intuition discriminate.
Defined.

(** * The low-scoring report as printed *)

(** The report of one session that has a timestamp, ids in the catalog
    and low answers in the named categories: the heading and the tables
    [generate_rst_table] renders from the rows of [low_tables]. *)
Lemma low_report_printed (questions mapping : dict Z string) (s : session)
  (t : datetime) :
  time s = Some t ->
  covered questions mapping (result_q s) ->
  low_categories_named mapping (result_q s) ->
  exists (tables : list (string * list (list string)))
         (printed : list (list string)),
    low_tables (result_q s) questions mapping = Ok tables /\
    low_report questions mapping s
    = Ok ([""; ("Results for questions on " ++ strftime t _DATE_FMT)%string]
          ++ List.concat printed)%list /\
    Forall2 (fun tb lines =>
               exists name : string,
                 dict_get CATEGORIES (fst tb) = Some name /\
                 generate_rst_table (snd tb)
                   ("Lowest scoring in category " ++ String dquote name
                      ++ String dquote "")
                   ["ID"; "Question"; "Answer"] = Ok lines)
            tables printed.
Proof.
  intros Htime Hcov Hnamed. unfold low_report. rewrite Htime.
  cbn [strftime_of bind].
  destruct (low_tables_spec questions mapping (result_q s) Hcov)
    as (tables & Hrun & _ & Htab).
  rewrite Hrun. cbn [bind].
  set (render := fun t0 : string * list (list string) =>
                   name <- getitem CATEGORIES (fst t0) ;;
                   generate_rst_table (snd t0)
                     ("Lowest scoring in category " ++ String dquote name
                        ++ String dquote "")
                     ["ID"; "Question"; "Answer"]).
  assert (Hrender : forall t0, In t0 tables -> exists y, render t0 = Ok y).
  { intros [c rows] Hin. unfold render, getitem. cbn [fst snd].
    apply Htab in Hin as [-> Hne].
    destruct (low_rows questions mapping c (result_q s)) as [|row rows']
      eqn:E; [congruence|].
    assert (Hrow : In row (low_rows questions mapping c (result_q s)))
      by (rewrite E; now left).
    apply in_low_rows in Hrow as (idx & answer & Hin & Hle & Hc & _).
    destruct (dict_get CATEGORIES c) as [name|] eqn:Ec;
      [|now destruct (Hnamed idx answer c Hin Hle Hc)].
    cbn [bind]. rewrite <- E.
    apply generate_rst_table_ok; [discriminate|].
    apply Forall_forall. intros r Hr.
    apply in_low_rows in Hr as (i & a & _ & _ & _ & ->).
    simpl. lia. }
  assert (Hm : exists printed, mapM render tables = Ok printed).
  { clear -Hrender. induction tables as [|tb tables IH].
    - now exists [].
    - destruct (Hrender tb (or_introl eq_refl)) as [y Hy].
      destruct (IH (fun z Hz => Hrender z (or_intror Hz))) as [ys Hys].
      exists (y :: ys). cbn [mapM]. now rewrite Hy, Hys. }
  destruct Hm as [printed Hprinted]. rewrite Hprinted. cbn [bind].
  exists tables, printed. split; [reflexivity|]. split; [reflexivity|].
  apply mapM_Forall2 in Hprinted.
  clear -Hprinted. induction Hprinted as [|tb lines tables printed Hx _ IH];
    constructor; [|exact IH].
  unfold render, getitem in Hx.
  destruct (dict_get CATEGORIES (fst tb)) as [name|]; [|discriminate].
  now exists name.
Qed.

(** C6, as amended. For sessions that have a timestamp, whose ids all
    have a category and a question text, and whose answers of at most 3
    all belong to a category with a display name ([mental], [technique],
    [physical]): [table_results_low_questions] prints, session after
    session, an empty line, the heading with the timestamp, and one table
    per category (categories distinct), each rendered by
    [generate_rst_table] from its rows.  Every row of these tables is the
    row of an answer of the session that is at most 3; the table of a
    category has a row for a given answer exactly when that answer is at
    most 3 and its question maps to this category; and every answer of at
    most 3 has its row in the table of its category, so in exactly one
    table. *)
Theorem table_results_low_questions_rows (results : list session)
  (questions mapping : dict Z string) :
  (forall s : session, In s results ->
     time s <> None /\ NoDup (keys (result_q s)) /\
     covered questions mapping (result_q s) /\
     low_categories_named mapping (result_q s)) ->
  exists reports : list (list string),
    table_results_low_questions results questions mapping
    = Ok (List.concat reports) /\
    Forall2
      (fun s report =>
         exists (t : datetime) (tables : list (string * list (list string)))
                (printed : list (list string)),
           time s = Some t /\
           report
           = ([""; ("Results for questions on " ++ strftime t _DATE_FMT)%string]
              ++ List.concat printed)%list /\
           Forall2 (fun tb lines =>
                      exists name : string,
                        dict_get CATEGORIES (fst tb) = Some name /\
                        generate_rst_table (snd tb)
                          ("Lowest scoring in category " ++ String dquote name
                             ++ String dquote "")
                          ["ID"; "Question"; "Answer"] = Ok lines)
                   tables printed /\
           NoDup (map fst tables) /\
           (forall (category : string) (rows : list (list string))
                   (row : list string),
              In (category, rows) tables -> In row rows ->
              exists idx answer : Z,
                In (idx, answer) (result_q s) /\ answer <= 3 /\
                row = [str idx; question_text questions idx; str answer]) /\
           (forall (idx answer : Z) (category : string)
                   (rows : list (list string)),
              In (idx, answer) (result_q s) -> In (category, rows) tables ->
              (has_row idx rows <->
               answer <= 3 /\ dict_get mapping idx = Some category)) /\
           (forall idx answer : Z,
              In (idx, answer) (result_q s) -> answer <= 3 ->
              exists (category : string) (rows : list (list string)),
                dict_get mapping idx = Some category /\
                In (category, rows) tables /\
                In [str idx; question_text questions idx; str answer] rows))
      results reports.
Proof.
  intros Hall. unfold table_results_low_questions.
  match goal with
  | |- exists reports, _ /\ Forall2 ?R _ _ =>
      enough (H : exists reports : list (list string),
                mapM (low_report questions mapping) results = Ok reports /\
                Forall2 R results reports)
  end.
  { destruct H as (reports & Hm & Hf). exists reports. rewrite Hm.
    split; [reflexivity | exact Hf]. }
  induction results as [|s results IH].
  - exists []. split; [reflexivity | constructor].
  - destruct (Hall s (or_introl eq_refl)) as (Htime & Hnd & Hcov & Hnamed).
    destruct (time s) as [t|] eqn:Et; [|congruence].
    destruct (low_report_printed questions mapping s t Et Hcov Hnamed)
      as (tables & printed & Htab & Hrep & Hpr).
    destruct (low_tables_rows (result_q s) questions mapping Hnd Hcov)
      as (tables' & Htab' & Hcats & Hrows & Hiff & Hevery).
    assert (tables' = tables) by congruence. subst tables'.
    destruct (IH (fun z Hz => Hall z (or_intror Hz))) as (reports & Hm & Hf).
    eexists (_ :: reports). cbn [mapM]. rewrite Hrep, Hm. cbn [bind].
    split; [reflexivity|]. constructor; [|exact Hf].
    exists t, tables, printed. rewrite Et.
    split; [reflexivity|]. split; [reflexivity|]. split; [exact Hpr|].
    split; [exact Hcats|]. split; [exact Hrows|]. split; [exact Hiff|].
    exact Hevery.
Qed.

Lemma table_results_low_questions_rows_witness :
  exists reports : list (list string),
    table_results_low_questions
      [mk_session (Some (mk_datetime 2026 11 3 22 47 5 123))
         [(0, 2); (1, 5); (2, 3)] []]
      [(0, "Q0"); (1, "Q1"); (2, "Q2")]
      [(0, "mental"); (1, "technique"); (2, "physical")]
    = Ok (List.concat reports) /\
    Forall2
      (fun s report =>
         exists (t : datetime) (tables : list (string * list (list string)))
                (printed : list (list string)),
           time s = Some t /\
           report
           = ([""; ("Results for questions on " ++ strftime t _DATE_FMT)%string]
              ++ List.concat printed)%list /\
           Forall2 (fun tb lines =>
                      exists name : string,
                        dict_get CATEGORIES (fst tb) = Some name /\
                        generate_rst_table (snd tb)
                          ("Lowest scoring in category " ++ String dquote name
                             ++ String dquote "")
                          ["ID"; "Question"; "Answer"] = Ok lines)
                   tables printed /\
           NoDup (map fst tables) /\
           (forall (category : string) (rows : list (list string))
                   (row : list string),
              In (category, rows) tables -> In row rows ->
              exists idx answer : Z,
                In (idx, answer) (result_q s) /\ answer <= 3 /\
                row = [str idx;
                       question_text [(0, "Q0"); (1, "Q1"); (2, "Q2")] idx;
                       str answer]) /\
           (forall (idx answer : Z) (category : string)
                   (rows : list (list string)),
              In (idx, answer) (result_q s) -> In (category, rows) tables ->
              (has_row idx rows <->
               answer <= 3 /\
               dict_get [(0, "mental"); (1, "technique"); (2, "physical")] idx
               = Some category)) /\
           (forall idx answer : Z,
              In (idx, answer) (result_q s) -> answer <= 3 ->
              exists (category : string) (rows : list (list string)),
                dict_get [(0, "mental"); (1, "technique"); (2, "physical")] idx
                = Some category /\
                In (category, rows) tables /\
                In [str idx;
                    question_text [(0, "Q0"); (1, "Q1"); (2, "Q2")] idx;
                    str answer] rows))
      [mk_session (Some (mk_datetime 2026 11 3 22 47 5 123))
         [(0, 2); (1, 5); (2, 3)] []]
      reports.
Proof.
  apply (table_results_low_questions_rows
           [mk_session (Some (mk_datetime 2026 11 3 22 47 5 123))
              [(0, 2); (1, 5); (2, 3)] []]
           [(0, "Q0"); (1, "Q1"); (2, "Q2")]
           [(0, "mental"); (1, "technique"); (2, "physical")]).
  intros s [<-|[]]. cbn [time result_q]. split; [discriminate|]. split.
  - repeat constructor; simpl; intuition discriminate.
  - split.
    + intros idx [<-|[<-|[<-|[]]]]; split; discriminate.
    + intros idx answer category [[= <- <-]|[[= <- <-]|[[= <- <-]|[]]]] Hle;
        intros [= <-]; discriminate.
Defined.

(** C6 as stated fails outside these conditions, no report is printed: a
    low answer in a category without a display name makes the function
    raise [KeyError], a session without a timestamp [AttributeError], and
    an id without a category or a low answer without a question text
    [KeyError]. *)
Lemma table_results_low_questions_rows_counterexample :
  (In (0, 2) [(0, 2)] /\ 2 <= 3 /\
   table_results_low_questions
     [mk_session (Some (mk_datetime 2026 11 3 22 47 5 123)) [(0, 2)]
        [("stamina", 2)]]
     [(0, "Q0")] [(0, "stamina")] = Raise KeyError) /\
  table_results_low_questions
    [mk_session None [(0, 2)] [("mental", 2)]] [(0, "Q0")] [(0, "mental")]
  = Raise AttributeError /\
  table_results_low_questions
    [mk_session (Some (mk_datetime 2026 11 3 22 47 5 123)) [(0, 2)] []]
    [(0, "Q0")] [] = Raise KeyError /\
  table_results_low_questions
    [mk_session (Some (mk_datetime 2026 11 3 22 47 5 123)) [(0, 2)]
       [("mental", 2)]]
    [] [(0, "mental")] = Raise KeyError.
Proof.
  split; [split; [now left | split; [lia | reflexivity]] |].
  repeat split; reflexivity.
Qed.
